(** * Unfurl: the job engine and the configurator interface

    A shallow embedding of [unfurl/configurator.py] and [unfurl/job.py].

    Python objects that the code mutates and shares (tasks, jobs, instances,
    the runner) live in a store, the [World]; methods are functions in a
    state-and-exception monad over it.  Dynamically typed values are a small
    tagged union, [PyVal], with Python's truthiness and [==] written out.
    Code of the package that is imported by the two modules but is not part
    of them ([support], [result], [util], [eval], [plan]) is either a
    section variable or a definition whose comment starts with
    "Modelled from the spec". *)

From stdpp Require Import base list strings pretty relations.
From Stdlib Require Import ZArith Lia Sorted.

Set Warnings "-register-all".

(* ================================================================== *)
(** ** Enumerations of [unfurl.support] *)

(** Modelled from the spec: [support.Status] is missing from the sources;
    the data model lists its members in this order, and [Job.stats] treats
    [Status.unknown] as falsy, so the members carry their rank as value. *)
Module Status.
Inductive t := unknown | ok | degraded | error | pending | notapplied | notpresent | absent.
Definition value (s : t) : Z :=
  match s with
  | unknown => 0 | ok => 1 | degraded => 2 | error => 3
  | pending => 4 | notapplied => 5 | notpresent => 6 | absent => 7
  end%Z.
End Status.

(** Modelled from the spec: [support.Priority] is missing from the sources;
    the data model gives [ignore < optional < required < critical]. *)
Module Priority.
Inductive t := ignore | optional | required | critical.
Definition value (p : t) : Z :=
  match p with ignore => 0 | optional => 1 | required => 2 | critical => 3 end%Z.
End Priority.

(* ================================================================== *)
(** ** Python values *)

(** The values that flow through the two modules.  Objects of classes that
    the code only passes around (templates, externals) are opaque [VObject]s
    compared by identity. *)
Inductive PyVal :=
| VNone
| VBool (b : bool)
| VInt (n : Z)
| VStr (s : string)
| VStatus (s : Status.t)
| VPriority (p : Priority.t)
| VList (items : list PyVal)
| VDict (items : list (string * PyVal))
| VEnvironment (vars isolate passvars addinputs : PyVal)
| VResults (attributes : PyVal)
| VChangeAware (oid : nat)
| VException (message : PyVal)
| VObject (oid : nat).

(** [bool(v)]: what [if v], [not v], [v or w] and [v and w] test. *)
Fixpoint truthy (v : PyVal) : bool :=
  match v with
  | VNone => false
  | VBool b => b
  | VInt n => negb (n =? 0)%Z
  | VStr s => negb (String.eqb s "")
  | VStatus s => negb (Status.value s =? 0)%Z
  | VPriority p => negb (Priority.value p =? 0)%Z
  | VList items => match items with [] => false | _ => true end
  | VDict items => match items with [] => false | _ => true end
  | VEnvironment _ _ _ _ => true
  | VResults attributes => truthy attributes
  | VChangeAware _ => true
  | VException _ => true
  | VObject _ => true
  end.

Definition is_None (v : PyVal) : bool :=
  match v with VNone => true | _ => false end.

(** [a or b] and [a and b] return one of their operands. *)
Definition py_or (a b : PyVal) : PyVal := if truthy a then a else b.
Definition py_and (a b : PyVal) : PyVal := if truthy a then b else a.

(** *** Dictionaries *)

Definition PyDict := list (string * PyVal).

Fixpoint dict_get (d : PyDict) (k : string) : option PyVal :=
  match d with
  | [] => None
  | (k', v) :: d' => if String.eqb k k' then Some v else dict_get d' k
  end.

(** *** Equality *)

(** The numbers.  [bool] is a subclass of [int], and the members of the
    two enumerations are integers as well (they are ordered and
    [Status.unknown] is falsy), so [False == 0], [True == 1] and
    [Priority.optional == 1]. *)
Definition py_int (v : PyVal) : option Z :=
  match v with
  | VBool b => Some (if b then 1 else 0)%Z
  | VInt n => Some n
  | VStatus s => Some (Status.value s)
  | VPriority p => Some (Priority.value p)
  | _ => None
  end.

(** Every key of [xs] that is not in [seen] is a key of [ys] with an equal
    value; a key counts where it stands first, as [dict_get] reads it. *)
Fixpoint dict_le (eq : PyVal -> PyVal -> bool) (xs : PyDict) (seen : list string)
    (ys : PyDict) {struct xs} : bool :=
  match xs with
  | [] => true
  | (k, x) :: xs' =>
      (if existsb (String.eqb k) seen then true
       else match dict_get ys k with
            | Some y => eq x y
            | None => false
            end)
      && dict_le eq xs' (k :: seen) ys
  end.

(** [a == b].  Numbers compare by value; lists compare item by item;
    mappings are equal when they have the same keys with equal values, in
    whatever order the keys were inserted; an [Environment] compares its
    four fields ([Environment.__eq__]); opaque objects compare by
    identity. *)
Fixpoint py_eq (a b : PyVal) {struct a} : bool :=
  match py_int a, py_int b with
  | Some x, Some y => (x =? y)%Z
  | Some _, None | None, Some _ => false
  | None, None =>
      match a, b with
      | VNone, VNone => true
      | VStr x, VStr y => String.eqb x y
      | VList xs, VList ys =>
          (fix items_eq (xs ys : list PyVal) {struct xs} : bool :=
             match xs, ys with
             | [], [] => true
             | x :: xs', y :: ys' => py_eq x y && items_eq xs' ys'
             | _, _ => false
             end) xs ys
      | VDict xs, VDict ys =>
          dict_le (fun x y => py_eq x y) xs [] ys
          && forallb (fun ky => match dict_get xs ky.1 with
                                | Some _ => true
                                | None => false
                                end) ys
      | VEnvironment v i p a, VEnvironment v' i' p' a' =>
          py_eq v v' && py_eq i i' && py_eq p p' && py_eq a a'
      | VResults x, VResults y => py_eq x y
      | VChangeAware x, VChangeAware y => Nat.eqb x y
      | VException x, VException y => py_eq x y
      | VObject x, VObject y => Nat.eqb x y
      | _, _ => false
      end
  end.

(** What two equal mappings answer for a key. *)
Definition lookup_eq (ox oy : option PyVal) : Prop :=
  match ox, oy with
  | Some x, Some y => py_eq x y = true
  | None, None => True
  | _, _ => False
  end.

(** [str(v)], as far as the engine formats values into keys and messages. *)
Definition py_str (v : PyVal) : string :=
  match v with
  | VNone => "None"
  | VBool true => "True"
  | VBool false => "False"
  | VInt n => pretty n
  | VStr s => s
  | _ => "<object>"
  end.

(** *** Updating dictionaries *)

(** [d[k] = v]: an existing key keeps its place. *)
Fixpoint dict_set (d : PyDict) (k : string) (v : PyVal) : PyDict :=
  match d with
  | [] => [(k, v)]
  | (k', v') :: d' =>
      if String.eqb k k' then (k', v) :: d' else (k', v') :: dict_set d' k v
  end.

(** [d.update(mods)] *)
Definition dict_update (d mods : PyDict) : PyDict :=
  fold_left (fun acc kv => dict_set acc kv.1 kv.2) mods d.

(** A keyword argument with its default. *)
Definition kwarg (kw : PyDict) (k : string) (default : PyVal) : PyVal :=
  match dict_get kw k with Some v => v | None => default end.

(** *** Exceptions *)

Inductive PyExc :=
| AttributeError (attr : string)
| TypeError (message : string)
| AssertionError (message : string)
| StopIteration
| ValueError (message : string)
| UnfurlError (message : string)
| Exception (message : string)
| DanglingReference
| OutOfFuel.

(** Every exception the engine can meet derives from [Exception], but the
    last two are not Python's: [DanglingReference] is a store index that
    names no object (no Python reference can do that) and [OutOfFuel] is
    the model's bound on the driver's loops; no handler catches them. *)
Definition is_Exception (e : PyExc) : bool :=
  match e with DanglingReference | OutOfFuel => false | _ => true end.

(* ================================================================== *)
(** ** configurator.py *)

(** Modelled from the spec: [support.Defaults] is missing from the sources;
    the spec names [deploy] as the canonical workflow. *)
Definition Defaults_workflow : PyVal := VStr "deploy".

(** *** Environment *)

Module Environment.
Record t := mk { vars : PyVal; isolate : PyVal; passvars : PyVal; addinputs : PyVal }.
End Environment.

(** [Environment] called with keywords [kw]: the four named parameters with their defaults;
    other keywords are swallowed by the catch-all parameter. *)
Definition Environment_init (kw : PyDict) : Environment.t :=
  {| Environment.vars := py_or (kwarg kw "vars" VNone) (VDict []);
     Environment.isolate := kwarg kw "isolate" (VBool false);
     Environment.passvars := kwarg kw "passvars" VNone;
     Environment.addinputs := kwarg kw "addinputs" (VBool false) |}.

(** An [Environment] instance as a value. *)
Definition Environment_val (e : Environment.t) : PyVal :=
  VEnvironment (Environment.vars e) (Environment.isolate e)
               (Environment.passvars e) (Environment.addinputs e).

Definition Environment_eq (self other : Environment.t) : bool :=
  py_eq (Environment.vars self) (Environment.vars other)
  && py_eq (Environment.isolate self) (Environment.isolate other)
  && py_eq (Environment.passvars self) (Environment.passvars other)
  && py_eq (Environment.addinputs self) (Environment.addinputs other).

(** *** ConfigurationSpec *)

Module ConfigurationSpec.
Record t := mk {
  name : PyVal;
  operation : PyVal;
  className : PyVal;
  majorVersion : PyVal;
  minorVersion : PyVal;
  workflow : PyVal;
  timeout : PyVal;
  environment : Environment.t;
  inputs : PyVal;
  inputSchema : PyVal;
  preConditions : PyVal;
  postConditions : PyVal;
  installer : PyVal }.
End ConfigurationSpec.

(** [ConfigurationSpec.__init__], every parameter given.  [environment] is
    what the caller passes: [None], a mapping of keyword arguments for
    [Environment], or anything else, which keyword unpacking refuses. *)
Definition ConfigurationSpec_init
    (name operation className majorVersion minorVersion workflow timeout
     environment inputs inputSchema preConditions postConditions installer : PyVal)
  : PyExc + ConfigurationSpec.t :=
  if negb (truthy (py_and name className))
  then inl (AssertionError "missing required arguments")
  else
    match py_or environment (VDict []) with
    | VDict kw =>
        inr {| ConfigurationSpec.name := name;
               ConfigurationSpec.operation := operation;
               ConfigurationSpec.className := className;
               ConfigurationSpec.majorVersion := majorVersion;
               ConfigurationSpec.minorVersion := minorVersion;
               ConfigurationSpec.workflow := workflow;
               ConfigurationSpec.timeout := timeout;
               ConfigurationSpec.environment := Environment_init kw;
               ConfigurationSpec.inputs := py_or inputs (VDict []);
               ConfigurationSpec.inputSchema := inputSchema;
               ConfigurationSpec.preConditions := preConditions;
               ConfigurationSpec.postConditions := postConditions;
               ConfigurationSpec.installer := installer |}
    | _ => inl (TypeError "keyword unpacking needs a mapping")
    end.

Definition ConfigurationSpec_parameters : list string :=
  ["name"; "operation"; "className"; "majorVersion"; "minorVersion"; "workflow";
   "timeout"; "environment"; "inputs"; "inputSchema"; "preConditions";
   "postConditions"; "installer"].

(** [ConfigurationSpec] called with keywords [args]: they are bound to the parameters of
    [__init__]; [name] and [operation] have no default. *)
Definition ConfigurationSpec_call (args : PyDict) : PyExc + ConfigurationSpec.t :=
  if negb (forallb (fun kv => existsb (String.eqb kv.1) ConfigurationSpec_parameters) args)
  then inl (TypeError "got an unexpected keyword argument")
  else
    match dict_get args "name", dict_get args "operation" with
    | Some name, Some operation =>
        ConfigurationSpec_init name operation
          (kwarg args "className" VNone)
          (kwarg args "majorVersion" (VInt 0))
          (kwarg args "minorVersion" (VStr ""))
          (kwarg args "workflow" Defaults_workflow)
          (kwarg args "timeout" VNone)
          (kwarg args "environment" VNone)
          (kwarg args "inputs" VNone)
          (kwarg args "inputSchema" VNone)
          (kwarg args "preConditions" VNone)
          (kwarg args "postConditions" VNone)
          (kwarg args "installer" VNone)
    | _, _ => inl (TypeError "missing required positional arguments")
    end.

(** [self.__dict__]: the attributes in the order [__init__] assigns them. *)
Definition ConfigurationSpec_dict (self : ConfigurationSpec.t) : PyDict :=
  [("name", ConfigurationSpec.name self);
   ("operation", ConfigurationSpec.operation self);
   ("className", ConfigurationSpec.className self);
   ("majorVersion", ConfigurationSpec.majorVersion self);
   ("minorVersion", ConfigurationSpec.minorVersion self);
   ("workflow", ConfigurationSpec.workflow self);
   ("timeout", ConfigurationSpec.timeout self);
   ("environment", Environment_val (ConfigurationSpec.environment self));
   ("inputs", ConfigurationSpec.inputs self);
   ("inputSchema", ConfigurationSpec.inputSchema self);
   ("preConditions", ConfigurationSpec.preConditions self);
   ("postConditions", ConfigurationSpec.postConditions self);
   ("installer", ConfigurationSpec.installer self)].

Definition ConfigurationSpec_copy (self : ConfigurationSpec.t) (mods : PyDict)
  : PyExc + ConfigurationSpec.t :=
  let args := ConfigurationSpec_dict self in
  let args := dict_update args mods in
  ConfigurationSpec_call args.

(** [ConfigurationSpec.__eq__] on two specs.  The tenth conjunct compares
    [self.inputSchema] with [self.inputSchema], as the source does, and
    there is no conjunct for [installer]. *)
Definition ConfigurationSpec_eq (self other : ConfigurationSpec.t) : bool :=
  py_eq (ConfigurationSpec.name self) (ConfigurationSpec.name other)
  && py_eq (ConfigurationSpec.operation self) (ConfigurationSpec.operation other)
  && py_eq (ConfigurationSpec.className self) (ConfigurationSpec.className other)
  && py_eq (ConfigurationSpec.majorVersion self) (ConfigurationSpec.majorVersion other)
  && py_eq (ConfigurationSpec.minorVersion self) (ConfigurationSpec.minorVersion other)
  && py_eq (ConfigurationSpec.workflow self) (ConfigurationSpec.workflow other)
  && py_eq (ConfigurationSpec.timeout self) (ConfigurationSpec.timeout other)
  && Environment_eq (ConfigurationSpec.environment self) (ConfigurationSpec.environment other)
  && py_eq (ConfigurationSpec.inputs self) (ConfigurationSpec.inputs other)
  && py_eq (ConfigurationSpec.inputSchema self) (ConfigurationSpec.inputSchema self)
  && py_eq (ConfigurationSpec.preConditions self) (ConfigurationSpec.preConditions other)
  && py_eq (ConfigurationSpec.postConditions self) (ConfigurationSpec.postConditions other).

(** *** ConfiguratorResult *)

Module ConfiguratorResult.
Record t := mk {
  applied : PyVal;
  modified : PyVal;
  readyState : PyVal;
  configChanged : PyVal;
  result : PyVal;
  success : PyVal;
  outputs : PyVal;
  exception : PyVal }.
End ConfiguratorResult.

(** [ConfiguratorResult.__init__], every parameter given: the [status]
    argument is stored as [readyState], and [exception] is not stored. *)
Definition ConfiguratorResult_init
    (applied modified status configChanged result success outputs exception : PyVal)
  : ConfiguratorResult.t :=
  {| ConfiguratorResult.applied := applied;
     ConfiguratorResult.modified := modified;
     ConfiguratorResult.readyState := status;
     ConfiguratorResult.configChanged := configChanged;
     ConfiguratorResult.result := result;
     ConfiguratorResult.success := success;
     ConfiguratorResult.outputs := outputs;
     ConfiguratorResult.exception := VNone |}.

(** The call forms the engine uses, with the defaults of [__init__].
    [ConfiguratorResult(applied, modified)],
    [ConfiguratorResult(applied, modified, status)] and
    [ConfiguratorResult(applied, modified, result=errors)]. *)
Definition ConfiguratorResult_2 (applied modified : PyVal) : ConfiguratorResult.t :=
  ConfiguratorResult_init applied modified VNone VNone VNone VNone VNone VNone.
Definition ConfiguratorResult_3 (applied modified status : PyVal) : ConfiguratorResult.t :=
  ConfiguratorResult_init applied modified status VNone VNone VNone VNone VNone.
Definition ConfiguratorResult_result (applied modified result : PyVal) : ConfiguratorResult.t :=
  ConfiguratorResult_init applied modified VNone VNone result VNone VNone VNone.

(** [r.attr] on an instance, for the names the engine and configurators
    read: the class defines only [__init__] and [__str__], so the data
    attributes are the eight that [__init__] assigns; any other such name
    raises [AttributeError]. *)
Definition ConfiguratorResult_getattr (r : ConfiguratorResult.t) (attr : string)
  : PyExc + PyVal :=
  if String.eqb attr "applied" then inr (ConfiguratorResult.applied r)
  else if String.eqb attr "modified" then inr (ConfiguratorResult.modified r)
  else if String.eqb attr "readyState" then inr (ConfiguratorResult.readyState r)
  else if String.eqb attr "configChanged" then inr (ConfiguratorResult.configChanged r)
  else if String.eqb attr "result" then inr (ConfiguratorResult.result r)
  else if String.eqb attr "success" then inr (ConfiguratorResult.success r)
  else if String.eqb attr "outputs" then inr (ConfiguratorResult.outputs r)
  else if String.eqb attr "exception" then inr (ConfiguratorResult.exception r)
  else inl (AttributeError attr).

(** *** Dependency *)

Module Dependency.
Record t := mk {
  expr : string;
  expected : PyVal;
  schema : PyVal;
  required : bool;
  name : PyVal;
  wantList : bool }.
End Dependency.

(** What [RefContext(instance, vars)] holds. *)
Record RefContext := mkRefContext { ctx_instance : nat; ctx_vars : PyDict }.

(** What a dependency reads from the task it is checked against
    ([config.target] and [config.changeId]). *)
Record Changeset := mkChangeset { cs_target : nat; cs_changeId : Z }.

Section DependencyTracker.

(** The expression evaluator and the schema validator are external
    ([unfurl.eval], [unfurl.util]); [changeAware_hasChanged oid cs] is the
    [hasChanged(changeset)] method of the [ChangeAware] object [oid]. *)
Variable resolveOne : string -> RefContext -> PyVal.
Variable mapValue : PyVal -> RefContext -> PyVal.
Variable validateSchema : PyVal -> PyVal -> bool.
Variable changeAware_hasChanged : nat -> Changeset -> PyVal.

(** [Dependency.hasValueChanged].  The branches for mappings and sequences
    return [True] or fall off the end of the function ([None]). *)
Fixpoint Dependency_hasValueChanged (value : PyVal) (changeset : Changeset) : PyVal :=
  match value with
  | VResults attributes => Dependency_hasValueChanged attributes changeset
  | VDict items =>
      if existsb (fun kv => truthy (Dependency_hasValueChanged (snd kv) changeset)) items
      then VBool true else VNone
  | VList items =>
      if existsb (fun v => truthy (Dependency_hasValueChanged v changeset)) items
      then VBool true else VNone
  | VChangeAware oid => changeAware_hasChanged oid changeset
  | _ => VBool false
  end.

(** [Dependency.hasChanged] *)
Definition Dependency_hasChanged (self : Dependency.t) (config : Changeset) : bool :=
  let changeId := cs_changeId config in
  let context :=
    mkRefContext (cs_target config)
                 [("val", Dependency.expected self); ("changeId", VInt changeId)] in
  let result := resolveOne (Dependency.expr self) context in
  let walk := if truthy (Dependency_hasValueChanged result config) then true else false in
  if truthy (Dependency.schema self) then
    if negb (validateSchema result (Dependency.schema self)) then false
    else walk
  else
    if negb (is_None (Dependency.expected self)) then
      let expected := mapValue (Dependency.expected self) context in
      if negb (py_eq result expected) then true
      else walk
    else if negb (truthy result) then true
    else walk.

End DependencyTracker.

(* ================================================================== *)
(** ** job.py: the objects *)

(** Attribute changes: the value written for (instance key, attribute). *)
Definition Changes := list ((string * string) * PyVal).

Definition changes_set (c : Changes) (k : string * string) (v : PyVal) : Changes :=
  (fix set (c : Changes) : Changes :=
     match c with
     | [] => [(k, v)]
     | (k', v') :: c' =>
         if String.eqb k.1 k'.1 && String.eqb k.2 k'.2
         then (k', v) :: c' else (k', v') :: set c'
     end) c.

(** Modelled from the spec: [merge.mergeDicts] is missing from the sources;
    snapshots are merged in order, later writes winning per key. *)
Definition mergeDicts (a b : Changes) : Changes :=
  fold_left (fun acc kv => changes_set acc kv.1 kv.2) b a.

(** Modelled from the spec: [TaskRequest] and [JobRequest] are imported by
    both modules and defined by neither; the spec gives
    [TaskRequest{configSpec, target, persist, required}] and
    [JobRequest{instances, errors}].  [jr_oid] is the identity of the
    request object, which [list.remove] compares. *)
Record TaskRequest := mkTaskRequest {
  tr_configSpec : ConfigurationSpec.t;
  tr_target : nat;
  tr_persist : bool;
  tr_required : bool }.

Record JobRequest := mkJobRequest {
  jr_oid : nat;
  jr_instances : list nat;
  jr_errors : list string }.

(** *** Configurators and their generators *)

(** What a configurator's generator can yield to [Job.runTask]. *)
Inductive Yielded :=
| YTaskRequest (r : TaskRequest)
| YJobRequest (r : JobRequest)
| YConfiguratorResult (r : ConfiguratorResult.t)
| YOther (v : PyVal).

(** What [runTask] sends back into the generator: [None], the finished
    sub-task or the child job (a reference into the store). *)
Inductive Sent := SentNone | SentTask (task : nat) | SentJob (job : nat).

(** What a configurator does between two suspension points, as far as the
    engine sees it: attribute writes through the attribute manager and job
    requests queued by [TaskView.updateResources]. *)
Inductive Effect :=
| EWrite (instanceKey attr : string) (v : PyVal)
| EJobRequest (r : JobRequest).

(** A generator object: suspended, it waits for [send]; resumed, it runs to
    its next [yield], raises or returns. *)
Inductive Generator :=
| GSuspended (resume : Sent -> GeneratorStep)
with GeneratorStep :=
| GYield (effects : list Effect) (y : Yielded) (rest : Generator)
| GRaise (effects : list Effect) (e : PyExc)
| GReturn (effects : list Effect).

(** A generator that has raised or returned: [send] raises [StopIteration]. *)
Definition Generator_exhausted : Generator := GSuspended (fun _ => GReturn []).

(** The configurator contract.  The engine treats a configurator as a black
    box: what its methods answer for a target is all the model keeps.  A
    class that does not define [canRun] answers with [AttributeError]. *)
Record Configurator := mkConfigurator {
  cfg_getGenerator : nat -> Generator;
  cfg_canDryRun : nat -> bool;
  cfg_canRun : nat -> PyExc + PyVal;
  cfg_shouldRun : nat -> PyExc + PyVal }.

(** *** Plans *)

(** What [plan.executePlan()] yields: [req.configSpec], [req.target],
    [req.error] and [req.reason]. *)
Record PlanRequest := mkPlanRequest {
  req_configSpec : ConfigurationSpec.t;
  req_target : nat;
  req_error : PyVal;
  req_reason : PyVal }.

(** The plan's generator; [Job.getCandidateTasks] sends it the last
    finished task, or [None]. *)
Inductive PlanGenerator :=
| PSuspended (resume : option nat -> PlanStep)
with PlanStep :=
| PYield (req : PlanRequest) (rest : PlanGenerator)
| PRaise (e : PyExc)
| PReturn.

(** *** Instances, options, tasks, jobs, the runner *)

Module Instance.
Record t := mk {
  name : string;
  key : string;
  attributes : PyDict;
  localStatus : PyVal;
  _lastConfigChange : PyVal;
  _lastStateChange : PyVal;
  (** [getOperationalDependencies()]: name, [operational], [required] *)
  operationalDependencies : list (string * bool * bool) }.
End Instance.

Module JobOptions.
Record t := mk {
  parentJob : option nat;
  startTime : PyVal;
  verbose : PyVal;
  instance : option string;
  instances : option (list string);
  repair : PyVal;
  all : bool;
  readonly : bool;
  dryrun : bool;
  planOnly : bool;
  requiredOnly : bool;
  commit : bool;
  dirty : bool;
  workflow : PyVal }.
End JobOptions.

(** [JobOptions()]: the class defaults. *)
Definition JobOptions_defaults : JobOptions.t :=
  {| JobOptions.parentJob := None;
     JobOptions.startTime := VNone;
     JobOptions.verbose := VInt 0;
     JobOptions.instance := None;
     JobOptions.instances := None;
     JobOptions.repair := VStr "error";
     JobOptions.all := false;
     JobOptions.readonly := false;
     JobOptions.dryrun := false;
     JobOptions.planOnly := false;
     JobOptions.requiredOnly := false;
     JobOptions.commit := true;
     JobOptions.dirty := false;
     JobOptions.workflow := Defaults_workflow |}.

Module ConfigTask.
Record t := mk {
  configSpec : ConfigurationSpec.t;
  target : nat;
  reason : PyVal;
  parentId : Z;
  changeId : Z;
  startTime : PyVal;
  dryRun : bool;
  verbose : PyVal;
  _configurator : option Configurator;
  generator : option Generator;
  job : nat;
  changeList : list Changes;
  result : option ConfiguratorResult.t;
  outputs : PyVal;
  (** from the mix-ins [ConfigChange], [TaskView] and [AttributeManager] *)
  localStatus : PyVal;
  _priority : PyVal;
  errors : list string;
  staged : Changes;
  _resourceChanges : Changes }.

Definition set_changeId (v : Z) (x : t) : t :=
  mk (configSpec x) (target x) (reason x) (parentId x) v (startTime x) (dryRun x)
     (verbose x) (_configurator x) (generator x) (job x) (changeList x) (result x)
     (outputs x) (localStatus x) (_priority x) (errors x) (staged x) (_resourceChanges x).
Definition set__configurator (v : option Configurator) (x : t) : t :=
  mk (configSpec x) (target x) (reason x) (parentId x) (changeId x) (startTime x) (dryRun x)
     (verbose x) v (generator x) (job x) (changeList x) (result x)
     (outputs x) (localStatus x) (_priority x) (errors x) (staged x) (_resourceChanges x).
Definition set_generator (v : option Generator) (x : t) : t :=
  mk (configSpec x) (target x) (reason x) (parentId x) (changeId x) (startTime x) (dryRun x)
     (verbose x) (_configurator x) v (job x) (changeList x) (result x)
     (outputs x) (localStatus x) (_priority x) (errors x) (staged x) (_resourceChanges x).
Definition set_changeList (v : list Changes) (x : t) : t :=
  mk (configSpec x) (target x) (reason x) (parentId x) (changeId x) (startTime x) (dryRun x)
     (verbose x) (_configurator x) (generator x) (job x) v (result x)
     (outputs x) (localStatus x) (_priority x) (errors x) (staged x) (_resourceChanges x).
Definition set_result (v : option ConfiguratorResult.t) (x : t) : t :=
  mk (configSpec x) (target x) (reason x) (parentId x) (changeId x) (startTime x) (dryRun x)
     (verbose x) (_configurator x) (generator x) (job x) (changeList x) v
     (outputs x) (localStatus x) (_priority x) (errors x) (staged x) (_resourceChanges x).
Definition set_outputs (v : PyVal) (x : t) : t :=
  mk (configSpec x) (target x) (reason x) (parentId x) (changeId x) (startTime x) (dryRun x)
     (verbose x) (_configurator x) (generator x) (job x) (changeList x) (result x)
     v (localStatus x) (_priority x) (errors x) (staged x) (_resourceChanges x).
Definition set_localStatus (v : PyVal) (x : t) : t :=
  mk (configSpec x) (target x) (reason x) (parentId x) (changeId x) (startTime x) (dryRun x)
     (verbose x) (_configurator x) (generator x) (job x) (changeList x) (result x)
     (outputs x) v (_priority x) (errors x) (staged x) (_resourceChanges x).
Definition set__priority (v : PyVal) (x : t) : t :=
  mk (configSpec x) (target x) (reason x) (parentId x) (changeId x) (startTime x) (dryRun x)
     (verbose x) (_configurator x) (generator x) (job x) (changeList x) (result x)
     (outputs x) (localStatus x) v (errors x) (staged x) (_resourceChanges x).
Definition set_errors (v : list string) (x : t) : t :=
  mk (configSpec x) (target x) (reason x) (parentId x) (changeId x) (startTime x) (dryRun x)
     (verbose x) (_configurator x) (generator x) (job x) (changeList x) (result x)
     (outputs x) (localStatus x) (_priority x) v (staged x) (_resourceChanges x).
Definition set_staged (v : Changes) (x : t) : t :=
  mk (configSpec x) (target x) (reason x) (parentId x) (changeId x) (startTime x) (dryRun x)
     (verbose x) (_configurator x) (generator x) (job x) (changeList x) (result x)
     (outputs x) (localStatus x) (_priority x) (errors x) v (_resourceChanges x).
Definition set__resourceChanges (v : Changes) (x : t) : t :=
  mk (configSpec x) (target x) (reason x) (parentId x) (changeId x) (startTime x) (dryRun x)
     (verbose x) (_configurator x) (generator x) (job x) (changeList x) (result x)
     (outputs x) (localStatus x) (_priority x) (errors x) (staged x) v.
End ConfigTask.

Module Job.
Record t := mk {
  jobOptions : JobOptions.t;
  parentJob : option nat;
  dryRun : bool;
  startTime : PyVal;
  verbose : PyVal;
  plan : PlanGenerator;
  jobRequestQueue : list JobRequest;
  unexpectedAbort : PyVal;
  changeId : Z;
  parentId : PyVal;
  workDone : list (string * nat);
  localStatus : PyVal }.

Definition set_jobRequestQueue (v : list JobRequest) (x : t) : t :=
  mk (jobOptions x) (parentJob x) (dryRun x) (startTime x) (verbose x) (plan x) v
     (unexpectedAbort x) (changeId x) (parentId x) (workDone x) (localStatus x).
Definition set_unexpectedAbort (v : PyVal) (x : t) : t :=
  mk (jobOptions x) (parentJob x) (dryRun x) (startTime x) (verbose x) (plan x)
     (jobRequestQueue x) v (changeId x) (parentId x) (workDone x) (localStatus x).
Definition set_workDone (v : list (string * nat)) (x : t) : t :=
  mk (jobOptions x) (parentJob x) (dryRun x) (startTime x) (verbose x) (plan x)
     (jobRequestQueue x) (unexpectedAbort x) (changeId x) (parentId x) v (localStatus x).
Definition set_localStatus (v : PyVal) (x : t) : t :=
  mk (jobOptions x) (parentJob x) (dryRun x) (startTime x) (verbose x) (plan x)
     (jobRequestQueue x) (unexpectedAbort x) (changeId x) (parentId x) (workDone x) v.
End Job.

(** The manifest, as far as the runner consumes it: [localEnv] is [None] or
    an environment whose [getRepos()] are listed with what [isDirty()]
    answers; [committed] records the calls of [commitJob]. *)
Module Manifest.
Record t := mk {
  lastChangeId : Z;
  tosca : PyVal;
  baseDir : PyVal;
  localEnv : option (list bool);
  committed : list nat }.
End Manifest.

Module Runner.
Record t := mk {
  manifest : Manifest.t;
  lastChangeId : Z;
  currentJob : option nat }.
End Runner.

(** The store.  [rootAttributeManager] is [target.root.attributeManager]
    (all instances hang off one root), [cwd] the process's working
    directory and [verbosity] is [display.verbosity]. *)
Record World := mkWorld {
  runner : Runner.t;
  jobs : list Job.t;
  tasks : list ConfigTask.t;
  instances : list Instance.t;
  rootAttributeManager : option nat;
  cwd : string;
  verbosity : PyVal }.

Definition set_runner (v : Runner.t) (w : World) : World :=
  mkWorld v (jobs w) (tasks w) (instances w) (rootAttributeManager w) (cwd w) (verbosity w).
Definition set_jobs (v : list Job.t) (w : World) : World :=
  mkWorld (runner w) v (tasks w) (instances w) (rootAttributeManager w) (cwd w) (verbosity w).
Definition set_tasks (v : list ConfigTask.t) (w : World) : World :=
  mkWorld (runner w) (jobs w) v (instances w) (rootAttributeManager w) (cwd w) (verbosity w).
Definition set_instances (v : list Instance.t) (w : World) : World :=
  mkWorld (runner w) (jobs w) (tasks w) v (rootAttributeManager w) (cwd w) (verbosity w).
Definition set_rootAttributeManager (v : option nat) (w : World) : World :=
  mkWorld (runner w) (jobs w) (tasks w) (instances w) v (cwd w) (verbosity w).
Definition set_cwd (v : string) (w : World) : World :=
  mkWorld (runner w) (jobs w) (tasks w) (instances w) (rootAttributeManager w) v (verbosity w).
Definition set_verbosity (v : PyVal) (w : World) : World :=
  mkWorld (runner w) (jobs w) (tasks w) (instances w) (rootAttributeManager w) (cwd w) v.

(* ================================================================== *)
(** ** The monad of methods: state and exceptions *)

(** A method call maps the store to its outcome (a raised exception or a
    return value) and the store it leaves; what was mutated before an
    exception stays mutated. *)
Definition M (A : Type) : Type := World -> (PyExc + A) * World.

#[global] Instance M_ret : MRet M := fun A x w => (inr x, w).
#[global] Instance M_bind : MBind M := fun A B f m w =>
  match m w with
  | (inl e, w') => (inl e, w')
  | (inr x, w') => f x w'
  end.

Definition raise {A} (e : PyExc) : M A := fun w => (inl e, w).
Definition get : M World := fun w => (inr w, w).
Definition modify (f : World -> World) : M unit := fun w => (inr tt, f w).
Definition lift {A} (r : PyExc + A) : M A := fun w => (r, w).

(** [try: body except Exception: handler] *)
Definition try_except {A} (body : M A) (handler : PyExc -> M A) : M A := fun w =>
  match body w with
  | (inl e, w') => if is_Exception e then handler e w' else (inl e, w')
  | r => r
  end.

(** [try: body finally: cleanup] *)
Definition try_finally {A} (body : M A) (cleanup : M unit) : M A := fun w =>
  match body w with
  | (r, w') =>
      match cleanup w' with
      | (inl e, w'') => (inl e, w'')
      | (inr _, w'') => (r, w'')
      end
  end.

Definition getTask (t : nat) : M ConfigTask.t := fun w =>
  match tasks w !! t with
  | Some x => (inr x, w)
  | None => (inl DanglingReference, w)
  end.
Definition modifyTask (t : nat) (f : ConfigTask.t -> ConfigTask.t) : M unit :=
  modify (fun w => set_tasks (alter f t (tasks w)) w).

Definition getJob (j : nat) : M Job.t := fun w =>
  match jobs w !! j with
  | Some x => (inr x, w)
  | None => (inl DanglingReference, w)
  end.
Definition modifyJob (j : nat) (f : Job.t -> Job.t) : M unit :=
  modify (fun w => set_jobs (alter f j (jobs w)) w).

Definition getInstance (i : nat) : M Instance.t := fun w =>
  match instances w !! i with
  | Some x => (inr x, w)
  | None => (inl DanglingReference, w)
  end.
Definition modifyInstance (i : nat) (f : Instance.t -> Instance.t) : M unit :=
  modify (fun w => set_instances (alter f i (instances w)) w).

Definition Instance_set_localStatus (v : PyVal) (x : Instance.t) : Instance.t :=
  Instance.mk (Instance.name x) (Instance.key x) (Instance.attributes x) v
    (Instance._lastConfigChange x) (Instance._lastStateChange x)
    (Instance.operationalDependencies x).
Definition Instance_set__lastConfigChange (v : PyVal) (x : Instance.t) : Instance.t :=
  Instance.mk (Instance.name x) (Instance.key x) (Instance.attributes x)
    (Instance.localStatus x) v (Instance._lastStateChange x)
    (Instance.operationalDependencies x).
Definition Instance_set__lastStateChange (v : PyVal) (x : Instance.t) : Instance.t :=
  Instance.mk (Instance.name x) (Instance.key x) (Instance.attributes x)
    (Instance.localStatus x) (Instance._lastConfigChange x) v
    (Instance.operationalDependencies x).
Definition Instance_set_attribute (attr : string) (v : PyVal) (x : Instance.t) : Instance.t :=
  Instance.mk (Instance.name x) (Instance.key x) (dict_set (Instance.attributes x) attr v)
    (Instance.localStatus x) (Instance._lastConfigChange x) (Instance._lastStateChange x)
    (Instance.operationalDependencies x).

Definition Runner_set_lastChangeId (v : Z) (x : Runner.t) : Runner.t :=
  Runner.mk (Runner.manifest x) v (Runner.currentJob x).
Definition Runner_set_currentJob (v : option nat) (x : Runner.t) : Runner.t :=
  Runner.mk (Runner.manifest x) (Runner.lastChangeId x) v.
Definition Manifest_commitJob (job : nat) (x : Manifest.t) : Manifest.t :=
  Manifest.mk (Manifest.lastChangeId x) (Manifest.tosca x) (Manifest.baseDir x)
    (Manifest.localEnv x) (Manifest.committed x ++ [job]).
Definition Runner_set_manifest (v : Manifest.t) (x : Runner.t) : Runner.t :=
  Runner.mk v (Runner.lastChangeId x) (Runner.currentJob x).

(* ================================================================== *)
(** ** job.py: the methods *)

Section JobEngine.

(** What the two modules import from the rest of the package:
    [lookupClass] is [util.lookupClass] (the class registered under a name,
    applied to a spec by [ConfigurationSpec.create]), [Defaults_shouldRun]
    is [support.Defaults.shouldRun], [toEnum_Priority] is
    [util.toEnum(Priority, _)], [findSchemaErrors] is
    [util.findSchemaErrors], [ConfigTask_required] and
    [Instance_lastChange] are the properties [required] and [lastChange]
    of [runtime.OperationalInstance], [getPlanClassForWorkflow] is
    [plan.Plan.getPlanClassForWorkflow] and [now] is what
    [datetime.datetime.now()] answers. *)
Variable lookupClass : PyVal -> PyExc + (ConfigurationSpec.t -> Configurator).
Variable Defaults_shouldRun : PyVal.
Variable toEnum_Priority : PyVal -> PyExc + Priority.t.
Variable findSchemaErrors : PyVal -> PyVal -> list string.
Variable ConfigTask_required : ConfigTask.t -> bool.
Variable Instance_lastChange : Instance.t -> PyVal.
Variable getPlanClassForWorkflow : PyVal -> option (JobOptions.t -> PlanGenerator).
Variable now : PyVal.

(** *** configurator.py, the methods that need the store *)

Definition ConfigurationSpec_create (self : ConfigurationSpec.t) : M Configurator :=
  cls ← lift (lookupClass (ConfigurationSpec.className self));
  mret (cls self).

Definition ConfigurationSpec_shouldRun (self : ConfigurationSpec.t) : PyVal :=
  Defaults_shouldRun.

Definition ConfigurationSpec_findInvalidateInputs
    (self : ConfigurationSpec.t) (inputs : PyVal) : list string :=
  if negb (truthy (ConfigurationSpec.inputSchema self)) then []
  else findSchemaErrors inputs (ConfigurationSpec.inputSchema self).

Definition ConfigurationSpec_findInvalidPreconditions
    (self : ConfigurationSpec.t) (target : Instance.t) : list string :=
  if negb (truthy (ConfigurationSpec.preConditions self)) then []
  else findSchemaErrors (VDict (Instance.attributes target))
                        (ConfigurationSpec.preConditions self).

(** Modelled from the spec: [util.UnfurlTaskError] is missing from the
    sources; a task error is attached to its task (the engine reads it back
    as [task.errors]) and is raised only where the code says [raise]. *)
Definition UnfurlTaskError (task : nat) (message : string) : M unit :=
  modifyTask task (fun x => ConfigTask.set_errors (ConfigTask.errors x ++ [message]) x).

(** [TaskView.done]: every branch builds the result with
    [ConfiguratorResult(..., **kw)], where [kw] holds [exception] when
    [captureException] is given. *)
Definition TaskView_done (self : nat)
    (success modified status result outputs captureException : PyVal)
  : M ConfiguratorResult.t :=
  let '(status, modified) :=
    match modified with
    | VStatus _ => (modified, VBool true)
    | _ => (status, modified)
    end in
  exception ←
    (if negb (is_None captureException)
     then UnfurlTaskError self (py_str captureException);;
          mret (VException captureException)
     else mret VNone);
  if truthy success then
    mret (ConfiguratorResult_init (VBool true) modified status VNone result success outputs exception)
  else if truthy modified then
    task ← getTask self;
    let status :=
      if negb (truthy status)
      then VStatus (if ConfigTask_required task then Status.error else Status.degraded)
      else status in
    mret (ConfiguratorResult_init (VBool true) (VBool true) status VNone result success outputs exception)
  else
    mret (ConfiguratorResult_init (VBool false) (VBool false) VNone VNone result success outputs exception).

(** *** Runner, the methods tasks use *)

Definition Runner_incrementChangeId : M Z :=
  modify (fun w => set_runner
            (Runner_set_lastChangeId (Runner.lastChangeId (runner w) + 1)%Z (runner w)) w);;
  w ← get;
  mret (Runner.lastChangeId (runner w)).

(** [d[key] = task] on an ordered dictionary. *)
Fixpoint workDone_set (d : list (string * nat)) (k : string) (v : nat) : list (string * nat) :=
  match d with
  | [] => [(k, v)]
  | (k', v') :: d' =>
      if String.eqb k k' then (k', v) :: d' else (k', v') :: workDone_set d' k v
  end.

Definition Runner_addWork (task : nat) : M unit :=
  t ← getTask task;
  target ← getInstance (ConfigTask.target t);
  let key :=
    Instance.name target +:+ ":" +:+
    py_str (ConfigurationSpec.name (ConfigTask.configSpec t)) +:+ ":" +:+
    py_str (ConfigurationSpec.operation (ConfigTask.configSpec t)) +:+ ":" +:+
    pretty (ConfigTask.changeId t) in
  w ← get;
  match Runner.currentJob (runner w) with
  | None => raise (AttributeError "workDone")
  | Some current =>
      _ ← getJob current;
      modifyJob current (fun j => Job.set_workDone (workDone_set (Job.workDone j) key task) j);;
      _ ← getJob (ConfigTask.job t);
      modifyJob (ConfigTask.job t)
                (fun j => Job.set_workDone (workDone_set (Job.workDone j) key task) j)
  end.

Definition Runner_isConfigAlreadyHandled
    (configSpec : ConfigurationSpec.t) (target : nat) : option nat := None.

(** *** ConfigTask *)

(** [parentId or job.changeId] *)
Definition parentId_or (parentId : option Z) (jobChangeId : Z) : Z :=
  match parentId with
  | Some n => if (n =? 0)%Z then jobChangeId else n
  | None => jobChangeId
  end.

Definition ConfigTask_init (job : nat) (configSpec : ConfigurationSpec.t) (target : nat)
    (parentId : option Z) (reason : PyVal) : M nat :=
  j ← getJob job;
  _ ← getInstance target;
  w ← get;
  let parentId := parentId_or parentId (Job.changeId j) in
  let self := length (tasks w) in
  let task :=
    {| ConfigTask.configSpec := configSpec;
       ConfigTask.target := target;
       ConfigTask.reason := reason;
       ConfigTask.parentId := parentId;
       ConfigTask.changeId := parentId;
       ConfigTask.startTime := py_or (Job.startTime j) now;
       ConfigTask.dryRun := Job.dryRun j;
       ConfigTask.verbose := Job.verbose j;
       ConfigTask._configurator := None;
       ConfigTask.generator := None;
       ConfigTask.job := job;
       ConfigTask.changeList := [];
       ConfigTask.result := None;
       ConfigTask.outputs := VNone;
       ConfigTask.localStatus := VNone;
       ConfigTask._priority := VNone;
       ConfigTask.errors := [];
       ConfigTask.staged := [];
       ConfigTask._resourceChanges := [] |} in
  modify (fun w => set_tasks (tasks w ++ [task]) w);;
  modify (set_rootAttributeManager (Some self));;
  mret self.

(** The [priority] property. *)
Definition ConfigTask_priority (task : ConfigTask.t) : PyVal :=
  if is_None (ConfigTask._priority task)
  then ConfigurationSpec_shouldRun (ConfigTask.configSpec task)
  else ConfigTask._priority task.

(** The [configurator] property. *)
Definition ConfigTask_configurator (self : nat) : M Configurator :=
  task ← getTask self;
  match ConfigTask._configurator task with
  | Some c => mret c
  | None =>
      c ← ConfigurationSpec_create (ConfigTask.configSpec task);
      modifyTask self (ConfigTask.set__configurator (Some c));;
      mret c
  end.

Definition ConfigTask_startRun (self : nat) : M unit :=
  c ← ConfigTask_configurator self;
  task ← getTask self;
  modifyTask self (ConfigTask.set_generator (Some (cfg_getGenerator c (ConfigTask.target task)))).

Definition ConfigTask_start (self : nat) : M unit := ConfigTask_startRun self.

(** Modelled from the spec: [support.AttributeManager] is missing from the
    sources; [set] writes through to the instance and records the write in
    a staging log, [commitChanges] snapshots the staging log into a change
    dict and clears the staging area. *)
Definition AttributeManager_set (self : nat) (instanceKey attr : string) (v : PyVal) : M unit :=
  modify (fun w => set_instances
            (map (fun i => if String.eqb (Instance.key i) instanceKey
                           then Instance_set_attribute attr v i else i) (instances w)) w);;
  modifyTask self (fun x => ConfigTask.set_staged
                     (changes_set (ConfigTask.staged x) (instanceKey, attr) v) x).

Definition AttributeManager_commitChanges (self : nat) : M Changes :=
  task ← getTask self;
  modifyTask self (ConfigTask.set_staged []);;
  mret (ConfigTask.staged task).

(** What the configurator did while it ran.  An attribute write goes
    through [target.root.attributeManager], which is the task created last
    ([ConfigTask.__init__] sets it) and need not be the task that runs;
    before any task exists there is no manager and nothing records the
    write.  [TaskView.updateResources] appends its job request to
    [self.job.jobRequestQueue]. *)
Fixpoint run_effects (self : nat) (effects : list Effect) : M unit :=
  match effects with
  | [] => mret tt
  | EWrite instanceKey attr v :: rest =>
      w ← get;
      match rootAttributeManager w with
      | Some manager => AttributeManager_set manager instanceKey attr v
      | None =>
          modify (fun w => set_instances
                    (map (fun i => if String.eqb (Instance.key i) instanceKey
                                   then Instance_set_attribute attr v i else i)
                         (instances w)) w)
      end;;
      run_effects self rest
  | EJobRequest r :: rest =>
      task ← getTask self;
      modifyJob (ConfigTask.job task)
                (fun j => Job.set_jobRequestQueue (Job.jobRequestQueue j ++ [r]) j);;
      run_effects self rest
  end.

(** The writes among the effects, staged in turn on a staging log. *)
Definition stage_writes (effects : list Effect) (staged : Changes) : Changes :=
  fold_left (fun acc effect =>
               match effect with
               | EWrite instanceKey attr v => changes_set acc (instanceKey, attr) v
               | EJobRequest _ => acc
               end) effects staged.

(** What a generator does when it is resumed with [change], up to its next
    suspension point or its end. *)
Definition step_effects (g : option Generator) (change : Sent) : list Effect :=
  match g with
  | Some (GSuspended resume) =>
      match resume change with
      | GYield effects _ _ | GRaise effects _ | GReturn effects => effects
      end
  | None => []
  end.

(** [generator.send(change)] on the generator of task [self]. *)
Definition Generator_send (self : nat) (g : Generator) (change : Sent) : M Yielded :=
  match g with
  | GSuspended resume =>
      match resume change with
      | GYield effects y rest =>
          run_effects self effects;;
          modifyTask self (ConfigTask.set_generator (Some rest));;
          mret y
      | GRaise effects e =>
          run_effects self effects;;
          modifyTask self (ConfigTask.set_generator (Some Generator_exhausted));;
          raise e
      | GReturn effects =>
          run_effects self effects;;
          modifyTask self (ConfigTask.set_generator (Some Generator_exhausted));;
          raise StopIteration
      end
  end.

Definition ConfigTask_commitChanges (self : nat) : M Changes :=
  changes ← AttributeManager_commitChanges self;
  modifyTask self (fun x => ConfigTask.set_changeList (ConfigTask.changeList x ++ [changes]) x);;
  mret changes.

(** [ConfigTask.send]: [self.generator] is [None] before [start] and after
    [finished], and [None] has no [send]. *)
Definition ConfigTask_send (self : nat) (change : Sent) : M Yielded :=
  try_finally
    (task ← getTask self;
     match ConfigTask.generator task with
     | None => raise (AttributeError "send")
     | Some g => Generator_send self g change
     end)
    (_ ← ConfigTask_commitChanges self; mret tt).

(** An object, as attribute lookup. *)
Definition PyObject := string -> PyExc + PyVal.

Definition set_target_localStatus (self : nat) (v : PyVal) : M unit :=
  task ← getTask self;
  _ ← getInstance (ConfigTask.target task);
  modifyInstance (ConfigTask.target task) (Instance_set_localStatus v).

(** [ConfigTask._updateStatus]: it reads [result.status], [result.success]
    and [result.modified]. *)
Definition ConfigTask__updateStatus (self : nat) (result : PyObject) : M unit :=
  status ← lift (result "status");
  if negb (is_None status) then
    set_target_localStatus self status
  else
    success ← lift (result "success");
    if negb (truthy success) then
      modified ← lift (result "modified");
      if truthy modified then
        task ← getTask self;
        set_target_localStatus self
          (VStatus (if ConfigTask_required task then Status.error else Status.degraded))
      else if is_None modified then
        set_target_localStatus self (VStatus Status.unknown)
      else mret tt
    else mret tt.

(** Modelled from the spec: [support.ResourceChanges] is missing from the
    sources; it is the per-task log of attribute changes by instance key. *)
Definition ResourceChanges_updateChanges (self : nat) (accum : Changes) : M unit :=
  modifyTask self (fun x => ConfigTask.set__resourceChanges
                     (mergeDicts (ConfigTask._resourceChanges x) accum) x).

Definition ResourceChanges_getAttributeChanges (c : Changes) (key : string) : Changes :=
  filter (fun kv => String.eqb kv.1.1 key = true) c.

Definition ConfigTask__updateLastChange (self : nat) (result : ConfiguratorResult.t) : M unit :=
  task ← getTask self;
  target ← getInstance (ConfigTask.target task);
  (if is_None (Instance_lastChange target)
   then modifyInstance (ConfigTask.target task)
          (Instance_set__lastConfigChange (VInt (ConfigTask.changeId task)))
   else mret tt);;
  match truthy (ConfiguratorResult.modified result),
        ResourceChanges_getAttributeChanges (ConfigTask._resourceChanges task) (Instance.key target)
  with
  | false, [] => mret tt
  | _, _ => modifyInstance (ConfigTask.target task)
              (Instance_set__lastStateChange (VInt (ConfigTask.changeId task)))
  end.

(** [ConfigTask.finished].  [assert result] holds for every instance of
    [ConfiguratorResult] (the class defines neither [__bool__] nor
    [__len__]); closing the generator is taken to run no configurator
    code. *)
Definition ConfigTask_finished (self : nat) (result : ConfiguratorResult.t) : M nat :=
  task ← getTask self;
  match ConfigTask.generator task with
  | Some _ => modifyTask self (ConfigTask.set_generator None)
  | None => mret tt
  end;;
  modifyTask self (ConfigTask.set_outputs (ConfiguratorResult.outputs result));;
  changeId ← Runner_incrementChangeId;
  modifyTask self (ConfigTask.set_changeId changeId);;
  task ← getTask self;
  match ConfigTask.changeList task with
  | [] => mret tt
  | accum :: changes =>
      let accum := fold_left mergeDicts changes accum in
      modifyTask self (ConfigTask.set_changeList []);;
      ResourceChanges_updateChanges self accum
  end;;
  ConfigTask__updateStatus self (ConfiguratorResult_getattr result);;
  ConfigTask__updateLastChange self result;;
  modifyTask self (ConfigTask.set_result (Some result));;
  modifyTask self (ConfigTask.set_localStatus
                     (VStatus (if truthy (ConfiguratorResult.success result)
                               then Status.ok else Status.error)));;
  mret self.

(** *** Job *)

Definition MAX_NESTED_SUBTASKS : nat := 100.

(** [Job.__init__]; the job is appended to the store. *)
Definition Job_init (plan : PlanGenerator) (jobOptions : JobOptions.t) : M nat :=
  changeId ← Runner_incrementChangeId;
  parentId ←
    match JobOptions.parentJob jobOptions with
    | Some p => parent ← getJob p; mret (VInt (Job.changeId parent))
    | None => mret VNone
    end;
  w ← get;
  let self := length (jobs w) in
  let job :=
    {| Job.jobOptions := jobOptions;
       Job.parentJob := JobOptions.parentJob jobOptions;
       Job.dryRun := JobOptions.dryrun jobOptions;
       Job.startTime :=
         if is_None (JobOptions.startTime jobOptions) then now
         else JobOptions.startTime jobOptions;
       Job.verbose := JobOptions.verbose jobOptions;
       Job.plan := plan;
       Job.jobRequestQueue := [];
       Job.unexpectedAbort := VNone;
       Job.changeId := changeId;
       Job.parentId := parentId;
       Job.workDone := [];
       Job.localStatus := VStatus Status.ok |} in
  modify (fun w => set_jobs (jobs w ++ [job]) w);;
  mret self.

(** [Job.createTask]; building [task.inputs] is taken not to fail. *)
Definition Job_createTask (self : nat) (configSpec : ConfigurationSpec.t) (target : nat)
    (parentId : option Z) (reason : PyVal) : M nat :=
  task ← ConfigTask_init self configSpec target parentId reason;
  try_except
    (_ ← ConfigTask_configurator task; mret tt)
    (fun _ => UnfurlTaskError task "unable to create task");;
  mret task.

(** [Job.filterConfig].  [ConfigurationSpec] has no attribute [required],
    so the second test raises once [requiredOnly] is set. *)
Definition Job_filterConfig (opts : JobOptions.t) (config : ConfigurationSpec.t)
    (target : Instance.t) : PyExc + (option ConfigurationSpec.t * PyVal) :=
  let otherInstance :=
    match JobOptions.instance opts with
    | Some instance =>
        negb (String.eqb instance "") && negb (String.eqb (Instance.name target) instance)
    | None => false
    end in
  let notInInstances :=
    match JobOptions.instances opts with
    | Some (i :: others) => negb (existsb (String.eqb (Instance.name target)) (i :: others))
    | _ => false
    end in
  if JobOptions.readonly opts
     && negb (py_eq (ConfigurationSpec.workflow config) (VStr "discover"))
  then inr (None, VStr "read only")
  else if JobOptions.requiredOnly opts then inl (AttributeError "required")
  else if otherInstance then inr (None, VStr "instance")
  else if notInInstances then inr (None, VStr "instances")
  else inr (Some config, VNone).

(** One [send] into the generator of [Job.getCandidateTasks]: it resumes
    the plan until a task is yielded ([Some]) or the plan stops ([None]).
    Requests that are filtered out are answered with [None] and skipped. *)
Fixpoint Job_getCandidateTasks (self : nat) (planGen : PlanGenerator) (result : option nat)
    {struct planGen} : M (option (nat * PlanGenerator)) :=
  match planGen with
  | PSuspended resume =>
      match resume result with
      | PReturn => mret None
      | PRaise StopIteration => mret None
      | PRaise e => raise e
      | PYield req rest =>
          let configSpec := req_configSpec req in
          if truthy (req_error req) then
            errorTask ← ConfigTask_init self configSpec (req_target req) None (req_reason req);
            UnfurlTaskError errorTask (py_str (ConfigurationSpec.className configSpec));;
            mret (Some (errorTask, rest))
          else
            job ← getJob self;
            target ← getInstance (req_target req);
            filtered ← lift (Job_filterConfig (Job.jobOptions job) configSpec target);
            match filtered.1 with
            | None => Job_getCandidateTasks self rest None
            | Some configSpec =>
                match Runner_isConfigAlreadyHandled configSpec (req_target req) with
                | Some oldResult => Job_getCandidateTasks self rest (Some oldResult)
                | None =>
                    task ← Job_createTask self configSpec (req_target req) None (req_reason req);
                    mret (Some (task, rest))
                end
            end
      end
  end.

Definition Job_shouldRunTask (task : nat) : M bool :=
  priority ←
    try_except
      (t ← getTask task;
       match ConfigTask._configurator t with
       | Some c => p ← lift (cfg_shouldRun c (ConfigTask.target t)); mret (Some p)
       | None => mret (Some (ConfigTask_priority t))
       end)
      (fun _ => UnfurlTaskError task "shouldRun failed unexpectedly";; mret None);
  match priority with
  | None => mret false
  | Some priority =>
      priority ←
        match priority with
        | VBool b => mret (if b then Priority.required else Priority.ignore)
        | _ => lift (toEnum_Priority priority)
        end;
      t ← getTask task;
      (if negb (py_eq (VPriority priority) (ConfigTask_priority t))
       then modifyTask task (ConfigTask.set__priority (VPriority priority))
       else mret tt);;
      mret (Priority.value Priority.ignore <? Priority.value priority)%Z
  end.

(** [Job.cantRunTask].  The [finally] clause returns, so the method answers
    [False] or the reason whatever happened in the [try] body; [task.inputs]
    is read as the inputs of the spec. *)
Definition Job_cantRunTask (task : nat) : M PyVal :=
  outcome ←
    try_except
      (t ← getTask task;
       match ConfigTask.errors t with
       | _ :: _ => mret (false, "could not create task")
       | [] =>
           noDryRun ←
             (if ConfigTask.dryRun t
              then c ← ConfigTask_configurator task;
                   mret (negb (cfg_canDryRun c (ConfigTask.target t)))
              else mret false);
           if (noDryRun : bool) then mret (false, "dry run not supported")
           else
             target ← getInstance (ConfigTask.target t);
             let missing :=
               filter (fun dep => negb dep.1.2 && dep.2 = true)
                      (Instance.operationalDependencies target) in
             match missing with
             | _ :: _ =>
                 mret (false, "missing required dependencies: "
                                +:+ String.concat "," (map (fun dep => dep.1.1) missing))
             | [] =>
                 match ConfigurationSpec_findInvalidateInputs (ConfigTask.configSpec t)
                         (ConfigurationSpec.inputs (ConfigTask.configSpec t)) with
                 | _ :: _ as errors =>
                     mret (false, "invalid inputs: " +:+ String.concat "," errors)
                 | [] =>
                     match ConfigurationSpec_findInvalidPreconditions
                             (ConfigTask.configSpec t) target with
                     | _ :: _ as preErrors =>
                         mret (false, "invalid preconditions: " +:+ String.concat "," preErrors)
                     | [] =>
                         c ← ConfigTask_configurator task;
                         errors ← lift (cfg_canRun c (ConfigTask.target t));
                         match errors with
                         | VBool true => mret (true, "")
                         | _ => mret (false, "configurator declined: " +:+ py_str errors)
                         end
                     end
                 end
             end
       end)
      (fun _ =>
         UnfurlTaskError task "cantRunTask failed unexpectedly";;
         mret (false, "unexpected exception in cantRunTask"));
  if (outcome.1 : bool) then mret (VBool false)
  else mret (VStr ("could not run: " +:+ outcome.2)).

Definition Job_shouldAbort (task : nat) : bool := false.

(** [Runner.createJob] *)
Definition Runner_createJob (joboptions : JobOptions.t) : M nat :=
  w ← get;
  if negb (truthy (Manifest.tosca (Runner.manifest (runner w))))
  then raise (AssertionError "")
  else
    match getPlanClassForWorkflow (JobOptions.workflow joboptions) with
    | None => raise (UnfurlError ("unknown workflow: " +:+ py_str (JobOptions.workflow joboptions)))
    | Some WorkflowPlan => Job_init (WorkflowPlan joboptions) joboptions
    end.

(** [JobOptions(parentJob=self, repair="none", all=True, instances=names)] *)
Definition JobOptions_child (self : nat) (resourceNames : list string) : JobOptions.t :=
  {| JobOptions.parentJob := Some self;
     JobOptions.startTime := VNone;
     JobOptions.verbose := VInt 0;
     JobOptions.instance := None;
     JobOptions.instances := Some resourceNames;
     JobOptions.repair := VStr "none";
     JobOptions.all := true;
     JobOptions.readonly := false;
     JobOptions.dryrun := false;
     JobOptions.planOnly := false;
     JobOptions.requiredOnly := false;
     JobOptions.commit := true;
     JobOptions.dirty := false;
     JobOptions.workflow := Defaults_workflow |}.

(** [list.remove(x)]: the first element equal to [x] goes. *)
Fixpoint queue_remove (q : list JobRequest) (oid : nat) : option (list JobRequest) :=
  match q with
  | [] => None
  | r :: q' =>
      if Nat.eqb (jr_oid r) oid then Some q'
      else match queue_remove q' oid with Some q'' => Some (r :: q'') | None => None end
  end.

(** [Job.runTask], [Job.runJobRequest] and [Job.run], which call each
    other.  [fuel] bounds the turns of their [while] loops and the depth of
    their calls.  [Job.run] starts with [validateJobOptions], which only
    logs; the first loop of [Job.run] is [Job_run_loop], the second
    [Job_run_queue]. *)
Fixpoint Job_runTask (fuel : nat) (self task depth : nat) {struct fuel} : M nat :=
  match fuel with
  | O => raise OutOfFuel
  | S fuel =>
      errors ← Job_cantRunTask task;
      if truthy errors then
        ConfigTask_finished task (ConfiguratorResult_result (VBool false) (VBool false) errors)
      else
        ConfigTask_start task;;
        Job_runTask_loop fuel self task depth SentNone
  end
with Job_runTask_loop (fuel : nat) (self task depth : nat) (change : Sent) {struct fuel} : M nat :=
  match fuel with
  | O => raise OutOfFuel
  | S fuel =>
      sent ← try_except (y ← ConfigTask_send task change; mret (Some y))
                        (fun _ => mret None);
      match sent with
      | None =>
          UnfurlTaskError task "configurator.run failed";;
          ConfigTask_finished task (ConfiguratorResult_3 (VBool false) VNone (VStatus Status.error))
      | Some (YTaskRequest result) =>
          if (MAX_NESTED_SUBTASKS <=? depth)%nat then
            UnfurlTaskError task "too many subtasks spawned";;
            change ← ConfigTask_finished task (ConfiguratorResult_2 (VBool false) VNone);
            Job_runTask_loop fuel self task depth (SentTask change)
          else
            job ← getJob self;
            subtask ← Job_createTask self (tr_configSpec result) (tr_target result)
                        (Some (Job.changeId job)) VNone;
            Runner_addWork subtask;;
            change ← Job_runTask fuel self subtask (depth + 1);
            Job_runTask_loop fuel self task depth (SentTask change)
      | Some (YJobRequest result) =>
          job ← Job_runJobRequest fuel self result;
          Job_runTask_loop fuel self task depth (SentJob job)
      | Some (YConfiguratorResult result) =>
          ConfigTask_finished task result
      | Some (YOther _) =>
          UnfurlTaskError task "unexpected result from configurator";;
          ConfigTask_finished task (ConfiguratorResult_3 (VBool false) VNone (VStatus Status.error))
      end
  end
with Job_runJobRequest (fuel : nat) (self : nat) (jobRequest : JobRequest) {struct fuel} : M nat :=
  match fuel with
  | O => raise OutOfFuel
  | S fuel =>
      job ← getJob self;
      match queue_remove (Job.jobRequestQueue job) (jr_oid jobRequest) with
      | None => raise (ValueError "list.remove(x): x not in list")
      | Some queue =>
          modifyJob self (Job.set_jobRequestQueue queue);;
          w ← get;
          let resourceNames :=
            omap (fun i => Instance.name <$> instances w !! i) (jr_instances jobRequest) in
          childJob ← Runner_createJob (JobOptions_child self resourceNames);
          Job_run fuel childJob;;
          mret childJob
      end
  end
with Job_run (fuel : nat) (self : nat) {struct fuel} : M unit :=
  match fuel with
  | O => raise OutOfFuel
  | S fuel =>
      job ← getJob self;
      Job_run_loop fuel self (Job.plan job) None
  end
with Job_run_loop (fuel : nat) (self : nat) (taskGen : PlanGenerator) (result : option nat)
    {struct fuel} : M unit :=
  match fuel with
  | O => raise OutOfFuel
  | S fuel =>
      candidate ← Job_getCandidateTasks self taskGen result;
      match candidate with
      | None => Job_run_queue fuel self
      | Some (task, taskGen) =>
          Runner_addWork task;;
          should ← Job_shouldRunTask task;
          if negb should then Job_run_loop fuel self taskGen None
          else
            job ← getJob self;
            result ←
              (if JobOptions.planOnly (Job.jobOptions job) then
                 cant ← Job_cantRunTask task;
                 if negb (truthy cant)
                 then ConfigTask_finished task
                        (ConfiguratorResult_3 (VBool true) (VBool true) (VStatus Status.ok))
                 else ConfigTask_finished task (ConfiguratorResult_2 (VBool false) (VBool false))
               else Job_runTask fuel self task 0);
            if Job_shouldAbort task then mret tt
            else Job_run_loop fuel self taskGen (Some result)
      end
  end
with Job_run_queue (fuel : nat) (self : nat) {struct fuel} : M unit :=
  match fuel with
  | O => raise OutOfFuel
  | S fuel =>
      job ← getJob self;
      match Job.jobRequestQueue job with
      | [] => mret tt
      | jobRequest :: _ =>
          child ← Job_runJobRequest fuel self jobRequest;
          if Job_shouldAbort child then mret tt
          else Job_run_queue fuel self
      end
  end.

(** *** Runner *)

(** [Runner.__init__] and the store a fresh runner starts from. *)
Definition Runner_init (manifest : Manifest.t) : Runner.t :=
  {| Runner.manifest := manifest;
     Runner.lastChangeId := Manifest.lastChangeId manifest;
     Runner.currentJob := None |}.

(** [Runner.run] where the operating system and the manifest answer every
    call ([Runner_run_with] below is the method with the calls that can
    raise); [None] is the source's [return None]. *)
Definition Runner_run (fuel : nat) (jobOptions : option JobOptions.t) : M (option nat) :=
  w ← get;
  let cwd0 := cwd w in
  try_finally
    (let baseDir := Manifest.baseDir (Runner.manifest (runner w)) in
     (if truthy baseDir then modify (set_cwd (py_str baseDir)) else mret tt);;
     let jobOptions := default JobOptions_defaults jobOptions in
     let dirtyRepo :=
       if JobOptions.commit jobOptions && negb (JobOptions.dirty jobOptions)
       then match Manifest.localEnv (Runner.manifest (runner w)) with
            | Some repos => existsb (fun isDirty => isDirty) repos
            | None => false
            end
       else false in
     if dirtyRepo then mret None
     else
       job ← Runner_createJob jobOptions;
       modify (fun w => set_runner (Runner_set_currentJob (Some job) (runner w)) w);;
       try_except
         (modify (set_verbosity (JobOptions.verbose jobOptions));;
          Job_run fuel job)
         (fun _ =>
            modifyJob job (Job.set_localStatus (VStatus Status.error));;
            modifyJob job (Job.set_unexpectedAbort
                             (VException (VStr "unexpected exception while running job"))));;
       modify (fun w => set_runner (Runner_set_currentJob None (runner w)) w);;
       modify (fun w => set_runner
                 (Runner_set_manifest (Manifest_commitJob job (Runner.manifest (runner w)))
                                      (runner w)) w);;
       mret (Some job))
    (modify (set_cwd cwd0)).

(** What the calls of [Runner.run] into the operating system and the
    manifest raise, when they raise: [manifest.getBaseDir()], [os.chdir] on
    a path, [manifest.localEnv.getRepos()], [isDirty()] on the repository at
    a position of that list, and [manifest.commitJob] on a job.  [None] is
    a call that returns. *)
Record Faults := mkFaults {
  getBaseDir_raises : option PyExc;
  chdir_raises : string -> option PyExc;
  getRepos_raises : option PyExc;
  isDirty_raises : nat -> option PyExc;
  commitJob_raises : nat -> option PyExc }.

Definition no_faults : Faults :=
  mkFaults None (fun _ => None) None (fun _ => None) (fun _ => None).

Definition may_raise (fault : option PyExc) : M unit :=
  match fault with
  | Some e => raise e
  | None => mret tt
  end.

(** Who raised [e]: one of the calls of [Runner.run] into the operating
    system or the manifest ahead of the job. *)
Definition raised_ahead (faults : Faults) (w : World) (e : PyExc) : Prop :=
  getBaseDir_raises faults = Some e
  \/ chdir_raises faults (py_str (Manifest.baseDir (Runner.manifest (runner w)))) = Some e
  \/ getRepos_raises faults = Some e
  \/ exists i, isDirty_raises faults i = Some e.

(** The loop of [Runner.run] over the repositories: the first dirty one
    ends it. *)
Fixpoint Runner_run_isDirty (faults : Faults) (i : nat) (repos : list bool) : M bool :=
  match repos with
  | [] => mret false
  | isDirty :: rest =>
      may_raise (isDirty_raises faults i);;
      if (isDirty : bool) then mret true else Runner_run_isDirty faults (S i) rest
  end.

(** [Runner.run], with the calls that can raise.  They sit outside the
    inner [try], so what they raise comes out of [run]; [os.getcwd()] is
    taken to answer. *)
Definition Runner_run_with (faults : Faults) (fuel : nat) (jobOptions : option JobOptions.t)
  : M (option nat) :=
  w ← get;
  let cwd0 := cwd w in
  try_finally
    (may_raise (getBaseDir_raises faults);;
     let baseDir := Manifest.baseDir (Runner.manifest (runner w)) in
     (if truthy baseDir
      then may_raise (chdir_raises faults (py_str baseDir));;
           modify (set_cwd (py_str baseDir))
      else mret tt);;
     let jobOptions := default JobOptions_defaults jobOptions in
     dirtyRepo ←
       (if JobOptions.commit jobOptions && negb (JobOptions.dirty jobOptions)
        then match Manifest.localEnv (Runner.manifest (runner w)) with
             | Some repos =>
                 may_raise (getRepos_raises faults);;
                 Runner_run_isDirty faults 0 repos
             | None => mret false
             end
        else mret false);
     if (dirtyRepo : bool) then mret None
     else
       job ← Runner_createJob jobOptions;
       modify (fun w => set_runner (Runner_set_currentJob (Some job) (runner w)) w);;
       try_except
         (modify (set_verbosity (JobOptions.verbose jobOptions));;
          Job_run fuel job)
         (fun _ =>
            modifyJob job (Job.set_localStatus (VStatus Status.error));;
            modifyJob job (Job.set_unexpectedAbort
                             (VException (VStr "unexpected exception while running job"))));;
       modify (fun w => set_runner (Runner_set_currentJob None (runner w)) w);;
       may_raise (commitJob_raises faults job);;
       modify (fun w => set_runner
                 (Runner_set_manifest (Manifest_commitJob job (Runner.manifest (runner w)))
                                      (runner w)) w);;
       mret (Some job))
    (may_raise (chdir_raises faults cwd0);;
     modify (set_cwd cwd0)).

(** *** Driving the engine step by step *)

(** The calls through which the job engine touches change ids, as separate
    steps, so that any interleaving of them can be followed: creating a job
    ([Runner.createJob] ends in [Job.__init__]), creating a task, starting
    it, one cooperative step, and finalizing it. *)
Inductive DriverOp :=
| OpCreateJob (plan : PlanGenerator) (jobOptions : JobOptions.t)
| OpCreateTask (job : nat) (configSpec : ConfigurationSpec.t) (target : nat)
               (parentId : option Z) (reason : PyVal)
| OpStart (task : nat)
| OpSend (task : nat) (change : Sent)
| OpFinished (task : nat) (result : ConfiguratorResult.t).

(** One step on the store and on the list of the tasks that [finished] was
    called on, in the order of the calls.  An exception ends the call, not
    the trace: the store keeps what the call did before it was raised. *)
Definition driver_step (s : World * list nat) (op : DriverOp) : World * list nat :=
  match op with
  | OpCreateJob plan jobOptions => ((Job_init plan jobOptions s.1).2, s.2)
  | OpCreateTask job configSpec target parentId reason =>
      ((Job_createTask job configSpec target parentId reason s.1).2, s.2)
  | OpStart task => ((ConfigTask_start task s.1).2, s.2)
  | OpSend task change => ((ConfigTask_send task change s.1).2, s.2)
  | OpFinished task result =>
      ((ConfigTask_finished task result s.1).2,
       match tasks s.1 !! task with Some _ => s.2 ++ [task] | None => s.2 end)
  end.

Definition driver_run (ops : list DriverOp) (s : World * list nat) : World * list nat :=
  fold_left driver_step ops s.

End JobEngine.

(** The store of a fresh runner: no job and no task yet. *)
Definition World_init (manifest : Manifest.t) (instances : list Instance.t) : World :=
  {| runner := Runner_init manifest;
     jobs := [];
     tasks := [];
     instances := instances;
     rootAttributeManager := None;
     cwd := "/";
     verbosity := VNone |}.

(** The change ids of a store: the runner's counter, each job's id and,
    for each task, its job, its [parentId] and its [changeId]. *)
Definition task_ids (x : ConfigTask.t) : nat * Z * Z :=
  (ConfigTask.job x, ConfigTask.parentId x, ConfigTask.changeId x).

Definition ids (w : World) : Z * list Z * list (nat * Z * Z) :=
  (Runner.lastChangeId (runner w), Job.changeId <$> jobs w, task_ids <$> tasks w).

(** A method preserves an observation of the store, whatever it returns or
    raises. *)
Definition preserves {X A : Type} (obs : World -> X) (m : M A) : Prop :=
  forall w, obs (m w).2 = obs w.

Definition Ids : Type := Z * list Z * list (nat * Z * Z).

(** What one call does to the change ids and to the list of finalized
    tasks: nothing; the counter moves; a job is appended with a fresh id; a
    task is appended with [changeId = parentId] in a job of the store; a
    task of the store gets a fresh id and is listed as finalized. *)
Inductive ids_step : Ids * list nat -> Ids * list nat -> Prop :=
| ids_silent a log : ids_step (a, log) (a, log)
| ids_bump last js ts log : ids_step (last, js, ts, log) ((last + 1)%Z, js, ts, log)
| ids_job last js ts log :
    ids_step (last, js, ts, log) ((last + 1)%Z, js ++ [(last + 1)%Z], ts, log)
| ids_task last js ts log j jc p :
    js !! j = Some jc ->
    ids_step (last, js, ts, log) (last, js, ts ++ [(j, p, p)], log)
| ids_finished last js ts log t j p c :
    ts !! t = Some (j, p, c) ->
    ids_step (last, js, ts, log)
             ((last + 1)%Z, js, <[t := (j, p, (last + 1)%Z)]> ts, log ++ [t]).

(** The invariant of the change ids along a run of the driver: no job id
    is ahead of the counter; every task belongs to a job of the store; a
    finalized task has an id above its job's and not ahead of the counter;
    a task never finalized still has [changeId = parentId]; of two
    finalized tasks, the one whose last finalization came first has the
    smaller id. *)
Definition ids_inv (s : Ids * list nat) : Prop :=
  let '(last, js, ts, log) := s in
  Forall (fun c => (c <= last)%Z) js
  /\ (forall t j p c, ts !! t = Some (j, p, c) -> is_Some (js !! j))
  /\ (forall t, t ∈ log -> exists j p c jc,
         ts !! t = Some (j, p, c) /\ js !! j = Some jc /\ (jc < c <= last)%Z)
  /\ (forall t j p c, ts !! t = Some (j, p, c) -> t ∉ log -> c = p)
  /\ (forall i k t1 t2,
         log !! i = Some t1 -> log !! k = Some t2 -> i < k ->
         (forall k', i < k' -> log !! k' <> Some t1) ->
         exists j1 p1 c1 j2 p2 c2,
           ts !! t1 = Some (j1, p1, c1) /\ ts !! t2 = Some (j2, p2, c2) /\ (c1 < c2)%Z).

(** A method moves the change ids by steps of the five kinds only. *)
Definition moves {A : Type} (m : M A) : Prop :=
  forall w log, exists log', rtc ids_step (ids w, log) (ids (m w).2, log').

(** The number of tasks of the store and the errors attached to one. *)
Definition errors_of (t : nat) (w : World) : nat * option (list string) :=
  (length (tasks w), ConfigTask.errors <$> tasks w !! t).

(** The [changeList] of a task of the store. *)
Definition changeList_of (self : nat) (w : World) : option (list Changes) :=
  ConfigTask.changeList <$> tasks w !! self.

(* ================================================================== *)
(** ** The methods beside the engine *)

(** *** Membership and dictionaries *)

(** [k in d] on a dictionary. *)
Definition dict_has (d : PyDict) (k : string) : bool :=
  match dict_get d k with Some _ => true | None => false end.

(** [needle in haystack] on two strings. *)
Fixpoint is_substring (needle haystack : string) : bool :=
  String.prefix needle haystack
  || match haystack with
     | EmptyString => false
     | String _ rest => is_substring needle rest
     end.

(** [k in container] for a string [k]: an element of a sequence, a key of
    a mapping, a substring of a string; the other values the model knows
    define neither [__contains__] nor [__iter__]. *)
Definition py_in (k : string) (container : PyVal) : PyExc + bool :=
  match container with
  | VList items => inr (existsb (py_eq (VStr k)) items)
  | VDict items => inr (dict_has items k)
  | VStr s => inr (is_substring k s)
  | _ => inl (TypeError "argument is not iterable")
  end.

(** *** Environment.getSystemVars and TaskView.environ *)

(** [{k: v for k, v in os.environ.items() if k in passvars}] *)
Fixpoint environ_passvars (passvars : PyVal) (environ : PyDict) : PyExc + PyDict :=
  match environ with
  | [] => inr []
  | (k, v) :: rest =>
      match py_in k passvars with
      | inl e => inl e
      | inr keep =>
          match environ_passvars passvars rest with
          | inl e => inl e
          | inr env => inr (if keep then (k, v) :: env else env)
          end
      end
  end.

(** [Environment.getSystemVars]; [os_environ] is [os.environ]. *)
Definition Environment_getSystemVars (os_environ : PyDict) (self : Environment.t)
  : PyExc + PyDict :=
  if truthy (Environment.isolate self) then
    if truthy (Environment.passvars self)
    then environ_passvars (Environment.passvars self) os_environ
    else inr []
  else inr os_environ.

(** What the [environ] property computes on first access.  [inputs] is
    what [serializeValue(self.inputs)] answers and [specvars] what
    [serializeValue(mapValue(environment.vars, context))] answers; the
    keyword [resolveExternal=True] of the first [update] is an item for
    [dict.update], which stores it after the items of [inputs]. *)
Definition TaskView_environ (os_environ : PyDict) (environment : Environment.t)
    (inputs specvars : PyDict) : PyExc + PyDict :=
  match Environment_getSystemVars os_environ environment with
  | inl e => inl e
  | inr env =>
      let env :=
        if truthy (Environment.addinputs environment)
        then dict_set (dict_update env inputs) "resolveExternal" (VBool true)
        else env in
      inr (dict_update env specvars)
  end.

(** *** JobOptions as the dictionary it is *)

(** [JobOptions.defaults] *)
Definition JobOptions_class_defaults : PyDict :=
  [("parentJob", VNone); ("startTime", VNone); ("out", VNone); ("verbose", VInt 0);
   ("instance", VNone); ("instances", VNone); ("template", VNone);
   ("useConfigurator", VBool false); ("add", VBool true); ("update", VBool true);
   ("repair", VStr "error"); ("upgrade", VBool false); ("all", VBool false);
   ("verify", VBool false); ("readonly", VBool false); ("dryrun", VBool false);
   ("planOnly", VBool false); ("requiredOnly", VBool false); ("prune", VBool false);
   ("append", VNone); ("replace", VNone); ("commit", VBool true); ("dirty", VBool false);
   ("workflow", Defaults_workflow)].

(** [JobOptions.__init__] called with keywords [kw]: the options that
    become the attributes of the instance. *)
Definition JobOptions_init (kw : PyDict) : PyDict :=
  let options := JobOptions_class_defaults in
  let options := dict_set options "instance" (kwarg kw "resource" VNone) in
  dict_update options kw.

(** [JobOptions.getUserSettings] on [self.userConfig].  The source walks
    the keys as a set; here they come in the order of [userConfig]. *)
Definition JobOptions_getUserSettings (userConfig : PyDict) : PyDict :=
  List.filter
    (fun kv =>
       match dict_get JobOptions_class_defaults kv.1 with
       | Some value => negb (String.eqb kv.1 "out") && negb (py_eq kv.2 value)
       | None => false
       end)
    userConfig.

(** *** Building a spec from an installer *)

(** [ConfigurationSpec.getDefaults] *)
Definition ConfigurationSpec_getDefaults : PyDict :=
  [("className", VNone); ("majorVersion", VInt 0); ("minorVersion", VStr "");
   ("workflow", Defaults_workflow); ("timeout", VNone); ("environment", VNone);
   ("inputs", VNone); ("inputSchema", VNone); ("preConditions", VNone);
   ("postConditions", VNone); ("installer", VNone)].

(** What [getConfigSpecFromInstaller] reads of a configurator template:
    [name] and [properties["operations"]], taken to be there and to be a
    mapping; [tpl_oid] is the identity of the template object. *)
Record ConfiguratorTemplate := mkConfiguratorTemplate {
  tpl_oid : nat;
  tpl_name : PyVal;
  tpl_operations : PyDict }.

(** The loop of [getConfigSpecArgsFromImplementation] over the items of an
    implementation that is a mapping. *)
Fixpoint implementation_items (items : PyDict) (implementation : PyVal) (kw : PyDict)
  : PyVal * PyDict :=
  match items with
  | [] => (implementation, kw)
  | (name, value) :: rest =>
      if String.eqb name "primary" then
        let implementation :=
          match value with
          | VDict artifact => kwarg artifact "file" VNone
          | _ => value
          end in
        implementation_items rest implementation kw
      else if dict_has ConfigurationSpec_getDefaults name
      then implementation_items rest implementation (dict_set kw name value)
      else implementation_items rest implementation kw
  end.

Section Installer.

(** [lookupClass] is [util.lookupClass]; [re_match_command s] is whether
    [re.match(r"[\w.-]+\Z", s)] finds a match. *)
Variable lookupClass : PyVal -> PyExc + (ConfigurationSpec.t -> Configurator).
Variable re_match_command : string -> bool.

Definition ShellConfigurator : PyVal := VStr "unfurl.configurators.shell.ShellConfigurator".

(** [getConfigSpecArgsFromImplementation].  Of the exceptions of
    [lookupClass] only [UnfurlError] is handled; [inputs.get] needs a
    mapping and [re.match] a string. *)
Definition getConfigSpecArgsFromImplementation (implementation inputs : PyVal)
  : PyExc + PyDict :=
  let kw := [("inputs", inputs)] in
  let '(implementation, kw) :=
    match implementation with
    | VDict items => implementation_items items implementation kw
    | _ => (implementation, kw)
    end in
  if dict_has kw "className" then inr kw
  else
    match lookupClass implementation with
    | inr _ => inr (dict_set kw "className" implementation)
    | inl (UnfurlError _) =>
        let kw := dict_set kw "className" ShellConfigurator in
        let shell :=
          if truthy inputs then
            match inputs with
            | VDict items => inr (kwarg items "shell" VNone)
            | _ => inl (AttributeError "get")
            end
          else inr inputs in
        match shell with
        | inl e => inl e
        | inr shell =>
            let noShell :=
              match shell with
              | VBool false => inr true
              | _ =>
                  match implementation with
                  | VStr command => inr (re_match_command command)
                  | _ => inl (TypeError "expected string or bytes-like object")
                  end
              end in
            match noShell with
            | inl e => inl e
            | inr noShell =>
                let shellArgs :=
                  [("command", if noShell then VList [implementation] else implementation)] in
                let shellArgs :=
                  match inputs with
                  | VDict items => dict_update shellArgs items
                  | _ => shellArgs
                  end in
                inr (dict_set kw "inputs" (VDict shellArgs))
            end
        end
    | inl e => inl e
    end.

(** The alias loop of [getConfigSpecFromInstaller]: at most [n] hops. *)
Fixpoint follow_alias (operations : PyDict) (n : nat) (attributes : PyVal) : PyVal :=
  match n with
  | O => attributes
  | S n =>
      match attributes with
      | VStr alias => follow_alias operations n (kwarg operations alias VNone)
      | _ => attributes
      end
  end.

(** [getConfigSpecFromInstaller]; [None] is the source's [return None].
    [dict(a, **b)] needs a mapping for [a]. *)
Definition getConfigSpecFromInstaller (configuratorTemplate : ConfiguratorTemplate)
    (action : string) (inputs : PyVal) (useDefault : bool)
  : PyExc + option ConfigurationSpec.t :=
  let operations := tpl_operations configuratorTemplate in
  let attributes :=
    match dict_get operations action with
    | Some attributes => attributes
    | None => if useDefault then kwarg operations "default" VNone else VNone
    end in
  if negb (truthy attributes) then inr None
  else
    match follow_alias operations (length operations) attributes with
    | VDict attributes =>
        let defaults := kwarg operations "shared" VNone in
        let merged :=
          if truthy defaults then
            match defaults with
            | VDict shared => inr (dict_update shared attributes)
            | _ => inl (TypeError "cannot convert dictionary update sequence")
            end
          else inr attributes in
        match merged with
        | inl e => inl e
        | inr attributes =>
            match dict_get attributes "implementation" with
            | None => inr None
            | Some implementation =>
                let installerInputs := kwarg attributes "inputs" (VDict []) in
                let installerInputs :=
                  if truthy inputs then
                    match installerInputs, inputs with
                    | VDict mine, VDict given => inr (VDict (dict_update mine given))
                    | _, _ => inl (TypeError "cannot convert dictionary update sequence")
                    end
                  else inr installerInputs in
                match installerInputs with
                | inl e => inl e
                | inr installerInputs =>
                    match getConfigSpecArgsFromImplementation implementation installerInputs with
                    | inl e => inl e
                    | inr kw =>
                        let kw := dict_set kw "installer" (VObject (tpl_oid configuratorTemplate)) in
                        match ConfigurationSpec_call
                                (("name", tpl_name configuratorTemplate)
                                   :: ("operation", VStr action) :: kw) with
                        | inl e => inl e
                        | inr spec => inr (Some spec)
                        end
                    end
                end
            end
        end
    | _ => inr None
    end.

End Installer.

(** *** Dependencies of a task *)

(** An ordered dictionary with string keys: [d.get(k)], [d[k] = v] and
    [d.pop(k, None)]. *)
Fixpoint odict_get {V} (d : list (string * V)) (k : string) : option V :=
  match d with
  | [] => None
  | (k', v) :: d' => if String.eqb k k' then Some v else odict_get d' k
  end.

Fixpoint odict_set {V} (d : list (string * V)) (k : string) (v : V) : list (string * V) :=
  match d with
  | [] => [(k, v)]
  | (k', v') :: d' =>
      if String.eqb k k' then (k', v) :: d' else (k', v') :: odict_set d' k v
  end.

Fixpoint odict_pop {V} (d : list (string * V)) (k : string) : option V * list (string * V) :=
  match d with
  | [] => (None, [])
  | (k', v) :: d' =>
      if String.eqb k k' then (Some v, d')
      else let '(old, rest) := odict_pop d' k in (old, (k', v) :: rest)
  end.

(** The part of a [TaskView] that [addDependency] and [removeDependency]
    work on.  [__init__] creates [_dependenciesChanged]; the attribute
    [dependenciesChanged] does not exist until one of the two methods
    assigns it.  Dependencies are kept under a name or an expression, both
    strings. *)
Module TaskView.
Record t := mk {
  dependencies : list (string * Dependency.t);
  _dependenciesChanged : bool;
  dependenciesChanged : option bool }.
End TaskView.

(** [TaskView.__init__], the three attributes above. *)
Definition TaskView_init (dependencies : option (list (string * Dependency.t))) : TaskView.t :=
  {| TaskView.dependencies := default [] dependencies;
     TaskView._dependenciesChanged := false;
     TaskView.dependenciesChanged := None |}.

(** [name or expr] for a name that is [None] or a string. *)
Definition name_or (name : option string) (expr : string) : string :=
  match name with
  | Some n => if truthy (VStr n) then n else expr
  | None => expr
  end.

(** [Dependency.__init__] *)
Definition Dependency_init (expr : string) (expected schema name : PyVal)
    (required wantList : bool) : PyExc + Dependency.t :=
  if truthy (py_and expected schema) then inl (AssertionError "")
  else inr {| Dependency.expr := expr;
              Dependency.expected := expected;
              Dependency.schema := schema;
              Dependency.required := required;
              Dependency.name := name;
              Dependency.wantList := wantList |}.

Section Dependencies.

(** [asRef_source oid] is [Ref(expr.asRef()).source] for the object [oid], a
    configuration, a resource or an external value; the other four are the
    parameters of [Dependency.hasChanged]. *)
Variable asRef_source : nat -> string.
Variable resolveOne : string -> RefContext -> PyVal.
Variable mapValue : PyVal -> RefContext -> PyVal.
Variable validateSchema : PyVal -> PyVal -> bool.
Variable changeAware_hasChanged : nat -> Changeset -> PyVal.

(** The expression a dependency is recorded with: a string is taken as it
    is, an object with [asRef] is replaced by the source of its
    reference. *)
Definition dependency_expr (expr : string + nat) : string :=
  match expr with
  | inl expression => expression
  | inr oid => asRef_source oid
  end.

(** [TaskView.addDependency]; [expr] is an expression or an object with
    [asRef], [name] is [None] or a string. *)
Definition TaskView_addDependency (self : TaskView.t) (expr : string + nat)
    (expected schema : PyVal) (name : option string) (required wantList : bool)
  : PyExc + (Dependency.t * TaskView.t) :=
  let expr := dependency_expr expr in
  let nameVal := match name with Some n => VStr n | None => VNone end in
  match Dependency_init expr expected schema nameVal required wantList with
  | inl e => inl e
  | inr dependency =>
      inr (dependency,
           {| TaskView.dependencies :=
                odict_set (TaskView.dependencies self) (name_or name expr) dependency;
              TaskView._dependenciesChanged := TaskView._dependenciesChanged self;
              TaskView.dependenciesChanged := Some true |})
  end.

(** [TaskView.removeDependency]; a [Dependency] is taken to be truthy, as
    an object without [__bool__] and [__len__] is. *)
Definition TaskView_removeDependency (self : TaskView.t) (name : string)
  : option Dependency.t * TaskView.t :=
  let '(old, rest) := odict_pop (TaskView.dependencies self) name in
  (old,
   {| TaskView.dependencies := rest;
      TaskView._dependenciesChanged := TaskView._dependenciesChanged self;
      TaskView.dependenciesChanged :=
        match old with
        | Some _ => Some true
        | None => TaskView.dependenciesChanged self
        end |}).

(** [ConfigTask.hasDependenciesChanged]; [config] is what the dependencies
    read of the task itself. *)
Definition ConfigTask_hasDependenciesChanged (self : TaskView.t) (config : Changeset) : bool :=
  existsb (fun d => Dependency_hasChanged resolveOne mapValue validateSchema
                      changeAware_hasChanged d.2 config)
          (TaskView.dependencies self).

End Dependencies.

(** *** ConfigTask.hasInputsChanged *)

Section InputsChanged.

(** [serializeValue] is [result.serializeValue]; [loadConfigChange_inputs]
    is [self._manifest.loadConfigChange(_).inputs]. *)
Variable serializeValue : PyVal -> PyVal.
Variable loadConfigChange_inputs : PyVal -> PyVal.

(** [set(a.keys()) != set(b.keys())] *)
Definition keys_differ (a b : PyDict) : bool :=
  negb (forallb (fun kv => dict_has b kv.1) a && forallb (fun kv => dict_has a kv.1) b).

(** [ConfigTask.hasInputsChanged]; [inputs] are the items of [self.inputs]
    and [lastConfigChange] is the attribute of that name.  Recorded
    parameters that are truthy are read as a mapping; once the key sets
    agree, the subscript [_parameters[name]] finds every name. *)
Definition ConfigTask_hasInputsChanged (inputs : PyDict) (lastConfigChange : PyVal)
  : PyExc + bool :=
  let _parameters :=
    if truthy lastConfigChange then loadConfigChange_inputs lastConfigChange else VNone in
  if negb (truthy _parameters) then inr (truthy (VDict inputs))
  else
    match _parameters with
    | VDict _parameters =>
        if keys_differ inputs _parameters then inr true
        else
          inr (existsb
                 (fun kv =>
                    match dict_get _parameters kv.1 with
                    | Some old => negb (py_eq (serializeValue kv.2) old)
                    | None => true
                    end)
                 inputs)
    | _ => inl (AttributeError "keys")
    end.

End InputsChanged.

(** *** Job.stats *)

(** Modelled from the spec: the [name] of a member of [support.Status]. *)
Definition Status_name (s : Status.t) : string :=
  match s with
  | Status.unknown => "unknown" | Status.ok => "ok" | Status.degraded => "degraded"
  | Status.error => "error" | Status.pending => "pending"
  | Status.notapplied => "notapplied" | Status.notpresent => "notpresent"
  | Status.absent => "absent"
  end.

(** [t._localStatus or Status.unknown], the key [Job.stats] sorts and
    groups by; a task's status is [None] or a [Status]. *)
Definition stats_key (t : ConfigTask.t) : Status.t :=
  match py_or (ConfigTask.localStatus t) (VStatus Status.unknown) with
  | VStatus s => s
  | _ => Status.unknown
  end.

(** [sorted(tasks, key=key)]: stable, the members of [Status] compare by
    value. *)
Fixpoint sorted_insert (t : ConfigTask.t) (l : list ConfigTask.t) : list ConfigTask.t :=
  match l with
  | [] => [t]
  | x :: l' =>
      if (Status.value (stats_key t) <=? Status.value (stats_key x))%Z
      then t :: x :: l'
      else x :: sorted_insert t l'
  end.

Definition sorted (tasks : list ConfigTask.t) : list ConfigTask.t :=
  foldr sorted_insert [] tasks.

(** [itertools.groupby(tasks, key)]: runs of neighbours with equal keys. *)
Fixpoint groupby (tasks : list ConfigTask.t) : list (Status.t * list ConfigTask.t) :=
  match tasks with
  | [] => []
  | t :: rest =>
      match groupby rest with
      | (k, g) :: groups =>
          if (Status.value (stats_key t) =? Status.value k)%Z
          then (k, t :: g) :: groups
          else (stats_key t, [t]) :: (k, g) :: groups
      | [] => [(stats_key t, [t])]
      end
  end.

(** [Job.stats()]; [tasks] is [self.workDone.values()]. *)
Definition Job_stats (tasks : list ConfigTask.t) : list (string * nat) :=
  let tasks := sorted tasks in
  let stats :=
    [("total", length tasks); ("ok", 0); ("error", 0); ("unknown", 0); ("skipped", 0)] in
  let stats :=
    fold_left
      (fun stats kg =>
         if negb (truthy (VStatus kg.1))
         then odict_set stats "skipped" (length kg.2)
         else odict_set stats (Status_name kg.1) (length kg.2))
      (groupby tasks) stats in
  odict_set stats "changed"
    (length (List.filter
               (fun t => match ConfigTask.result t with
                         | Some r => truthy (ConfiguratorResult.modified r)
                         | None => false
                         end)
               tasks)).

(** [d.get(key)] on [workDone]. *)
Definition workDone_get (d : list (string * nat)) (k : string) : option nat := odict_get d k.

(** A value that holds a [ChangeAware] object, however deep. *)
Fixpoint has_ChangeAware (v : PyVal) : bool :=
  match v with
  | VResults attributes => has_ChangeAware attributes
  | VDict items =>
      (fix any (items : list (string * PyVal)) : bool :=
         match items with
         | [] => false
         | (_, x) :: rest => has_ChangeAware x || any rest
         end) items
  | VList items =>
      (fix any (items : list PyVal) : bool :=
         match items with
         | [] => false
         | x :: rest => has_ChangeAware x || any rest
         end) items
  | VChangeAware _ => true
  | _ => false
  end.

(** The entry of [Job.stats] that a group of key [k] is counted under,
    the order [sorted] sorts by and the number of tasks with a key. *)
Definition stats_label (k : Status.t) : string :=
  if negb (truthy (VStatus k)) then "skipped" else Status_name k.

Definition stats_le (a b : ConfigTask.t) : Prop :=
  (Status.value (stats_key a) <= Status.value (stats_key b))%Z.

Definition stats_count (k : Status.t) (tasks : list ConfigTask.t) : nat :=
  length (List.filter
            (fun t => (Status.value (stats_key t) =? Status.value k)%Z) tasks).

(** The assignments that [Job.stats] makes for the groups of a list. *)
Definition stats_groups (l : list ConfigTask.t) : list (string * nat) :=
  map (fun kg => (stats_label kg.1, length kg.2)) (groupby l).

(** The manifest of the runner. *)
Definition manifest_of (w : World) : Manifest.t := Runner.manifest (runner w).

(** *** configurators/ansible.py: getAnsibleResults *)

(** The first of [keys] that [_result] has, with its value: the inner loop
    of [getAnsibleResults]. *)
Fixpoint first_key (_result : PyDict) (keys : list string) : option PyVal :=
  match keys with
  | [] => None
  | key :: rest =>
      match dict_get _result key with
      | Some v => Some v
      | None => first_key _result rest
      end
  end.

(** [container[key]] after [key in container] held: a mapping gives the
    value; a sequence or a string cannot be subscripted by a string. *)
Definition py_getitem (container : PyVal) (key : string) : PyExc + PyVal :=
  match container with
  | VDict items => inr (kwarg items key VNone)
  | _ => inl (TypeError "indices must be integers")
  end.

(** The loop of [getAnsibleResults] over [facts]. *)
Fixpoint ansible_outputs (ansible_facts : PyVal) (facts : list string) (outputs : PyDict)
  : PyExc + PyDict :=
  match facts with
  | [] => inr outputs
  | fact :: rest =>
      match py_in fact ansible_facts with
      | inl e => inl e
      | inr false => ansible_outputs ansible_facts rest outputs
      | inr true =>
          match py_getitem ansible_facts fact with
          | inl e => inl e
          | inr v => ansible_outputs ansible_facts rest (dict_set outputs fact v)
          end
      end
  end.

(** [getAnsibleResults]; [_result] is [result.clean_copy()._result]. *)
Definition getAnsibleResults (_result : PyDict) (extraKeys facts : list string)
  : PyExc + (PyDict * PyDict) :=
  let keyMap :=
    [("returncode", ["returncode"]); ("msg", ["msg"]);
     ("error", ["exception"; "module_stderr"]); ("stdout", ["stdout"; "module_stdout"])] in
  let resultDict :=
    fold_left
      (fun resultDict entry =>
         match first_key _result entry.2 with
         | Some v => dict_set resultDict entry.1 v
         | None => resultDict
         end)
      keyMap [] in
  let resultDict :=
    fold_left
      (fun resultDict key =>
         match dict_get _result key with
         | Some v => dict_set resultDict key v
         | None => resultDict
         end)
      extraKeys resultDict in
  let outputs :=
    match facts with
    | [] => inr []
    | _ :: _ =>
        let ansible_facts := kwarg _result "ansible_facts" VNone in
        if truthy ansible_facts then ansible_outputs ansible_facts facts [] else inr []
    end in
  match outputs with
  | inl e => inl e
  | inr outputs => inr (resultDict, outputs)
  end.

(* ================================================================== *)
(** ** Worked inputs *)

(** A spec as [ConfigurationSpec("configure-db", "configure",
    className="Shell", inputSchema=schema, installer=installer)] builds it. *)
Definition ex_spec (schema installer : PyVal) : ConfigurationSpec.t :=
  {| ConfigurationSpec.name := VStr "configure-db";
     ConfigurationSpec.operation := VStr "configure";
     ConfigurationSpec.className := VStr "Shell";
     ConfigurationSpec.majorVersion := VInt 0;
     ConfigurationSpec.minorVersion := VStr "";
     ConfigurationSpec.workflow := Defaults_workflow;
     ConfigurationSpec.timeout := VNone;
     ConfigurationSpec.environment := Environment_init [];
     ConfigurationSpec.inputs := VDict [];
     ConfigurationSpec.inputSchema := schema;
     ConfigurationSpec.preConditions := VNone;
     ConfigurationSpec.postConditions := VNone;
     ConfigurationSpec.installer := installer |}.

Definition ex_schema_port : PyVal :=
  VDict [("properties", VDict [("port", VDict [("type", VStr "integer")])])].
Definition ex_schema_host : PyVal :=
  VDict [("properties", VDict [("host", VDict [("type", VStr "string")])])].

(** A dependency on [::nodeA::port] with a schema, an evaluator that finds
    the string ["eighty"] there and a validator that wants an integer. *)
Definition ex_dependency : Dependency.t :=
  {| Dependency.expr := "::nodeA::port";
     Dependency.expected := VNone;
     Dependency.schema := VDict [("type", VStr "integer")];
     Dependency.required := false;
     Dependency.name := VNone;
     Dependency.wantList := false |}.
Definition ex_resolveOne (expr : string) (ctx : RefContext) : PyVal := VStr "eighty".
Definition ex_mapValue (v : PyVal) (ctx : RefContext) : PyVal := v.
Definition ex_validateSchema (v schema : PyVal) : bool :=
  match v with VInt _ => true | _ => false end.
Definition ex_changeAware (oid : nat) (cs : Changeset) : PyVal := VBool false.

(** *** An engine to run *)

(** Three configurator classes.  [Nest] asks for a sub-task of its own
    spec, then reports success; [SetAttribute] writes an attribute and
    reports [(True, True, Status.ok)], as the configurator of the test
    suite does; [Failing] writes the attribute and raises. *)
Definition ex_Nest (spec : ConfigurationSpec.t) (target : nat) : Generator :=
  GSuspended (fun _ =>
    GYield [] (YTaskRequest (mkTaskRequest spec target false false))
      (GSuspended (fun _ =>
         GYield []
           (YConfiguratorResult
              (ConfiguratorResult_init (VBool true) VNone VNone VNone VNone (VBool true)
                 VNone VNone))
           Generator_exhausted))).

Definition ex_SetAttribute (target : nat) : Generator :=
  GSuspended (fun _ =>
    GYield [EWrite "::my_server" "private_address" (VStr "10.0.0.1")]
      (YConfiguratorResult
         (ConfiguratorResult_3 (VBool true) (VBool true) (VStatus Status.ok)))
      Generator_exhausted).

Definition ex_Failing (target : nat) : Generator :=
  GSuspended (fun _ =>
    GRaise [EWrite "::my_server" "private_address" (VStr "10.0.0.1")]
           (Exception "connection lost")).

Definition ex_configurator (run : nat -> Generator) : Configurator :=
  {| cfg_getGenerator := run;
     cfg_canDryRun := fun _ => false;
     cfg_canRun := fun _ => inr (VBool true);
     cfg_shouldRun := fun _ => inr (VPriority Priority.required) |}.

Definition ex_lookupClass (className : PyVal)
  : PyExc + (ConfigurationSpec.t -> Configurator) :=
  match className with
  | VStr "Nest" => inr (fun spec => ex_configurator (ex_Nest spec))
  | VStr "SetAttribute" => inr (fun _ => ex_configurator ex_SetAttribute)
  | VStr "Failing" => inr (fun _ => ex_configurator ex_Failing)
  | _ => inl (UnfurlError "unknown configurator class")
  end.

Definition ex_toEnum (v : PyVal) : PyExc + Priority.t :=
  match v with
  | VPriority p => inr p
  | _ => inl (UnfurlError "not a priority")
  end.

Definition ex_required (task : ConfigTask.t) : bool := true.
Definition ex_lastChange (i : Instance.t) : PyVal := Instance._lastConfigChange i.
Definition ex_now : PyVal := VStr "time-to-test".

Definition ex_task_spec (className : string) : ConfigurationSpec.t :=
  {| ConfigurationSpec.name := VStr "create";
     ConfigurationSpec.operation := VStr "create";
     ConfigurationSpec.className := VStr className;
     ConfigurationSpec.majorVersion := VInt 0;
     ConfigurationSpec.minorVersion := VStr "";
     ConfigurationSpec.workflow := Defaults_workflow;
     ConfigurationSpec.timeout := VNone;
     ConfigurationSpec.environment := Environment_init [];
     ConfigurationSpec.inputs := VDict [];
     ConfigurationSpec.inputSchema := VNone;
     ConfigurationSpec.preConditions := VNone;
     ConfigurationSpec.postConditions := VNone;
     ConfigurationSpec.installer := VNone |}.

(** A plan of one request, for [className] on the first instance, and one
    that requests nothing. *)
Definition ex_plan (className : string) (opts : JobOptions.t) : PlanGenerator :=
  PSuspended (fun _ =>
    PYield (mkPlanRequest (ex_task_spec className) 0 VNone (VStr "add"))
           (PSuspended (fun _ => PReturn))).
Definition ex_empty_plan : PlanGenerator := PSuspended (fun _ => PReturn).

Definition ex_getPlan (className : string) (workflow : PyVal)
  : option (JobOptions.t -> PlanGenerator) :=
  match workflow with
  | VStr "deploy" => Some (ex_plan className)
  | _ => None
  end.

Definition ex_instance : Instance.t :=
  {| Instance.name := "my_server";
     Instance.key := "::my_server";
     Instance.attributes := [];
     Instance.localStatus := VNone;
     Instance._lastConfigChange := VNone;
     Instance._lastStateChange := VNone;
     Instance.operationalDependencies := [] |}.

Definition ex_manifest (localEnv : option (list bool)) : Manifest.t :=
  {| Manifest.lastChangeId := 0;
     Manifest.tosca := VBool true;
     Manifest.baseDir := VNone;
     Manifest.localEnv := localEnv;
     Manifest.committed := [] |}.

Definition ex_world (localEnv : option (list bool)) : World :=
  World_init (ex_manifest localEnv) [ex_instance].

Definition ex_driver (ops : list DriverOp) : World * list nat :=
  driver_run ex_lookupClass ex_required ex_lastChange ex_now ops (ex_world None, []).

Definition ex_Runner_run (className : string) (localEnv : option (list bool))
  : (PyExc + option nat) * World :=
  Runner_run ex_lookupClass (VPriority Priority.required) ex_toEnum (fun _ _ => [])
    ex_required ex_lastChange (ex_getPlan className) ex_now 2000 None (ex_world localEnv).

(** A task that was started and never went further: one [send], no result. *)
Definition ex_suspended (t : ConfigTask.t) : bool :=
  match ConfigTask.generator t, ConfigTask.result t, ConfigTask.changeList t,
        ConfigTask.errors t with
  | Some _, None, [_], [] => true
  | _, _, _, _ => false
  end.

(** A job with two tasks, each started, stepped once and finalized. *)
Definition ex_ops : list DriverOp :=
  [OpCreateJob ex_empty_plan JobOptions_defaults;
   OpCreateTask 0 (ex_task_spec "SetAttribute") 0 None (VStr "add");
   OpCreateTask 0 (ex_task_spec "Failing") 0 None (VStr "add");
   OpStart 0; OpSend 0 SentNone;
   OpFinished 0 (ConfiguratorResult_3 (VBool true) (VBool true) (VStatus Status.ok));
   OpStart 1; OpSend 1 SentNone;
   OpFinished 1 (ConfiguratorResult_3 (VBool false) VNone (VStatus Status.error))].

(** The store in which [Job.runTask] is about to run the first task of a
    job: the job is the runner's current job and the task is created. *)
Definition ex_runTask_world (className : string) : World :=
  let w := (ex_driver
              [OpCreateJob ex_empty_plan JobOptions_defaults;
               OpCreateTask 0 (ex_task_spec className) 0 None (VStr "add")]).1 in
  set_runner (Runner_set_currentJob (Some 0) (runner w)) w.

Definition ex_Job_runTask (className : string) : (PyExc + nat) * World :=
  Job_runTask ex_lookupClass (VPriority Priority.required) ex_toEnum (fun _ _ => [])
    ex_required ex_lastChange (ex_getPlan className) ex_now 2000 0 0 0
    (ex_runTask_world className).

(** *** Inputs for the methods beside the engine *)

(** A process environment and the [environment] section of a spec that
    isolates the task from it, but for two variables. *)
Definition ex_os_environ : PyDict :=
  [("HOME", VStr "/home/unfurl"); ("ANSIBLE_VERBOSITY", VStr "2"); ("PATH", VStr "/usr/bin")].

Definition ex_environment : Environment.t :=
  Environment_init [("isolate", VBool true);
                    ("passvars", VList [VStr "ANSIBLE_VERBOSITY"; VStr "UNFURL_LOGGING"]);
                    ("addinputs", VBool true)].

(** The pattern of a command that is one word: letters, digits,
    underscores, dots and hyphens, at least one. *)
Definition ex_word_char (c : Ascii.ascii) : bool :=
  let n := Ascii.nat_of_ascii c in
  (48 <=? n) && (n <=? 57) || (65 <=? n) && (n <=? 90) || (97 <=? n) && (n <=? 122)
  || (n =? 95) || (n =? 46) || (n =? 45).

Fixpoint ex_all_word_chars (s : string) : bool :=
  match s with
  | EmptyString => true
  | String c rest => ex_word_char c && ex_all_word_chars rest
  end.

Definition ex_re_match_command (s : string) : bool :=
  negb (String.eqb s "") && ex_all_word_chars s.

(** An installer whose [configure] is an alias of [create], and one whose
    operations only point at each other. *)
Definition ex_installer : ConfiguratorTemplate :=
  {| tpl_oid := 7;
     tpl_name := VStr "terraform";
     tpl_operations :=
       [("create", VDict [("implementation", VStr "SetAttribute");
                          ("inputs", VDict [("main", VStr "main.tf")])]);
        ("configure", VStr "create");
        ("delete", VNone)] |}.

Definition ex_alias_installer : ConfiguratorTemplate :=
  {| tpl_oid := 8;
     tpl_name := VStr "looping";
     tpl_operations := [("start", VStr "stop"); ("stop", VStr "start")] |}.

(** Job options as [JobOptions(workflow=workflow)] gives them. *)
Definition ex_options (workflow : string) : JobOptions.t :=
  {| JobOptions.parentJob := None;
     JobOptions.startTime := VNone;
     JobOptions.verbose := VInt 0;
     JobOptions.instance := None;
     JobOptions.instances := None;
     JobOptions.repair := VStr "error";
     JobOptions.all := false;
     JobOptions.readonly := false;
     JobOptions.dryrun := false;
     JobOptions.planOnly := false;
     JobOptions.requiredOnly := false;
     JobOptions.commit := true;
     JobOptions.dirty := false;
     JobOptions.workflow := VStr workflow |}.

(** A plan whose only request carries an error. *)
Definition ex_error_request : PlanRequest :=
  mkPlanRequest (ex_task_spec "no such template") 0 (VBool true) (VStr "add").

(** An evaluator that finds 8080 under every expression. *)
Definition ex_resolve_port (expr : string) (ctx : RefContext) : PyVal := VInt 8080.

(** Three tasks of a job: one finished well, one with no status, one
    failed. *)
Definition ex_stats_tasks : list ConfigTask.t :=
  match tasks (ex_runTask_world "SetAttribute") !! 0 with
  | Some t =>
      [ConfigTask.set_result
         (Some (ConfiguratorResult_3 (VBool true) (VBool true) (VStatus Status.ok)))
         (ConfigTask.set_localStatus (VStatus Status.ok) t);
       t;
       ConfigTask.set_localStatus (VStatus Status.error) t]
  | None => []
  end.

(* ================================================================== *)
(** * Properties *)

(** ** Values *)

(** Induction on values, with the items of lists and mappings. *)
Lemma PyVal_items_ind (P : PyVal -> Prop) :
  P VNone -> (forall b, P (VBool b)) -> (forall n, P (VInt n)) -> (forall s, P (VStr s)) ->
  (forall s, P (VStatus s)) -> (forall p, P (VPriority p)) ->
  (forall items, Forall P items -> P (VList items)) ->
  (forall items, Forall (fun kv => P kv.2) items -> P (VDict items)) ->
  (forall v i p a, P v -> P i -> P p -> P a -> P (VEnvironment v i p a)) ->
  (forall x, P x -> P (VResults x)) ->
  (forall o, P (VChangeAware o)) ->
  (forall m, P m -> P (VException m)) ->
  (forall o, P (VObject o)) ->
  forall v, P v.
Proof.
  intros HNone HBool HInt HStr HStatus HPriority HList HDict HEnv HResults HAware HExc HObj.
  fix IH 1. intros v.
  destruct v as [ | b | n | s | s | p | items | items | v i p a | x | o | m | o].
  - exact HNone.
  - apply HBool.
  - apply HInt.
  - apply HStr.
  - apply HStatus.
  - apply HPriority.
  - apply HList. induction items as [|x xs IHxs]; constructor; [apply IH|exact IHxs].
  - apply HDict. induction items as [|[k x] xs IHxs]; constructor; [apply IH|exact IHxs].
  - apply HEnv; apply IH.
  - apply HResults, IH.
  - apply HAware.
  - apply HExc, IH.
  - apply HObj.
Qed.

Lemma py_eq_int_l a b x :
  py_int a = Some x ->
  py_eq a b = match py_int b with Some y => (x =? y)%Z | None => false end.
Proof.
  intros Ha. destruct a; try discriminate; simpl in Ha; injection Ha as <-;
    simpl; destruct (py_int b); reflexivity.
Qed.

Lemma py_eq_int_r a b y : py_int a = None -> py_int b = Some y -> py_eq a b = false.
Proof.
  intros Ha Hb. destruct a; try discriminate; simpl; rewrite Hb; reflexivity.
Qed.

Lemma py_eq_list_cons x xs y ys :
  py_eq (VList (x :: xs)) (VList (y :: ys)) = py_eq x y && py_eq (VList xs) (VList ys).
Proof. reflexivity. Qed.

Lemma existsb_eqb_elem (k : string) seen : existsb (String.eqb k) seen = true <-> k ∈ seen.
Proof.
  rewrite existsb_exists. split.
  - intros (x & Hin & Heq). apply String.eqb_eq in Heq. subst x. apply list_elem_of_In, Hin.
  - intros Hin. exists k. split; [apply list_elem_of_In, Hin|apply String.eqb_refl].
Qed.

Lemma dict_get_Some_elem d k v : dict_get d k = Some v -> (k, v) ∈ d.
Proof.
  induction d as [|[k' v'] d IH]; simpl; [discriminate|].
  destruct (String.eqb k k') eqn:E.
  - apply String.eqb_eq in E. subst k'. intros [= ->]. left.
  - intros H. right. apply IH, H.
Qed.

Lemma dict_get_is_Some d k v : (k, v) ∈ d -> exists v', dict_get d k = Some v'.
Proof.
  induction d as [|[k' v'] d IH]; simpl; [intros H; inversion H|].
  intros H. destruct (String.eqb k k') eqn:E; [eexists; reflexivity|].
  apply elem_of_cons in H as [H|H]; [|apply IH, H].
  injection H as -> ->. rewrite String.eqb_refl in E. discriminate.
Qed.

(** What [dict_le] decides. *)
Lemma dict_le_spec eq xs seen ys :
  dict_le eq xs seen ys = true
  <-> forall k x, k ∉ seen -> dict_get xs k = Some x ->
        exists y, dict_get ys k = Some y /\ eq x y = true.
Proof.
  revert seen. induction xs as [|[k0 x0] xs IH]; intros seen; simpl.
  - split; [intros _ k x _ H; discriminate|reflexivity].
  - rewrite andb_true_iff, IH. split.
    + intros [H0 Hrest] k x Hk. destruct (String.eqb k k0) eqn:E.
      * apply String.eqb_eq in E. subst k0. intros [= ->].
        destruct (existsb (String.eqb k) seen) eqn:Es.
        { exfalso. apply Hk, existsb_eqb_elem, Es. }
        destruct (dict_get ys k) as [y|]; [|discriminate]. exists y. split; [reflexivity|exact H0].
      * intros Hx. apply Hrest; [|exact Hx].
        rewrite elem_of_cons. intros [->|Hin]; [|exact (Hk Hin)].
        rewrite String.eqb_refl in E. discriminate.
    + intros H. split.
      * destruct (existsb (String.eqb k0) seen) eqn:Es; [reflexivity|].
        destruct (H k0 x0) as (y & -> & Hy).
        { intros Hin. apply existsb_eqb_elem in Hin. congruence. }
        { rewrite String.eqb_refl. reflexivity. }
        exact Hy.
      * intros k x Hk Hx. apply H.
        { intros Hin. apply Hk. right. exact Hin. }
        destruct (String.eqb k k0) eqn:E; [|exact Hx].
        apply String.eqb_eq in E. subst k0. exfalso. apply Hk. left.
Qed.

Lemma dict_keys_le_spec (xs ys : PyDict) :
  forallb (fun ky => match dict_get xs ky.1 with Some _ => true | None => false end) ys = true
  <-> forall k y, dict_get ys k = Some y -> exists x, dict_get xs k = Some x.
Proof.
  rewrite forallb_forall. split.
  - intros H k y Hy. apply dict_get_Some_elem, list_elem_of_In, H in Hy. simpl in Hy.
    destruct (dict_get xs k) as [x|]; [exists x; reflexivity|discriminate].
  - intros H [k y] Hin. apply list_elem_of_In, dict_get_is_Some in Hin as (y' & Hy').
    apply H in Hy' as (x & Hx). simpl. rewrite Hx. reflexivity.
Qed.

Lemma py_eq_dict xs ys :
  py_eq (VDict xs) (VDict ys) = true
  <-> forall k, lookup_eq (dict_get xs k) (dict_get ys k).
Proof.
  change (py_eq (VDict xs) (VDict ys))
    with (dict_le (fun x y => py_eq x y) xs [] ys
          && forallb (fun ky => match dict_get xs ky.1 with Some _ => true | None => false end) ys).
  rewrite andb_true_iff, dict_le_spec, dict_keys_le_spec. unfold lookup_eq. split.
  - intros [Hle Hkeys] k.
    destruct (dict_get xs k) as [x|] eqn:Ex.
    + destruct (Hle k x) as (y & -> & Hy); [apply not_elem_of_nil|exact Ex|exact Hy].
    + destruct (dict_get ys k) as [y|] eqn:Ey; [|exact I].
      destruct (Hkeys k y Ey) as (x & Hx). congruence.
  - intros H. split.
    + intros k x _ Hx. specialize (H k). rewrite Hx in H.
      destruct (dict_get ys k) as [y|]; [|contradiction]. exists y. split; [reflexivity|exact H].
    + intros k y Hy. specialize (H k). rewrite Hy in H.
      destruct (dict_get xs k) as [x|]; [|contradiction]. exists x. reflexivity.
Qed.

Lemma Forall_dict_get (P : PyVal -> Prop) (d : PyDict) k v :
  Forall (fun kv => P kv.2) d -> dict_get d k = Some v -> P v.
Proof.
  intros HF Hget. apply dict_get_Some_elem in Hget.
  rewrite Forall_forall in HF. exact (HF _ Hget).
Qed.

Lemma py_eq_refl : forall v, py_eq v v = true.
Proof.
  induction v as [ | b | n | s | s | p | items IH | items IH | v i p a IHv IHi IHp IHa
                 | x IHx | o | m IHm | o] using PyVal_items_ind;
    try (simpl; first [reflexivity | apply Z.eqb_refl | apply String.eqb_refl
                      | apply Nat.eqb_refl | assumption]).
  - induction IH as [|x xs Hx _ IHxs]; [reflexivity|].
    rewrite py_eq_list_cons, Hx, IHxs. reflexivity.
  - apply py_eq_dict. intros k. unfold lookup_eq.
    destruct (dict_get items k) as [x|] eqn:E; [|exact I].
    exact (Forall_dict_get (fun v => py_eq v v = true) _ _ _ IH E).
  - simpl. rewrite IHv, IHi, IHp, IHa. reflexivity.
Qed.

Lemma py_eq_sym : forall a b, py_eq a b = py_eq b a.
Proof.
  induction a as [ | b' | n | s | s | p | items IH | items IH | v i p a IHv IHi IHp IHa
                 | x IHx | o | m IHm | o] using PyVal_items_ind;
    intros b;
    try (match goal with
         | |- py_eq ?a _ = _ => rewrite (py_eq_int_l a b _ eq_refl)
         end;
         destruct (py_int b) as [y|] eqn:Eb;
         [rewrite (py_eq_int_l b _ y Eb); simpl; apply Z.eqb_sym
         |destruct b; try discriminate; reflexivity]);
    try (destruct b; try reflexivity; simpl;
         first [apply String.eqb_sym | apply Nat.eqb_sym | apply IHx | apply IHm]).
  - destruct b as [ | | | | | | items' | | | | | | ]; try reflexivity.
    revert items'. induction IH as [|x xs Hx _ IHxs]; intros [|y ys]; try reflexivity.
    rewrite !py_eq_list_cons, Hx, IHxs. reflexivity.
  - destruct b as [ | | | | | | | items' | | | | | ]; try reflexivity.
    apply Bool.eq_iff_eq_true. rewrite !py_eq_dict.
    split; intros H k; specialize (H k); unfold lookup_eq in *;
      destruct (dict_get items k) as [x|] eqn:Ex, (dict_get items' k) as [y|]; try assumption;
      pose proof (Forall_dict_get (fun v => forall b, py_eq v b = py_eq b v) _ _ _ IH Ex y) as Hs;
      simpl in Hs; congruence.
  - destruct b; try reflexivity. simpl. rewrite IHv, IHi, IHp, IHa. reflexivity.
Qed.

Lemma py_eq_trans : forall a b c, py_eq a b = true -> py_eq b c = true -> py_eq a c = true.
Proof.
  induction a as [ | b' | n | s | s | p | items IH | items IH | v i p a IHv IHi IHp IHa
                 | x IHx | o | m IHm | o] using PyVal_items_ind;
    intros b c;
    try (match goal with
         | |- py_eq ?a _ = true -> _ =>
             rewrite (py_eq_int_l a b _ eq_refl), (py_eq_int_l a c _ eq_refl)
         end;
         destruct (py_int b) as [y|] eqn:Eb; [|discriminate];
         rewrite (py_eq_int_l b c y Eb); destruct (py_int c); [|discriminate];
         rewrite !Z.eqb_eq; congruence).
  - destruct b; try discriminate. destruct c; try discriminate. reflexivity.
  - destruct b; try discriminate. destruct c; try discriminate. simpl.
    rewrite !String.eqb_eq. congruence.
  - destruct b as [ | | | | | | ys | | | | | | ]; try discriminate.
    destruct c as [ | | | | | | zs | | | | | | ]; try discriminate.
    revert ys zs. induction IH as [|x xs Hx _ IHxs]; intros [|y ys] [|z zs]; try discriminate;
      [reflexivity|].
    rewrite !py_eq_list_cons, !andb_true_iff. intros [H1 H2] [H3 H4].
    split; [exact (Hx _ _ H1 H3)|exact (IHxs _ _ H2 H4)].
  - destruct b as [ | | | | | | | ys | | | | | ]; try discriminate.
    destruct c as [ | | | | | | | zs | | | | | ]; try discriminate.
    rewrite !py_eq_dict. intros H1 H2 k. specialize (H1 k). specialize (H2 k).
    unfold lookup_eq in *.
    destruct (dict_get items k) as [x|] eqn:Ex, (dict_get ys k) as [y|],
      (dict_get zs k) as [z|]; try assumption; try contradiction.
    exact (Forall_dict_get
             (fun v => forall b c, py_eq v b = true -> py_eq b c = true -> py_eq v c = true)
             _ _ _ IH Ex _ _ H1 H2).
  - destruct b; try discriminate. destruct c; try discriminate. simpl.
    rewrite !andb_true_iff. intros [[[H1 H2] H3] H4] [[[H5 H6] H7] H8].
    repeat split; eauto.
  - destruct b; try discriminate. destruct c; try discriminate. simpl. apply IHx.
  - destruct b; try discriminate. destruct c; try discriminate. simpl.
    rewrite !Nat.eqb_eq. congruence.
  - destruct b; try discriminate. destruct c; try discriminate. simpl. apply IHm.
  - destruct b; try discriminate. destruct c; try discriminate. simpl.
    rewrite !Nat.eqb_eq. congruence.
Qed.

(** [==] as Python answers it: [True == 1], [Status.ok == 1], [False] is
    not [None], and two mappings with the same items are equal in
    whatever order they list them. *)
Example py_eq_python :
  py_eq (VBool true) (VInt 1) = true
  /\ py_eq (VStatus Status.ok) (VInt 1) = true
  /\ py_eq (VBool false) VNone = false
  /\ py_eq (VDict [("host", VStr "a"); ("port", VInt 80)])
           (VDict [("port", VInt 80); ("host", VStr "a")]) = true
  /\ py_eq (VDict [("host", VStr "a")])
           (VDict [("host", VStr "a"); ("port", VInt 80)]) = false.
Proof. repeat split; reflexivity. Qed.

Lemma Environment_eq_refl e : Environment_eq e e = true.
Proof. unfold Environment_eq. rewrite !py_eq_refl. reflexivity. Qed.

(** ** ConfigurationSpec *)

(** [__eq__] never looks at the other spec's [inputSchema] or at either
    [installer]: a spec equals every spec that differs from it in these two
    fields only. *)
Lemma ConfigurationSpec_eq_blind_fields s schema installer :
  ConfigurationSpec_eq s
    (ConfigurationSpec.mk
       (ConfigurationSpec.name s) (ConfigurationSpec.operation s)
       (ConfigurationSpec.className s) (ConfigurationSpec.majorVersion s)
       (ConfigurationSpec.minorVersion s) (ConfigurationSpec.workflow s)
       (ConfigurationSpec.timeout s) (ConfigurationSpec.environment s)
       (ConfigurationSpec.inputs s) schema
       (ConfigurationSpec.preConditions s) (ConfigurationSpec.postConditions s)
       installer) = true.
Proof.
  unfold ConfigurationSpec_eq; simpl.
  rewrite !py_eq_refl, Environment_eq_refl. reflexivity.
Qed.

(** C5, at the failing input.  The claim makes two specs that differ only
    in [inputSchema] unequal; [__eq__] answers [True] for them (and for two
    that differ only in [installer]). *)
Theorem ConfigurationSpec_eq_differing_inputSchema :
  ex_spec ex_schema_port VNone <> ex_spec ex_schema_host VNone
  /\ ConfigurationSpec_eq (ex_spec ex_schema_port VNone) (ex_spec ex_schema_host VNone) = true
  /\ ex_spec VNone (VObject 1) <> ex_spec VNone (VObject 2)
  /\ ConfigurationSpec_eq (ex_spec VNone (VObject 1)) (ex_spec VNone (VObject 2)) = true.
Proof. repeat split; try discriminate; reflexivity. Qed.

(** [copy] hands [__init__] the [Environment] object of the spec where
    [__init__] unpacks a mapping: no spec can be copied. *)
Lemma ConfigurationSpec_copy_never_succeeds s :
  exists e, ConfigurationSpec_copy s [] = inl e.
Proof.
  unfold ConfigurationSpec_copy, ConfigurationSpec_call.
  cbn -[ConfigurationSpec_init]. unfold ConfigurationSpec_init.
  destruct (negb _); [eauto|].
  unfold Environment_val, py_or; simpl. eauto.
Qed.

(** C6, at the failing input.  The claim has [s.copy()] succeed with a spec
    equal to [s]; on a spec that [__init__] built, [copy()] raises
    [TypeError]. *)
Theorem ConfigurationSpec_copy_raises :
  ConfigurationSpec_init (VStr "configure-db") (VStr "configure") (VStr "Shell")
    (VInt 0) (VStr "") Defaults_workflow VNone VNone VNone VNone VNone VNone VNone
  = inr (ex_spec VNone VNone)
  /\ ConfigurationSpec_copy (ex_spec VNone VNone) []
     = inl (TypeError "keyword unpacking needs a mapping").
Proof. split; reflexivity. Qed.

(** ** ConfiguratorResult *)

(** C10.  Whatever is passed as [exception], the result that
    [ConfiguratorResult.__init__] builds has [exception] set to [None],
    read as a field or through attribute lookup. *)
Theorem ConfiguratorResult_exception_None :
  forall applied modified status configChanged result success outputs exception,
    let r := ConfiguratorResult_init applied modified status configChanged
               result success outputs exception in
    ConfiguratorResult.exception r = VNone
    /\ ConfiguratorResult_getattr r "exception" = inr VNone.
Proof. intros. split; reflexivity. Qed.

(** The same through [TaskView.done]: the captured exception it passes on
    is not on the result it returns. *)
Lemma TaskView_done_exception_None required self success modified status result outputs
    captureException w r w' :
  TaskView_done required self success modified status result outputs captureException w
    = (inr r, w') ->
  ConfiguratorResult.exception r = VNone.
Proof.
  unfold TaskView_done, mbind, M_bind, mret, M_ret.
  destruct modified, (negb (is_None captureException)), (truthy success); simpl;
    unfold UnfurlTaskError, modifyTask, modify, getTask, mbind, M_bind, mret, M_ret; simpl;
    repeat match goal with
           | |- context [match ?x with _ => _ end] => destruct x; simpl
           end;
    intros H; inversion H; reflexivity.
Qed.

(** ** Dependency *)

(** With a schema that the result fails, [hasChanged] answers [False]. *)
Lemma Dependency_hasChanged_schema_fails resolveOne mapValue validateSchema changeAware
    self config :
  truthy (Dependency.schema self) = true ->
  validateSchema
    (resolveOne (Dependency.expr self)
       (mkRefContext (cs_target config)
          [("val", Dependency.expected self); ("changeId", VInt (cs_changeId config))]))
    (Dependency.schema self) = false ->
  Dependency_hasChanged resolveOne mapValue validateSchema changeAware self config = false.
Proof. intros Hs Hv. unfold Dependency_hasChanged. rewrite Hs, Hv. reflexivity. Qed.

(** With a schema that the result passes, the answer is that of the walk
    through the result, not [False]. *)
Lemma Dependency_hasChanged_schema_passes resolveOne mapValue validateSchema changeAware
    self config :
  truthy (Dependency.schema self) = true ->
  let result :=
    resolveOne (Dependency.expr self)
      (mkRefContext (cs_target config)
         [("val", Dependency.expected self); ("changeId", VInt (cs_changeId config))]) in
  validateSchema result (Dependency.schema self) = true ->
  Dependency_hasChanged resolveOne mapValue validateSchema changeAware self config
  = truthy (Dependency_hasValueChanged changeAware result config).
Proof.
  intros Hs result Hv. unfold Dependency_hasChanged. fold result. rewrite Hs, Hv. simpl.
  destruct (truthy (Dependency_hasValueChanged changeAware result config)); reflexivity.
Qed.

(** Without a schema the other tests are as described: an expected value
    that differs from the result, or no expected value and a falsy result,
    make the dependency changed. *)
Lemma Dependency_hasChanged_no_schema resolveOne mapValue validateSchema changeAware
    self config :
  truthy (Dependency.schema self) = false ->
  let context :=
    mkRefContext (cs_target config)
      [("val", Dependency.expected self); ("changeId", VInt (cs_changeId config))] in
  let result := resolveOne (Dependency.expr self) context in
  (is_None (Dependency.expected self) = false ->
   py_eq result (mapValue (Dependency.expected self) context) = false ->
   Dependency_hasChanged resolveOne mapValue validateSchema changeAware self config = true)
  /\ (is_None (Dependency.expected self) = true ->
      truthy result = false ->
      Dependency_hasChanged resolveOne mapValue validateSchema changeAware self config = true).
Proof.
  intros Hs context result. unfold Dependency_hasChanged. fold context. fold result.
  rewrite Hs. split.
  - intros He Hne. rewrite He, Hne. reflexivity.
  - intros He Hr. rewrite He, Hr. reflexivity.
Qed.

(** C2, at the failing input.  The claim has [hasChanged] answer true
    exactly when the result fails the schema; here the result fails it and
    [hasChanged] answers [False]. *)
Theorem Dependency_hasChanged_invalid_result :
  let cs := mkChangeset 0 7 in
  let result := ex_resolveOne (Dependency.expr ex_dependency)
                  (mkRefContext 0 [("val", VNone); ("changeId", VInt 7)]) in
  truthy (Dependency.schema ex_dependency) = true
  /\ ex_validateSchema result (Dependency.schema ex_dependency) = false
  /\ Dependency_hasChanged ex_resolveOne ex_mapValue ex_validateSchema ex_changeAware
       ex_dependency cs = false.
Proof. repeat split; reflexivity. Qed.

(** ** The monad *)

Lemma bind_mret {A B} (x : A) (k : A -> M B) w : (mret x ≫= k) w = k x w.
Proof. reflexivity. Qed.

Lemma bind_lift_inr {A B} (x : A) (k : A -> M B) w : (lift (inr x) ≫= k) w = k x w.
Proof. reflexivity. Qed.

Lemma bind_modifyTask {B} t f (k : unit -> M B) w :
  (modifyTask t f ≫= k) w = k tt (set_tasks (alter f t (tasks w)) w).
Proof. reflexivity. Qed.

Lemma bind_inr_inv {A B} (m : M A) (f : A -> M B) w r w2 :
  (m ≫= f) w = (inr r, w2) -> exists x w1, m w = (inr x, w1) /\ f x w1 = (inr r, w2).
Proof.
  unfold mbind, M_bind. destruct (m w) as [[e|x] w1]; [discriminate|].
  intros H. exists x, w1. split; [reflexivity|exact H].
Qed.

Lemma bind_inl_inv {A B} (m : M A) (f : A -> M B) w e w2 :
  (m ≫= f) w = (inl e, w2) ->
  m w = (inl e, w2) \/ exists x w1, m w = (inr x, w1) /\ f x w1 = (inl e, w2).
Proof.
  unfold mbind, M_bind. destruct (m w) as [[e'|x] w1].
  - intros H. injection H as <- <-. left. reflexivity.
  - intros H. right. exists x, w1. split; [reflexivity|exact H].
Qed.

Lemma bind_inr {A B} (m : M A) (f : A -> M B) w x w1 :
  m w = (inr x, w1) -> (m ≫= f) w = f x w1.
Proof. intros H. unfold mbind, M_bind. rewrite H. reflexivity. Qed.

Lemma bind_inl {A B} (m : M A) (f : A -> M B) w e w1 :
  m w = (inl e, w1) -> (m ≫= f) w = (inl e, w1).
Proof. intros H. unfold mbind, M_bind. rewrite H. reflexivity. Qed.

Lemma try_except_inr_inv {A} (m : M A) h w r w2 :
  try_except m h w = (inr r, w2) ->
  m w = (inr r, w2)
  \/ exists e w1, m w = (inl e, w1) /\ is_Exception e = true /\ h e w1 = (inr r, w2).
Proof.
  unfold try_except. destruct (m w) as [[e|x] w1].
  - destruct (is_Exception e) eqn:He; [|discriminate].
    intros H. right. exists e, w1. repeat split; assumption.
  - intros H. left. exact H.
Qed.

Lemma bind_getTask {B} t (k : ConfigTask.t -> M B) w task :
  tasks w !! t = Some task -> (getTask t ≫= k) w = k task w.
Proof. intros H. unfold mbind, M_bind, getTask. rewrite H. reflexivity. Qed.

Section Preserves.
Context {X : Type} (obs : World -> X).

Lemma preserves_ret {A} (x : A) : preserves obs (mret x).
Proof. intros w. reflexivity. Qed.

Lemma preserves_raise {A} e : preserves obs (@raise A e).
Proof. intros w. reflexivity. Qed.

Lemma preserves_get : preserves obs get.
Proof. intros w. reflexivity. Qed.

Lemma preserves_lift {A} (r : PyExc + A) : preserves obs (lift r).
Proof. intros w. reflexivity. Qed.

Lemma preserves_bind {A B} (m : M A) (f : A -> M B) :
  preserves obs m -> (forall x, preserves obs (f x)) -> preserves obs (m ≫= f).
Proof.
  intros Hm Hf w. unfold mbind, M_bind. specialize (Hm w).
  destruct (m w) as [[e|x] w']; simpl in *; [assumption|].
  rewrite Hf. assumption.
Qed.

Lemma preserves_try_except {A} (m : M A) h :
  preserves obs m -> (forall e, preserves obs (h e)) -> preserves obs (try_except m h).
Proof.
  intros Hm Hh w. unfold try_except. specialize (Hm w).
  destruct (m w) as [[e|x] w']; simpl in *; [|assumption].
  destruct (is_Exception e); simpl; [rewrite Hh|]; assumption.
Qed.

Lemma preserves_try_finally {A} (m : M A) c :
  preserves obs m -> preserves obs c -> preserves obs (try_finally m c).
Proof.
  intros Hm Hc w. unfold try_finally. specialize (Hm w).
  destruct (m w) as [r w']; simpl in *. specialize (Hc w').
  destruct (c w') as [[e|x] w'']; simpl in *; congruence.
Qed.

Lemma preserves_getTask t : preserves obs (getTask t).
Proof. intros w. unfold getTask. destruct (tasks w !! t); reflexivity. Qed.

Lemma preserves_getJob j : preserves obs (getJob j).
Proof. intros w. unfold getJob. destruct (jobs w !! j); reflexivity. Qed.

Lemma preserves_getInstance i : preserves obs (getInstance i).
Proof. intros w. unfold getInstance. destruct (instances w !! i); reflexivity. Qed.

Lemma preserves_modify f : (forall w, obs (f w) = obs w) -> preserves obs (modify f).
Proof. intros H w. apply H. Qed.

(** What follows a call preserves the observation: only the call counts. *)
Lemma obs_bind_tail {A B} (m : M A) (f : A -> M B) w :
  (forall x, preserves obs (f x)) -> obs ((m ≫= f) w).2 = obs (m w).2.
Proof.
  intros Hf. unfold mbind, M_bind.
  destruct (m w) as [[e|x] w']; simpl; [reflexivity|apply Hf].
Qed.

End Preserves.

Ltac preserves_step :=
  lazymatch goal with
  | |- preserves _ (mret _) => apply preserves_ret
  | |- preserves _ (raise _) => apply preserves_raise
  | |- preserves _ get => apply preserves_get
  | |- preserves _ (lift _) => apply preserves_lift
  | |- preserves _ (getTask _) => apply preserves_getTask
  | |- preserves _ (getJob _) => apply preserves_getJob
  | |- preserves _ (getInstance _) => apply preserves_getInstance
  | |- preserves _ (_ ≫= _) => apply preserves_bind; [|intros ?]
  | |- preserves _ (try_except _ _) => apply preserves_try_except; [|intros ?]
  | |- preserves _ (try_finally _ _) => apply preserves_try_finally
  | |- preserves _ (match ?x with _ => _ end) => destruct x
  end.

(** ** ConfigTask.send *)

Lemma changeList_of_modifyTask self t f :
  (forall x, ConfigTask.changeList (f x) = ConfigTask.changeList x) ->
  preserves (changeList_of self) (modifyTask t f).
Proof.
  intros Hf w. unfold changeList_of, modifyTask, modify; simpl.
  destruct (decide (t = self)) as [->|Hne].
  - rewrite list_lookup_alter_eq.
    destruct (tasks w !! self); simpl; [f_equal; apply Hf|reflexivity].
  - rewrite list_lookup_alter_ne by assumption. reflexivity.
Qed.

Lemma changeList_of_run_effects self t effects :
  preserves (changeList_of self) (run_effects t effects).
Proof.
  induction effects as [|[k a v|r] rest IH]; simpl.
  - apply preserves_ret.
  - unfold AttributeManager_set. repeat preserves_step; try assumption;
      first [apply preserves_modify; reflexivity
            | apply changeList_of_modifyTask; reflexivity].
  - repeat preserves_step; try assumption. intros w. reflexivity.
Qed.

Lemma changeList_of_Generator_send self t g change :
  preserves (changeList_of self) (Generator_send t g change).
Proof.
  unfold Generator_send. destruct g as [resume]. destruct (resume change);
    repeat preserves_step;
    first [apply changeList_of_run_effects | apply changeList_of_modifyTask; reflexivity].
Qed.

(** What the effects of a step leave on the record of the running task:
    its staging log takes the writes when the task is the root's attribute
    manager, and nothing of it changes when it is not. *)
Lemma run_effects_staged self effects : forall w task,
  tasks w !! self = Some task ->
  exists w1,
    run_effects self effects w = (inr tt, w1)
    /\ rootAttributeManager w1 = rootAttributeManager w
    /\ tasks w1 !! self
       = Some (if bool_decide (rootAttributeManager w = Some self)
               then ConfigTask.set_staged
                      (stage_writes effects (ConfigTask.staged task)) task
               else task).
Proof.
  induction effects as [|[k a v|r] rest IH]; intros w task Ht.
  - exists w. split; [reflexivity|]. split; [reflexivity|].
    rewrite Ht. destruct (bool_decide _); [|reflexivity].
    destruct task; reflexivity.
  - cbn [run_effects]. unfold AttributeManager_set.
    unfold mbind at 1, M_bind at 1, get at 1. cbv beta iota.
    destruct (rootAttributeManager w) as [manager|] eqn:Em.
    + unfold mbind at 1 2, M_bind at 1 2, modify at 1, modifyTask, modify. cbv beta iota.
      match goal with
      | |- context [run_effects self rest ?w'] => set (w1 := w')
      end.
      assert (Hw1 : rootAttributeManager w1 = Some manager) by exact Em.
      destruct (decide (manager = self)) as [->|Hne].
      * destruct (IH w1 (ConfigTask.set_staged
                           (changes_set (ConfigTask.staged task) (k, a) v) task))
          as (w2 & Hrun & Hm & Hl).
        { subst w1. cbn [tasks set_tasks set_instances].
          rewrite list_lookup_alter_eq, Ht. reflexivity. }
        exists w2. split; [exact Hrun|]. split; [rewrite Hm; exact Hw1|].
        rewrite Hl, Hw1, !bool_decide_true by reflexivity.
        destruct task; reflexivity.
      * destruct (IH w1 task) as (w2 & Hrun & Hm & Hl).
        { subst w1. cbn [tasks set_tasks set_instances].
          rewrite list_lookup_alter_ne by exact Hne. exact Ht. }
        exists w2. split; [exact Hrun|]. split; [rewrite Hm; exact Hw1|].
        rewrite Hl, Hw1, !bool_decide_false by congruence. reflexivity.
    + unfold mbind at 1, M_bind at 1, modify at 1. cbv beta iota.
      match goal with
      | |- context [run_effects self rest ?w'] => set (w1 := w')
      end.
      assert (Hw1 : rootAttributeManager w1 = None) by exact Em.
      destruct (IH w1 task) as (w2 & Hrun & Hm & Hl); [exact Ht|].
      exists w2. split; [exact Hrun|]. split; [rewrite Hm; exact Hw1|].
      rewrite Hl, Hw1, !bool_decide_false by discriminate. reflexivity.
  - cbn [run_effects]. rewrite (bind_getTask _ _ _ _ Ht).
    unfold mbind at 1, M_bind at 1, modifyJob, modify. cbv beta iota.
    match goal with
    | |- context [run_effects self rest ?w'] => set (w1 := w')
    end.
    destruct (IH w1 task) as (w2 & Hrun & Hm & Hl); [exact Ht|].
    exists w2. split; [exact Hrun|]. split; [rewrite Hm; reflexivity|]. exact Hl.
Qed.

(** C9, amended.  One call of [ConfigTask.send] on a task of the store
    appends exactly one snapshot to the task's [changeList], whatever the
    generator does (yield, return, raise, or be missing), keeps the
    snapshots that were there and leaves the task's staging log empty.  The
    snapshot is the staging log of the task: when the task is the root's
    attribute manager, that is what was staged on it before with the
    writes of the step on top; when a task was created after it, the
    writes of the step are not in it. *)
Theorem ConfigTask_send_commits_staging_log self change w task :
  tasks w !! self = Some task ->
  exists task',
    tasks (ConfigTask_send self change w).2 !! self = Some task'
    /\ ConfigTask.changeList task'
       = ConfigTask.changeList task
         ++ [if bool_decide (rootAttributeManager w = Some self)
             then stage_writes (step_effects (ConfigTask.generator task) change)
                               (ConfigTask.staged task)
             else ConfigTask.staged task]
    /\ ConfigTask.staged task' = [].
Proof.
  intros Ht. unfold ConfigTask_send, try_finally.
  set (snapshot := if bool_decide (rootAttributeManager w = Some self) then _ else _).
  assert (Hbody : exists r w1 task1,
    (getTask self ≫= fun task0 =>
       match ConfigTask.generator task0 with
       | None => raise (AttributeError "send")
       | Some g => Generator_send self g change
       end) w = (r, w1)
    /\ tasks w1 !! self = Some task1
    /\ ConfigTask.changeList task1 = ConfigTask.changeList task
    /\ ConfigTask.staged task1 = snapshot).
  { rewrite (bind_getTask _ _ _ _ Ht). subst snapshot.
    destruct (ConfigTask.generator task) as [[resume]|] eqn:Eg.
    - cbn [Generator_send step_effects].
      destruct (resume change) as [effects y rest|effects e|effects];
        destruct (run_effects_staged self effects w task Ht) as (w1 & Hrun & _ & Hl);
        unfold mbind, M_bind; rewrite Hrun;
        unfold modifyTask, modify, raise, mret, M_ret; cbv beta iota;
        eexists _, _, _; (split; [reflexivity|]);
        cbn [tasks set_tasks]; rewrite list_lookup_alter_eq, Hl;
        (split; [reflexivity|]);
        destruct (bool_decide _); destruct task; split; reflexivity.
    - exists (inl (AttributeError "send")), w, task.
      split; [reflexivity|]. split; [exact Ht|]. split; [reflexivity|].
      cbn [step_effects stage_writes fold_left]. destruct (bool_decide _); reflexivity. }
  destruct Hbody as (r & w1 & task1 & -> & Ht1 & Hcl & Hst).
  unfold ConfigTask_commitChanges, AttributeManager_commitChanges, getTask, modifyTask, modify,
    mbind, M_bind, mret, M_ret. rewrite Ht1. cbn [tasks set_tasks snd].
  rewrite !list_lookup_alter_eq, Ht1. cbn.
  eexists. split; [reflexivity|]. cbn. rewrite Hcl, Hst. split; reflexivity.
Qed.

(** The amended C9 on the [Failing] configurator, which writes an
    attribute and then raises: the task is the only one of its root, and
    the write is the one snapshot of its [changeList]. *)
Lemma ConfigTask_send_commits_staging_log_witness :
  let w := (ex_driver
              [OpCreateJob ex_empty_plan JobOptions_defaults;
               OpCreateTask 0 (ex_task_spec "Failing") 0 None (VStr "add");
               OpStart 0]).1 in
  exists task',
    (ConfigTask_send 0 SentNone w).1 = inl (Exception "connection lost")
    /\ tasks (ConfigTask_send 0 SentNone w).2 !! 0 = Some task'
    /\ ConfigTask.changeList task'
       = [[(("::my_server", "private_address"), VStr "10.0.0.1")]]
    /\ ConfigTask.staged task' = [].
Proof.
  intros w.
  destruct (tasks w !! 0) as [task|] eqn:E; [|vm_compute in E; discriminate].
  destruct (ConfigTask_send_commits_staging_log 0 SentNone w task E)
    as (task' & H1 & H2 & H3).
  exists task'. split; [reflexivity|]. split; [exact H1|]. split; [|exact H3].
  rewrite H2. vm_compute in E. injection E as <-. reflexivity.
Defined.

(** C9 as stated fails on a task that is no longer the newest of its root.
    Two tasks are created on one instance and the first is started; its
    generator writes an attribute and raises.  The one snapshot that
    [send] appends is empty, and the write is staged on the second task, in
    nobody's [changeList]. *)
Lemma ConfigTask_send_older_task_loses_write :
  let w := (ex_driver
              [OpCreateJob ex_empty_plan JobOptions_defaults;
               OpCreateTask 0 (ex_task_spec "Failing") 0 None (VStr "add");
               OpCreateTask 0 (ex_task_spec "SetAttribute") 0 None (VStr "add");
               OpStart 0]).1 in
  let out := ConfigTask_send 0 SentNone w in
  let write := (("::my_server", "private_address"), VStr "10.0.0.1") in
  step_effects (tasks w !! 0 ≫= ConfigTask.generator) SentNone
  = [EWrite "::my_server" "private_address" (VStr "10.0.0.1")]
  /\ out.1 = inl (Exception "connection lost")
  /\ changeList_of 0 out.2 = Some [[]]
  /\ changeList_of 1 out.2 = Some []
  /\ ConfigTask.staged <$> tasks out.2 !! 1 = Some [write]
  /\ ~ (exists task' snapshot,
          tasks out.2 !! 0 = Some task'
          /\ snapshot ∈ ConfigTask.changeList task'
          /\ write ∈ snapshot).
Proof.
  intros w out write.
  split; [vm_compute; reflexivity|].
  split; [vm_compute; reflexivity|].
  split; [vm_compute; reflexivity|].
  split; [vm_compute; reflexivity|].
  split; [vm_compute; reflexivity|].
  intros (task' & snapshot & Ht & Hs & Hw).
  assert (Hcl : changeList_of 0 out.2 = Some [[]]) by (vm_compute; reflexivity).
  unfold changeList_of in Hcl. rewrite Ht in Hcl. cbn in Hcl. injection Hcl as Hcl.
  rewrite Hcl in Hs. apply list_elem_of_singleton in Hs. subst snapshot.
  inversion Hw.
Qed.

(** ** Change ids *)

(** [incrementChangeId] returns the counter's new value, one above the
    old. *)
Lemma Runner_incrementChangeId_fresh w :
  Runner_incrementChangeId w
  = (inr (Runner.lastChangeId (runner w) + 1)%Z,
     set_runner (Runner_set_lastChangeId (Runner.lastChangeId (runner w) + 1)%Z (runner w)) w).
Proof. reflexivity. Qed.

Lemma fmap_alter_same {A B} (g : A -> B) (f : A -> A) i (l : list A) :
  (forall x, g (f x) = g x) -> g <$> alter f i l = g <$> l.
Proof.
  intros H. revert i. induction l as [|x l IH]; intros [|i]; simpl; try reflexivity.
  - rewrite H. reflexivity.
  - f_equal. apply IH.
Qed.

Lemma ids_modifyTask t f :
  (forall x, task_ids (f x) = task_ids x) -> preserves ids (modifyTask t f).
Proof.
  intros H w. unfold ids, modifyTask, modify; simpl.
  rewrite fmap_alter_same by assumption. reflexivity.
Qed.

Lemma ids_modifyJob j f :
  (forall x, Job.changeId (f x) = Job.changeId x) -> preserves ids (modifyJob j f).
Proof.
  intros H w. unfold ids, modifyJob, modify; simpl.
  rewrite fmap_alter_same by assumption. reflexivity.
Qed.

Lemma ids_modifyInstance i f : preserves ids (modifyInstance i f).
Proof. intros w. reflexivity. Qed.

Ltac ids_base :=
  first [ apply ids_modifyTask; intros []; reflexivity
        | apply ids_modifyJob; intros []; reflexivity
        | apply ids_modifyInstance
        | apply preserves_modify; intros []; reflexivity ].

Ltac ids_auto := repeat first [preserves_step | ids_base | assumption].

Lemma ids_UnfurlTaskError t msg : preserves ids (UnfurlTaskError t msg).
Proof. unfold UnfurlTaskError. ids_auto. Qed.

Lemma ids_run_effects t effects : preserves ids (run_effects t effects).
Proof.
  induction effects as [|[k a v|r] rest IH]; simpl; unfold AttributeManager_set; ids_auto.
Qed.

Lemma ids_ConfigTask_configurator lookupClass t :
  preserves ids (ConfigTask_configurator lookupClass t).
Proof. unfold ConfigTask_configurator, ConfigurationSpec_create. ids_auto. Qed.

Lemma ids_ConfigTask_start lookupClass t : preserves ids (ConfigTask_start lookupClass t).
Proof.
  unfold ConfigTask_start, ConfigTask_startRun. ids_auto. apply ids_ConfigTask_configurator.
Qed.

Lemma ids_ConfigTask_send t change : preserves ids (ConfigTask_send t change).
Proof.
  unfold ConfigTask_send, Generator_send, ConfigTask_commitChanges,
    AttributeManager_commitChanges.
  ids_auto; apply ids_run_effects.
Qed.

Lemma ids_ConfigTask__updateStatus required t o :
  preserves ids (ConfigTask__updateStatus required t o).
Proof. unfold ConfigTask__updateStatus, set_target_localStatus. ids_auto. Qed.

Lemma ids_ConfigTask__updateLastChange lastChange t r :
  preserves ids (ConfigTask__updateLastChange lastChange t r).
Proof. unfold ConfigTask__updateLastChange. ids_auto. Qed.

Lemma task_ids_set_changeId (ts : list ConfigTask.t) (t j : nat) (p c c' : Z) :
  (task_ids <$> ts) !! t = Some (j, p, c) ->
  task_ids <$> alter (ConfigTask.set_changeId c') t ts = <[t := (j, p, c')]> (task_ids <$> ts).
Proof.
  revert t. induction ts as [|x l IH]; intros [|t] H; simpl in *; try discriminate.
  - injection H as H. f_equal. destruct x; unfold task_ids in *; simpl in *. congruence.
  - f_equal. apply IH. assumption.
Qed.

(** The heart of [finished]: the counter moves and the task takes its new
    value; the rest of the method does not touch change ids. *)
Lemma ids_finished_core {B} t (rest : M B) w last js ts j p c :
  preserves ids rest ->
  ids w = (last, js, ts) ->
  ts !! t = Some (j, p, c) ->
  ids ((Runner_incrementChangeId ≫= fun changeId =>
        modifyTask t (ConfigTask.set_changeId changeId) ≫= fun _ => rest) w).2
  = ((last + 1)%Z, js, <[t := (j, p, (last + 1)%Z)]> ts).
Proof.
  intros Hrest Hw Ht. unfold ids in Hw. injection Hw as <- <- <-.
  unfold Runner_incrementChangeId, mbind, M_bind, modify, get, mret, M_ret, modifyTask; simpl.
  rewrite Hrest. unfold ids; simpl. f_equal. eapply task_ids_set_changeId. eassumption.
Qed.

Section DriverSteps.
Variable lookupClass : PyVal -> PyExc + (ConfigurationSpec.t -> Configurator).
Variable ConfigTask_required : ConfigTask.t -> bool.
Variable Instance_lastChange : Instance.t -> PyVal.
Variable now : PyVal.

Lemma ids_Job_init plan opts w log :
  ids_step (ids w, log) (ids (Job_init now plan opts w).2, log).
Proof.
  unfold Job_init, Runner_incrementChangeId, ids.
  destruct w as [r js ts ins ram c v]; destruct r as [m last cur].
  unfold mbind, M_bind, mret, M_ret, modify, get, getJob; simpl.
  destruct (JobOptions.parentJob opts) as [p|]; simpl.
  - destruct (js !! p); simpl.
    + rewrite fmap_app. simpl. apply ids_job.
    + apply ids_bump.
  - rewrite fmap_app. simpl. apply ids_job.
Qed.

Lemma ids_ConfigTask_init job spec target pid reason w log :
  ids_step (ids w, log) (ids (ConfigTask_init now job spec target pid reason w).2, log).
Proof.
  unfold ConfigTask_init, ids.
  unfold mbind, M_bind, mret, M_ret, modify, get, getJob, getInstance.
  destruct (jobs w !! job) as [j|] eqn:Ej; [|apply ids_silent].
  destruct (instances w !! target); [|apply ids_silent].
  cbn [snd tasks jobs runner set_tasks set_rootAttributeManager].
  rewrite fmap_app. cbn [fmap list_fmap]. unfold task_ids at 2;
    cbn [ConfigTask.job ConfigTask.parentId ConfigTask.changeId].
  eapply ids_task. simpl. rewrite list_lookup_fmap, Ej. reflexivity.
Qed.

Lemma ids_Job_createTask job spec target pid reason w log :
  ids_step (ids w, log)
           (ids (Job_createTask lookupClass now job spec target pid reason w).2, log).
Proof.
  unfold Job_createTask. rewrite obs_bind_tail.
  - apply ids_ConfigTask_init.
  - intros t. ids_auto; first [apply ids_ConfigTask_configurator | apply ids_UnfurlTaskError].
Qed.

Lemma ids_ConfigTask_finished t r w log :
  ids_step (ids w, log)
    (ids (ConfigTask_finished ConfigTask_required Instance_lastChange t r w).2,
     match tasks w !! t with Some _ => log ++ [t] | None => log end).
Proof.
  unfold ConfigTask_finished.
  destruct (tasks w !! t) as [task|] eqn:Et.
  2:{ unfold mbind, M_bind, getTask. rewrite Et. apply ids_silent. }
  rewrite (bind_getTask _ _ _ _ Et).
  assert (Hrest : preserves ids
    (getTask t ≫= fun task =>
     (match ConfigTask.changeList task with
      | [] => mret tt
      | accum :: changes =>
          modifyTask t (ConfigTask.set_changeList []) ≫= fun _ =>
          ResourceChanges_updateChanges t (fold_left mergeDicts changes accum)
      end) ≫= fun _ =>
     ConfigTask__updateStatus ConfigTask_required t (ConfiguratorResult_getattr r) ≫= fun _ =>
     ConfigTask__updateLastChange Instance_lastChange t r ≫= fun _ =>
     modifyTask t (ConfigTask.set_result (Some r)) ≫= fun _ =>
     modifyTask t (ConfigTask.set_localStatus
                     (VStatus (if truthy (ConfiguratorResult.success r)
                               then Status.ok else Status.error))) ≫= fun _ =>
     mret t)).
  { ids_auto; first [apply ids_ConfigTask__updateStatus
                    | apply ids_ConfigTask__updateLastChange
                    | unfold ResourceChanges_updateChanges; ids_auto]. }
  destruct (ids w) as [[last js] ts] eqn:Ew.
  assert (Hlook : ts !! t = Some (ConfigTask.job task, ConfigTask.parentId task,
                                  ConfigTask.changeId task)).
  { unfold ids in Ew. injection Ew as <- <- <-. rewrite list_lookup_fmap, Et. reflexivity. }
  assert (Hmod : forall f w', (forall x, task_ids (f x) = task_ids x) ->
             ids (set_tasks (alter f t (tasks w')) w') = ids w').
  { intros f w' Hf. apply (ids_modifyTask t f Hf w'). }
  destruct (ConfigTask.generator task).
  - rewrite !bind_modifyTask.
    erewrite ids_finished_core; [eapply ids_finished; exact Hlook|exact Hrest| |exact Hlook].
    rewrite !Hmod by (intros []; reflexivity). exact Ew.
  - rewrite bind_mret, !bind_modifyTask.
    erewrite ids_finished_core; [eapply ids_finished; exact Hlook|exact Hrest| |exact Hlook].
    rewrite !Hmod by (intros []; reflexivity). exact Ew.
Qed.

Lemma ids_driver_step s op :
  ids_step (ids s.1, s.2)
    (ids (driver_step lookupClass ConfigTask_required Instance_lastChange now s op).1,
     (driver_step lookupClass ConfigTask_required Instance_lastChange now s op).2).
Proof.
  destruct s as [w log]. destruct op; simpl.
  - apply ids_Job_init.
  - apply ids_Job_createTask.
  - rewrite ids_ConfigTask_start. apply ids_silent.
  - rewrite ids_ConfigTask_send. apply ids_silent.
  - apply ids_ConfigTask_finished.
Qed.

End DriverSteps.

Lemma ids_inv_step s s' : ids_step s s' -> ids_inv s -> ids_inv s'.
Proof.
  intros Hstep. destruct Hstep as
    [a log | last js ts log | last js ts log | last js ts log j jc p Hj
     | last js ts log t j p c Ht]; [tauto| | | |].
  - (* the counter moves *)
    intros (I1 & I2 & I3 & I4 & I5). repeat split; try assumption.
    + eapply Forall_impl; [exact I1|]. simpl. intros; lia.
    + intros t Hin. destruct (I3 t Hin) as (j & p & c & jc & ? & ? & ?).
      exists j, p, c, jc. repeat split; try assumption; lia.
  - (* a job is added *)
    intros (I1 & I2 & I3 & I4 & I5). repeat split; try assumption.
    + apply Forall_app. split.
      * eapply Forall_impl; [exact I1|]. simpl. intros; lia.
      * constructor; [lia|constructor].
    + intros t j p c H. destruct (I2 t j p c H) as [jc Hjc].
      exists jc. apply lookup_app_l_Some. assumption.
    + intros t Hin. destruct (I3 t Hin) as (j & p & c & jc & ? & ? & ?).
      exists j, p, c, jc.
      repeat split; try assumption; try lia; apply lookup_app_l_Some; assumption.
  - (* a task is added *)
    intros (I1 & I2 & I3 & I4 & I5). repeat split; try assumption.
    + intros t j' p' c' H. apply lookup_app_Some in H as [H|[_ H]].
      * eapply I2; eassumption.
      * apply list_lookup_singleton_Some in H as [_ H]. injection H as <- <- <-. eauto.
    + intros t Hin. destruct (I3 t Hin) as (j' & p' & c & jc' & ? & ? & ?).
      exists j', p', c, jc'.
      repeat split; try assumption; try lia; apply lookup_app_l_Some; assumption.
    + intros t j' p' c' H Hnot. apply lookup_app_Some in H as [H|[_ H]].
      * eapply I4; eassumption.
      * apply list_lookup_singleton_Some in H as [_ H]. injection H as <- <- <-. reflexivity.
    + intros i k t1 t2 H1 H2 Hik Hlast.
      destruct (I5 i k t1 t2 H1 H2 Hik Hlast) as (j1 & p1 & c1 & j2 & p2 & c2 & ? & ? & ?).
      exists j1, p1, c1, j2, p2, c2. repeat split; try assumption;
        apply lookup_app_l_Some; assumption.
  - (* a task is finalized *)
    intros (I1 & I2 & I3 & I4 & I5).
    assert (Hlen : t < length ts) by (eapply lookup_lt_Some; eassumption).
    destruct (I2 _ _ _ _ Ht) as [jc Hjc].
    assert (Hjc' : (jc <= last)%Z).
    { eapply Forall_lookup_1 in I1; [|exact Hjc]. exact I1. }
    repeat split.
    + eapply Forall_impl; [exact I1|]. simpl. intros; lia.
    + intros t' j' p' c' H. apply list_lookup_insert_Some in H as [(<- & H & _)|[Hne H]].
      * injection H as <- <- <-. eauto.
      * eapply I2; eassumption.
    + intros t' Hin. apply elem_of_app in Hin. destruct (decide (t' = t)) as [->|Hne].
      * exists j, p, (last + 1)%Z, jc. repeat split; try assumption; try lia.
        apply list_lookup_insert_eq. assumption.
      * destruct Hin as [Hin|Hin]; [|apply list_elem_of_singleton in Hin; contradiction].
        destruct (I3 t' Hin) as (j' & p' & c' & jc' & ? & ? & ?).
        exists j', p', c', jc'. repeat split; try assumption; try lia.
        rewrite list_lookup_insert_ne by congruence. assumption.
    + intros t' j' p' c' H Hnot. apply list_lookup_insert_Some in H as [(<- & H & _)|[Hne H]].
      * exfalso. apply Hnot. apply elem_of_app. right. apply list_elem_of_singleton. reflexivity.
      * eapply I4; [eassumption|]. intros Hin. apply Hnot. apply elem_of_app. left. assumption.
    + intros i k t1 t2 H1 H2 Hik Hlast.
      assert (Hi : i < length log).
      { apply lookup_lt_Some in H2. rewrite length_app in H2. simpl in H2. lia. }
      rewrite lookup_app_l in H1 by assumption.
      assert (Hne : t1 <> t).
      { intros ->. apply (Hlast (length log)); [lia|].
        rewrite lookup_app_r by lia. rewrite Nat.sub_diag. reflexivity. }
      assert (Hin1 : t1 ∈ log) by (eapply list_elem_of_lookup_2; eassumption).
      destruct (I3 t1 Hin1) as (j1 & p1 & c1 & jc1 & Hts1 & _ & Hc1).
      destruct (decide (k < length log)) as [Hk|Hk].
      * rewrite lookup_app_l in H2 by assumption.
        assert (Hlast' : forall k', i < k' -> log !! k' <> Some t1).
        { intros k' Hik' Hk'. apply (Hlast k' Hik'). apply lookup_app_l_Some. assumption. }
        destruct (I5 i k t1 t2 H1 H2 Hik Hlast')
          as (j1' & p1' & c1' & j2 & p2 & c2 & E1 & E2 & Hlt).
        rewrite Hts1 in E1. injection E1 as <- <- <-.
        destruct (decide (t2 = t)) as [->|Hne2].
        -- exists j1, p1, c1, j, p, (last + 1)%Z. repeat split; try lia.
           ++ rewrite list_lookup_insert_ne by congruence. assumption.
           ++ apply list_lookup_insert_eq. assumption.
        -- exists j1, p1, c1, j2, p2, c2. repeat split; try lia.
           ++ rewrite list_lookup_insert_ne by congruence. assumption.
           ++ rewrite list_lookup_insert_ne by congruence. assumption.
      * rewrite lookup_app_r in H2 by lia.
        apply list_lookup_singleton_Some in H2 as [_ <-].
        exists j1, p1, c1, j, p, (last + 1)%Z. repeat split; try lia.
        -- rewrite list_lookup_insert_ne by congruence. assumption.
        -- apply list_lookup_insert_eq. assumption.
Qed.

Lemma ids_inv_init manifest insts : ids_inv (ids (World_init manifest insts), []).
Proof.
  unfold ids_inv, ids; simpl. repeat split.
  - constructor.
  - intros t j p c H. discriminate.
  - intros t H. inversion H.
  - intros t j p c H. discriminate.
  - intros i k t1 t2 H. discriminate.
Qed.

Section DriverRuns.
Variable lookupClass : PyVal -> PyExc + (ConfigurationSpec.t -> Configurator).
Variable ConfigTask_required : ConfigTask.t -> bool.
Variable Instance_lastChange : Instance.t -> PyVal.
Variable now : PyVal.

Lemma ids_inv_driver_run ops s :
  ids_inv (ids s.1, s.2) ->
  ids_inv (ids (driver_run lookupClass ConfigTask_required Instance_lastChange now ops s).1,
           (driver_run lookupClass ConfigTask_required Instance_lastChange now ops s).2).
Proof.
  revert s. induction ops as [|op ops IH]; intros s Hs; [exact Hs|].
  simpl. apply IH. eapply ids_inv_step; [apply ids_driver_step|exact Hs].
Qed.

(** C3, as amended.  Start from a fresh runner and drive the engine through
    any sequence of calls.  A task that [finished] was called on has a
    [changeId] strictly greater than its job's; a task that was created and
    never finalized still has the [changeId] it was created with, its
    [parentId]. *)
Theorem finished_task_changeId_above_job manifest insts ops t :
  let s := driver_run lookupClass ConfigTask_required Instance_lastChange now ops
             (World_init manifest insts, []) in
  (t ∈ s.2 ->
   exists task job,
     tasks s.1 !! t = Some task
     /\ jobs s.1 !! ConfigTask.job task = Some job
     /\ (Job.changeId job < ConfigTask.changeId task)%Z)
  /\ (forall task, tasks s.1 !! t = Some task -> t ∉ s.2 ->
      ConfigTask.changeId task = ConfigTask.parentId task).
Proof.
  intros s.
  pose proof (ids_inv_driver_run ops (World_init manifest insts, [])
                (ids_inv_init manifest insts)) as Hinv.
  fold s in Hinv. unfold ids_inv, ids in Hinv.
  destruct Hinv as (_ & _ & I3 & I4 & _). split.
  - intros Hin. destruct (I3 t Hin) as (j & p & c & jc & Ht & Hj & Hlt & _).
    rewrite list_lookup_fmap in Ht. rewrite list_lookup_fmap in Hj.
    destruct (tasks s.1 !! t) as [task|] eqn:Et; [|discriminate].
    injection Ht as <- <- <-.
    destruct (jobs s.1 !! ConfigTask.job task) as [job|] eqn:Ej; [|discriminate].
    injection Hj as <-. exists task, job. repeat split; assumption.
  - intros task Ht Hnot.
    apply (I4 t (ConfigTask.job task) (ConfigTask.parentId task) (ConfigTask.changeId task));
      [|assumption].
    rewrite list_lookup_fmap, Ht. reflexivity.
Qed.

(** C4.  Start from a fresh runner and drive the engine through any
    sequence of calls.  If [finished] was called on [t1] before it was
    called on [t2], and not on [t1] again since, then the [changeId] of
    [t1] is strictly smaller than the [changeId] of [t2]. *)
Theorem finished_tasks_changeId_increasing manifest insts ops i k t1 t2 :
  let s := driver_run lookupClass ConfigTask_required Instance_lastChange now ops
             (World_init manifest insts, []) in
  s.2 !! i = Some t1 -> s.2 !! k = Some t2 -> i < k ->
  (forall k', i < k' -> s.2 !! k' <> Some t1) ->
  exists task1 task2,
    tasks s.1 !! t1 = Some task1 /\ tasks s.1 !! t2 = Some task2
    /\ (ConfigTask.changeId task1 < ConfigTask.changeId task2)%Z.
Proof.
  intros s H1 H2 Hik Hlast.
  pose proof (ids_inv_driver_run ops (World_init manifest insts, [])
                (ids_inv_init manifest insts)) as Hinv.
  fold s in Hinv. unfold ids_inv, ids in Hinv.
  destruct Hinv as (_ & _ & _ & _ & I5).
  destruct (I5 i k t1 t2 H1 H2 Hik Hlast) as (j1 & p1 & c1 & j2 & p2 & c2 & E1 & E2 & Hlt).
  rewrite list_lookup_fmap in E1. rewrite list_lookup_fmap in E2.
  destruct (tasks s.1 !! t1) as [task1|] eqn:Et1; [|discriminate].
  destruct (tasks s.1 !! t2) as [task2|] eqn:Et2; [|discriminate].
  injection E1 as <- <- <-. injection E2 as <- <- <-.
  exists task1, task2. repeat split; assumption.
Qed.

End DriverRuns.

(** C3 on a job with two tasks: the first task was finalized. *)
Lemma finished_task_changeId_above_job_witness :
  0 ∈ (ex_driver ex_ops).2
  /\ exists task job,
       tasks (ex_driver ex_ops).1 !! 0 = Some task
       /\ jobs (ex_driver ex_ops).1 !! ConfigTask.job task = Some job
       /\ (Job.changeId job < ConfigTask.changeId task)%Z.
Proof.
  assert (H : 0 ∈ (ex_driver ex_ops).2) by (vm_compute; left).
  split; [exact H|].
  exact (proj1 (finished_task_changeId_above_job ex_lookupClass ex_required ex_lastChange
                  ex_now (ex_manifest None) [ex_instance] ex_ops 0) H).
Defined.

(** C3 as stated fails on a task that was created and not run: its
    [changeId] is its job's. *)
Lemma created_task_shares_job_changeId :
  let w := (ex_driver
              [OpCreateJob ex_empty_plan JobOptions_defaults;
               OpCreateTask 0 (ex_task_spec "SetAttribute") 0 None (VStr "add")]).1 in
  exists task job,
    tasks w !! 0 = Some task
    /\ jobs w !! ConfigTask.job task = Some job
    /\ ConfigTask.changeId task = Job.changeId job
    /\ ~ (Job.changeId job < ConfigTask.changeId task)%Z.
Proof.
  intros w.
  destruct (tasks w !! 0) as [task|] eqn:Et; [|vm_compute in Et; discriminate].
  destruct (jobs w !! ConfigTask.job task) as [job|] eqn:Ej.
  - exists task, job.
    assert (E : ConfigTask.changeId task = Job.changeId job).
    { vm_compute in Et. injection Et as <-. vm_compute in Ej. injection Ej as <-.
      reflexivity. }
    split; [reflexivity|]. split; [exact Ej|]. split; [exact E|]. rewrite E. lia.
  - vm_compute in Et. injection Et as <-. vm_compute in Ej. discriminate.
Qed.

(** C4 on a job with two tasks finalized one after the other. *)
Lemma finished_tasks_changeId_increasing_witness :
  exists task1 task2,
    tasks (ex_driver ex_ops).1 !! 0 = Some task1
    /\ tasks (ex_driver ex_ops).1 !! 1 = Some task2
    /\ (ConfigTask.changeId task1 < ConfigTask.changeId task2)%Z.
Proof.
  apply (finished_tasks_changeId_increasing ex_lookupClass ex_required ex_lastChange ex_now
           (ex_manifest None) [ex_instance] ex_ops 0 1 0 1).
  - vm_compute. reflexivity.
  - vm_compute. reflexivity.
  - lia.
  - intros k' Hk'. destruct k' as [|[|k']]; [lia| |]; vm_compute; discriminate.
Defined.

(** The ids of that run: job 1, tasks 2 and 3. *)
Example ex_ops_ids :
  ids (ex_driver ex_ops).1 = (3%Z, [1%Z], [(0, 1%Z, 2%Z); (0, 1%Z, 3%Z)])
  /\ (ex_driver ex_ops).2 = [0; 1].
Proof. split; vm_compute; reflexivity. Qed.

(** ** The engine's own drivers *)

(** [Job.runTask], [Job.run] and [Runner.run] touch change ids through the
    same calls as the driver above, so the invariant holds along them. *)

Lemma moves_preserves {A} (m : M A) : preserves ids m -> moves m.
Proof. intros H w log. exists log. rewrite H. apply rtc_refl. Qed.

Lemma moves_ret {A} (x : A) : moves (mret x).
Proof. apply moves_preserves, preserves_ret. Qed.

Lemma moves_raise {A} e : moves (@raise A e).
Proof. apply moves_preserves, preserves_raise. Qed.

Lemma moves_bind {A B} (m : M A) (f : A -> M B) :
  moves m -> (forall x, moves (f x)) -> moves (m ≫= f).
Proof.
  intros Hm Hf w log. destruct (Hm w log) as [log1 H1].
  unfold mbind, M_bind. destruct (m w) as [[e|x] w1]; simpl in *.
  - exists log1. exact H1.
  - destruct (Hf x w1 log1) as [log2 H2]. exists log2. etrans; eassumption.
Qed.

Lemma moves_try_except {A} (m : M A) h :
  moves m -> (forall e, moves (h e)) -> moves (try_except m h).
Proof.
  intros Hm Hh w log. destruct (Hm w log) as [log1 H1].
  unfold try_except. destruct (m w) as [[e|x] w1]; simpl in *.
  - destruct (is_Exception e); simpl.
    + destruct (Hh e w1 log1) as [log2 H2]. exists log2. etrans; eassumption.
    + exists log1. exact H1.
  - exists log1. exact H1.
Qed.

Lemma moves_try_finally {A} (m : M A) c :
  moves m -> moves c -> moves (try_finally m c).
Proof.
  intros Hm Hc w log. destruct (Hm w log) as [log1 H1].
  unfold try_finally. destruct (m w) as [r w1]; simpl in *.
  destruct (Hc w1 log1) as [log2 H2].
  destruct (c w1) as [[e|x] w2]; simpl in *; exists log2; etrans; eassumption.
Qed.

Lemma ids_inv_rtc s s' : rtc ids_step s s' -> ids_inv s -> ids_inv s'.
Proof.
  induction 1 as [|s1 s2 s3 Hstep _ IH]; [tauto|].
  intros Hs. apply IH. eapply ids_inv_step; eassumption.
Qed.

Lemma ids_Runner_addWork t : preserves ids (Runner_addWork t).
Proof. unfold Runner_addWork. ids_auto. Qed.

Lemma ids_Job_shouldRunTask shouldRun toEnum t :
  preserves ids (Job_shouldRunTask shouldRun toEnum t).
Proof. unfold Job_shouldRunTask. ids_auto; apply ids_UnfurlTaskError. Qed.

Lemma ids_Job_cantRunTask lookupClass findSchemaErrors t :
  preserves ids (Job_cantRunTask lookupClass findSchemaErrors t).
Proof.
  unfold Job_cantRunTask. ids_auto;
    first [apply ids_UnfurlTaskError | apply ids_ConfigTask_configurator].
Qed.

Lemma moves_Job_init now plan opts : moves (Job_init now plan opts).
Proof. intros w log. exists log. apply rtc_once. apply ids_Job_init. Qed.

Lemma moves_ConfigTask_init now job spec target pid reason :
  moves (ConfigTask_init now job spec target pid reason).
Proof. intros w log. exists log. apply rtc_once. apply ids_ConfigTask_init. Qed.

Lemma moves_Job_createTask lookupClass now job spec target pid reason :
  moves (Job_createTask lookupClass now job spec target pid reason).
Proof. intros w log. exists log. apply rtc_once. apply ids_Job_createTask. Qed.

Lemma moves_ConfigTask_finished required lastChange t r :
  moves (ConfigTask_finished required lastChange t r).
Proof. intros w log. eexists. apply rtc_once. apply ids_ConfigTask_finished. Qed.

Ltac moves_step :=
  lazymatch goal with
  | |- moves (mret _) => apply moves_ret
  | |- moves (raise _) => apply moves_raise
  | |- moves get => apply moves_preserves, preserves_get
  | |- moves (lift _) => apply moves_preserves, preserves_lift
  | |- moves (getTask _) => apply moves_preserves, preserves_getTask
  | |- moves (getJob _) => apply moves_preserves, preserves_getJob
  | |- moves (getInstance _) => apply moves_preserves, preserves_getInstance
  | |- moves (UnfurlTaskError _ _) => apply moves_preserves, ids_UnfurlTaskError
  | |- moves (Runner_addWork _) => apply moves_preserves, ids_Runner_addWork
  | |- moves (Job_shouldRunTask _ _ _) => apply moves_preserves, ids_Job_shouldRunTask
  | |- moves (Job_cantRunTask _ _ _) => apply moves_preserves, ids_Job_cantRunTask
  | |- moves (ConfigTask_start _ _) => apply moves_preserves, ids_ConfigTask_start
  | |- moves (ConfigTask_send _ _) => apply moves_preserves, ids_ConfigTask_send
  | |- moves (ConfigTask_finished _ _ _ _) => apply moves_ConfigTask_finished
  | |- moves (ConfigTask_init _ _ _ _ _ _) => apply moves_ConfigTask_init
  | |- moves (Job_createTask _ _ _ _ _ _ _) => apply moves_Job_createTask
  | |- moves (Job_init _ _ _) => apply moves_Job_init
  | |- moves (modifyJob _ _) => apply moves_preserves; ids_base
  | |- moves (modifyTask _ _) => apply moves_preserves; ids_base
  | |- moves (modify _) => apply moves_preserves; ids_base
  | |- moves (_ ≫= _) => apply moves_bind; [|intros ?]
  | |- moves (try_except _ _) => apply moves_try_except; [|intros ?]
  | |- moves (try_finally _ _) => apply moves_try_finally
  | |- moves (match ?x with _ => _ end) => destruct x
  end.

Section Engine.
Variable lookupClass : PyVal -> PyExc + (ConfigurationSpec.t -> Configurator).
Variable Defaults_shouldRun : PyVal.
Variable toEnum_Priority : PyVal -> PyExc + Priority.t.
Variable findSchemaErrors : PyVal -> PyVal -> list string.
Variable ConfigTask_required : ConfigTask.t -> bool.
Variable Instance_lastChange : Instance.t -> PyVal.
Variable getPlanClassForWorkflow : PyVal -> option (JobOptions.t -> PlanGenerator).
Variable now : PyVal.

Lemma moves_Job_getCandidateTasks self planGen result :
  moves (Job_getCandidateTasks lookupClass now self planGen result).
Proof.
  revert result. revert planGen. fix IH 1. intros [resume] result. simpl.
  destruct (resume result) as [req rest|e|].
  - repeat moves_step; apply IH.
  - destruct e; repeat moves_step.
  - moves_step.
Qed.

Lemma moves_Runner_createJob opts :
  moves (Runner_createJob getPlanClassForWorkflow now opts).
Proof. unfold Runner_createJob. repeat moves_step. Qed.

Lemma moves_engine fuel :
  (forall self task depth,
      moves (Job_runTask lookupClass Defaults_shouldRun toEnum_Priority findSchemaErrors
               ConfigTask_required Instance_lastChange getPlanClassForWorkflow now
               fuel self task depth))
  /\ (forall self task depth change,
      moves (Job_runTask_loop lookupClass Defaults_shouldRun toEnum_Priority findSchemaErrors
               ConfigTask_required Instance_lastChange getPlanClassForWorkflow now
               fuel self task depth change))
  /\ (forall self jobRequest,
      moves (Job_runJobRequest lookupClass Defaults_shouldRun toEnum_Priority findSchemaErrors
               ConfigTask_required Instance_lastChange getPlanClassForWorkflow now
               fuel self jobRequest))
  /\ (forall self,
      moves (Job_run lookupClass Defaults_shouldRun toEnum_Priority findSchemaErrors
               ConfigTask_required Instance_lastChange getPlanClassForWorkflow now
               fuel self))
  /\ (forall self taskGen result,
      moves (Job_run_loop lookupClass Defaults_shouldRun toEnum_Priority findSchemaErrors
               ConfigTask_required Instance_lastChange getPlanClassForWorkflow now
               fuel self taskGen result))
  /\ (forall self,
      moves (Job_run_queue lookupClass Defaults_shouldRun toEnum_Priority findSchemaErrors
               ConfigTask_required Instance_lastChange getPlanClassForWorkflow now
               fuel self)).
Proof.
  induction fuel as [|fuel (IH1 & IH2 & IH3 & IH4 & IH5 & IH6)].
  - repeat split; intros; apply moves_raise.
  - repeat split; intros; simpl.
    + repeat moves_step; apply IH2.
    + repeat moves_step; first [apply IH1 | apply IH2 | apply IH3].
    + repeat moves_step; first [apply moves_Runner_createJob | apply IH4].
    + repeat moves_step; apply IH5.
    + moves_step; [apply moves_Job_getCandidateTasks|].
      repeat moves_step; first [apply IH1 | apply IH5 | apply IH6].
    + repeat moves_step; first [apply IH3 | apply IH6].
Qed.

Lemma moves_Runner_run fuel jobOptions :
  moves (Runner_run lookupClass Defaults_shouldRun toEnum_Priority findSchemaErrors
           ConfigTask_required Instance_lastChange getPlanClassForWorkflow now
           fuel jobOptions).
Proof.
  unfold Runner_run.
  repeat moves_step; first [apply moves_Runner_createJob | apply (moves_engine fuel)].
Qed.

(** After [Runner.run] on a fresh runner, whatever the plan, the
    configurators and the outcome: every task belongs to a job of the
    store, and either still has the [changeId] it was created with or has
    one above its job's. *)
Lemma Runner_run_task_changeIds manifest insts fuel jobOptions t task :
  let w := (Runner_run lookupClass Defaults_shouldRun toEnum_Priority findSchemaErrors
              ConfigTask_required Instance_lastChange getPlanClassForWorkflow now
              fuel jobOptions (World_init manifest insts)).2 in
  tasks w !! t = Some task ->
  exists job,
    jobs w !! ConfigTask.job task = Some job
    /\ (ConfigTask.changeId task = ConfigTask.parentId task
        \/ (Job.changeId job < ConfigTask.changeId task)%Z).
Proof.
  intros w Ht.
  destruct (moves_Runner_run fuel jobOptions (World_init manifest insts) []) as [log Hrtc].
  pose proof (ids_inv_rtc _ _ Hrtc (ids_inv_init manifest insts)) as Hinv.
  fold w in Hinv. unfold ids_inv, ids in Hinv.
  destruct Hinv as (_ & I2 & I3 & I4 & _).
  assert (Hlook : (task_ids <$> tasks w) !! t
                  = Some (ConfigTask.job task, ConfigTask.parentId task,
                          ConfigTask.changeId task)).
  { rewrite list_lookup_fmap, Ht. reflexivity. }
  destruct (I2 _ _ _ _ Hlook) as [jc Hjc].
  rewrite list_lookup_fmap in Hjc.
  destruct (jobs w !! ConfigTask.job task) as [job|] eqn:Ej; [|discriminate].
  injection Hjc as <-. exists job. split; [reflexivity|].
  destruct (decide (t ∈ log)) as [Hin|Hnot].
  - right. destruct (I3 t Hin) as (j & p & c & jc & E1 & E2 & Hlt & _).
    rewrite Hlook in E1. injection E1 as <- <- <-.
    rewrite list_lookup_fmap, Ej in E2. injection E2 as <-. exact Hlt.
  - left. eapply I4; eassumption.
Qed.

End Engine.

(** ** ConfigTask.finished and the target's status *)

(** On a result built by [ConfiguratorResult], [_updateStatus] stops at its
    first line: the instance has no attribute [status]. *)
Lemma ConfigTask__updateStatus_raises required self r w :
  ConfigTask__updateStatus required self (ConfiguratorResult_getattr r) w
  = (inl (AttributeError "status"), w).
Proof. reflexivity. Qed.

(** So does [finished], on every task of the store, and no instance has
    changed when it does. *)
Lemma ConfigTask_finished_raises required lastChange self r w task :
  tasks w !! self = Some task ->
  (ConfigTask_finished required lastChange self r w).1 = inl (AttributeError "status")
  /\ instances (ConfigTask_finished required lastChange self r w).2 = instances w.
Proof.
  intros Et. unfold ConfigTask_finished.
  rewrite (bind_getTask _ _ _ _ Et).
  assert (Hcore : forall w1, is_Some (tasks w1 !! self) ->
     let out := (Runner_incrementChangeId ≫= fun changeId =>
        modifyTask self (ConfigTask.set_changeId changeId) ≫= fun _ =>
        getTask self ≫= fun task =>
        (match ConfigTask.changeList task with
         | [] => mret tt
         | accum :: changes =>
             modifyTask self (ConfigTask.set_changeList []) ≫= fun _ =>
             ResourceChanges_updateChanges self (fold_left mergeDicts changes accum)
         end) ≫= fun _ =>
        ConfigTask__updateStatus required self (ConfiguratorResult_getattr r) ≫= fun _ =>
        ConfigTask__updateLastChange lastChange self r ≫= fun _ =>
        modifyTask self (ConfigTask.set_result (Some r)) ≫= fun _ =>
        modifyTask self (ConfigTask.set_localStatus
                           (VStatus (if truthy (ConfiguratorResult.success r)
                                     then Status.ok else Status.error))) ≫= fun _ =>
        mret self) w1 in
     out.1 = inl (AttributeError "status") /\ instances out.2 = instances w1).
  { intros w1 [task1 E1].
    unfold Runner_incrementChangeId, modifyTask, getTask, mbind, M_bind, modify, get,
      mret, M_ret.
    cbn [tasks set_tasks set_runner runner fst snd].
    rewrite list_lookup_alter_eq, E1. cbn [fmap option_fmap option_map].
    destruct (ConfigTask.changeList _); split; reflexivity. }
  destruct (ConfigTask.generator task).
  - rewrite !bind_modifyTask.
    edestruct Hcore as [H1 H2]; [|split; [exact H1|rewrite H2; reflexivity]].
    cbn [tasks set_tasks]. rewrite !list_lookup_alter_eq, Et. eauto.
  - rewrite bind_mret, !bind_modifyTask.
    edestruct Hcore as [H1 H2]; [|split; [exact H1|rewrite H2; reflexivity]].
    cbn [tasks set_tasks]. rewrite !list_lookup_alter_eq, Et. eauto.
Qed.

(** What the branches of [_updateStatus] do on an object that does have
    the three attributes: the target takes [status] when it is set; else,
    on a failure, [error] or [degraded] when [modified] is truthy and
    [unknown] when it is [None]; else it keeps its status. *)
Lemma ConfigTask__updateStatus_with_status required self (o : PyObject) w task target
    status success modified :
  tasks w !! self = Some task ->
  instances w !! ConfigTask.target task = Some target ->
  o "status" = inr status -> o "success" = inr success -> o "modified" = inr modified ->
  let out := ConfigTask__updateStatus required self o w in
  out.1 = inr tt
  /\ Instance.localStatus <$> instances out.2 !! ConfigTask.target task
     = Some (if negb (is_None status) then status
             else if truthy success then Instance.localStatus target
             else if truthy modified
                  then VStatus (if required task then Status.error else Status.degraded)
                  else if is_None modified then VStatus Status.unknown
                       else Instance.localStatus target).
Proof.
  intros Et Ei Hs Hsu Hm out. subst out. unfold ConfigTask__updateStatus.
  assert (Hset : forall v,
    (set_target_localStatus self v w).1 = inr tt
    /\ Instance.localStatus <$> instances (set_target_localStatus self v w).2
                                !! ConfigTask.target task = Some v).
  { intros v.
    unfold set_target_localStatus, modifyInstance, mbind, M_bind, getTask, getInstance, modify.
    rewrite Et, Ei. cbn [fst snd instances set_instances].
    rewrite list_lookup_alter_eq, Ei. split; reflexivity. }
  assert (Hskip : ((mret tt : M unit) w).1 = inr tt
    /\ Instance.localStatus <$> instances ((mret tt : M unit) w).2 !! ConfigTask.target task
       = Some (Instance.localStatus target)).
  { unfold mret, M_ret; simpl. rewrite Ei. split; reflexivity. }
  rewrite Hs, bind_lift_inr.
  destruct (is_None status); cbn [negb]; [|apply Hset].
  rewrite Hsu, bind_lift_inr.
  destruct (truthy success); cbn [negb]; [apply Hskip|].
  rewrite Hm, bind_lift_inr.
  destruct (truthy modified).
  { rewrite (bind_getTask _ _ _ _ Et). apply Hset. }
  destruct (is_None modified); [apply Hset|apply Hskip].
Qed.

(** C1, at the failing input.  The claim has [finished] assign
    [result.status] to [target.localStatus] when the result carries a
    status.  For the result [ConfiguratorResult(True, True, Status.ok)] of
    the [SetAttribute] configurator the status is kept as [readyState],
    [finished] raises [AttributeError] and the target's [localStatus] stays
    [None].  It stays [None] as well for a failed and modified result of a
    required task, where the claim has [error], and for a failed result
    with [modified] left [None], where the claim has [unknown]. *)
Theorem ConfigTask_finished_does_not_set_localStatus :
  let w := (ex_driver
              [OpCreateJob ex_empty_plan JobOptions_defaults;
               OpCreateTask 0 (ex_task_spec "SetAttribute") 0 None (VStr "add");
               OpStart 0; OpSend 0 SentNone]).1 in
  let finished r := ConfigTask_finished ex_required ex_lastChange 0 r w in
  let r1 := ConfiguratorResult_3 (VBool true) (VBool true) (VStatus Status.ok) in
  let r2 := ConfiguratorResult_2 (VBool false) (VBool true) in
  let r3 := ConfiguratorResult_2 (VBool false) VNone in
  ConfiguratorResult.readyState r1 = VStatus Status.ok
  /\ ConfiguratorResult_getattr r1 "status" = inl (AttributeError "status")
  /\ Instance.localStatus <$> instances w !! 0 = Some VNone
  /\ (finished r1).1 = inl (AttributeError "status")
  /\ Instance.localStatus <$> instances (finished r1).2 !! 0 = Some VNone
  /\ (finished r2).1 = inl (AttributeError "status")
  /\ Instance.localStatus <$> instances (finished r2).2 !! 0 = Some VNone
  /\ (finished r3).1 = inl (AttributeError "status")
  /\ Instance.localStatus <$> instances (finished r3).2 !! 0 = Some VNone.
Proof. repeat split; vm_compute; reflexivity. Qed.

(** ** Runner.run and the repository gate *)

Section RunnerRun.
Variable lookupClass : PyVal -> PyExc + (ConfigurationSpec.t -> Configurator).
Variable Defaults_shouldRun : PyVal.
Variable toEnum_Priority : PyVal -> PyExc + Priority.t.
Variable findSchemaErrors : PyVal -> PyVal -> list string.
Variable ConfigTask_required : ConfigTask.t -> bool.
Variable Instance_lastChange : Instance.t -> PyVal.
Variable getPlanClassForWorkflow : PyVal -> option (JobOptions.t -> PlanGenerator).
Variable now : PyVal.

(** C8.  With [commit] set, [dirty] unset and a repository of the local
    environment reporting uncommitted files, [Runner.run] returns [None]
    and leaves the store as it found it: no job is created, no task is
    created or run, no change id is issued. *)
Theorem Runner_run_dirty_repository fuel jobOptions w repos :
  JobOptions.commit (default JobOptions_defaults jobOptions) = true ->
  JobOptions.dirty (default JobOptions_defaults jobOptions) = false ->
  Manifest.localEnv (Runner.manifest (runner w)) = Some repos ->
  true ∈ repos ->
  Runner_run lookupClass Defaults_shouldRun toEnum_Priority findSchemaErrors
    ConfigTask_required Instance_lastChange getPlanClassForWorkflow now fuel jobOptions w
  = (inr None, w).
Proof.
  intros Hc Hd He Hin.
  assert (Hex : existsb (fun isDirty : bool => isDirty) repos = true).
  { apply existsb_exists. exists true. split; [|reflexivity].
    apply list_elem_of_In. exact Hin. }
  unfold Runner_run, try_finally, mbind, M_bind, get, mret, M_ret, modify.
  rewrite Hc, Hd, He, Hex.
  destruct w as [r js ts ins ram c v]; simpl.
  destruct (truthy _); reflexivity.
Qed.

End RunnerRun.

(** C8 with the default options and two repositories, the second dirty. *)
Lemma Runner_run_dirty_repository_witness :
  JobOptions.commit (default JobOptions_defaults None) = true
  /\ JobOptions.dirty (default JobOptions_defaults None) = false
  /\ Manifest.localEnv (Runner.manifest (runner (ex_world (Some [false; true]))))
     = Some [false; true]
  /\ true ∈ [false; true]
  /\ ex_Runner_run "SetAttribute" (Some [false; true])
     = (inr None, ex_world (Some [false; true])).
Proof.
  assert (Hin : true ∈ [false; true]) by (right; left).
  split; [reflexivity|]. split; [reflexivity|]. split; [reflexivity|]. split; [exact Hin|].
  apply (Runner_run_dirty_repository ex_lookupClass (VPriority Priority.required) ex_toEnum
           (fun _ _ => []) ex_required ex_lastChange (ex_getPlan "SetAttribute") ex_now
           2000 None (ex_world (Some [false; true])) [false; true]);
    [reflexivity|reflexivity|reflexivity|exact Hin].
Defined.

(** With clean repositories, or with no local environment to ask, the
    same call does create a job. *)
Example Runner_run_clean_repository :
  let out := ex_Runner_run "SetAttribute" (Some [false; false]) in
  let out' := ex_Runner_run "SetAttribute" None in
  out.1 = inr (Some 0) /\ length (jobs out.2) = 1 /\ length (tasks out.2) = 1
  /\ out'.1 = inr (Some 0) /\ length (jobs out'.2) = 1 /\ length (tasks out'.2) = 1.
Proof. repeat split; vm_compute; reflexivity. Qed.

(** ** Nested sub-tasks *)

Lemma errors_of_modifyTask t t' f :
  (forall x, ConfigTask.errors (f x) = ConfigTask.errors x) ->
  preserves (errors_of t) (modifyTask t' f).
Proof.
  intros Hf w. unfold errors_of, modifyTask, modify; simpl. rewrite length_alter. f_equal.
  destruct (decide (t' = t)) as [->|Hne].
  - rewrite list_lookup_alter_eq.
    destruct (tasks w !! t); simpl; [f_equal; apply Hf|reflexivity].
  - rewrite list_lookup_alter_ne by assumption. reflexivity.
Qed.

Ltac errors_base :=
  first [ apply errors_of_modifyTask; intros []; reflexivity
        | apply preserves_modify; intros []; reflexivity
        | intros ?; reflexivity ].

Lemma errors_of_ConfigTask_finished required lastChange t t' r :
  preserves (errors_of t) (ConfigTask_finished required lastChange t' r).
Proof.
  unfold ConfigTask_finished, Runner_incrementChangeId, ResourceChanges_updateChanges,
    ConfigTask__updateStatus, ConfigTask__updateLastChange, set_target_localStatus.
  repeat first [preserves_step | errors_base].
Qed.

Section DepthLimit.
Variable lookupClass : PyVal -> PyExc + (ConfigurationSpec.t -> Configurator).
Variable Defaults_shouldRun : PyVal.
Variable toEnum_Priority : PyVal -> PyExc + Priority.t.
Variable findSchemaErrors : PyVal -> PyVal -> list string.
Variable ConfigTask_required : ConfigTask.t -> bool.
Variable Instance_lastChange : Instance.t -> PyVal.
Variable getPlanClassForWorkflow : PyVal -> option (JobOptions.t -> PlanGenerator).
Variable now : PyVal.

(** A [TaskRequest] yielded at depth 100 or deeper, whatever the
    configurator: no task is created for it, the error is attached to the
    task that yielded it, and the call of [finished] that follows raises
    out of the loop of [runTask]. *)
Lemma Job_runTask_loop_depth_limit fuel self task depth change w request w1 t1 :
  ConfigTask_send task change w = (inr (YTaskRequest request), w1) ->
  tasks w1 !! task = Some t1 ->
  MAX_NESTED_SUBTASKS <= depth ->
  let out := Job_runTask_loop lookupClass Defaults_shouldRun toEnum_Priority findSchemaErrors
               ConfigTask_required Instance_lastChange getPlanClassForWorkflow now
               (S fuel) self task depth change w in
  out.1 = inl (AttributeError "status")
  /\ length (tasks out.2) = length (tasks w1)
  /\ ConfigTask.errors <$> tasks out.2 !! task
     = Some (ConfigTask.errors t1 ++ ["too many subtasks spawned"]).
Proof.
  intros Hsend Ht1 Hdepth out.
  remember (set_tasks
               (alter (fun x => ConfigTask.set_errors
                                  (ConfigTask.errors x ++ ["too many subtasks spawned"]) x)
                      task (tasks w1)) w1) as w2 eqn:Ew2.
  assert (Ht2 : exists t2, tasks w2 !! task = Some t2
                /\ ConfigTask.errors t2 = ConfigTask.errors t1 ++ ["too many subtasks spawned"]).
  { rewrite Ew2. cbn [tasks set_tasks]. rewrite list_lookup_alter_eq, Ht1. simpl.
    eexists. split; [reflexivity|]. destruct t1; reflexivity. }
  destruct Ht2 as (t2 & Ht2 & Herr).
  assert (Hout : out = ConfigTask_finished ConfigTask_required Instance_lastChange task
                         (ConfiguratorResult_2 (VBool false) VNone) w2).
  { subst out.
    cbn -[Nat.leb MAX_NESTED_SUBTASKS mbind mret try_except ConfigTask_send
          ConfigTask_finished UnfurlTaskError].
    unfold mbind at 1, M_bind at 1, try_except at 1.
    unfold mbind at 1, M_bind at 1. rewrite Hsend. cbn [is_Exception mret M_ret].
    assert (Hd : (MAX_NESTED_SUBTASKS <=? depth)%nat = true)
      by (apply Nat.leb_le; exact Hdepth).
    rewrite Hd.
    unfold mbind at 1, M_bind at 1, UnfurlTaskError at 1, modifyTask at 1, modify at 1.
    rewrite <- Ew2.
    destruct (ConfigTask_finished_raises ConfigTask_required Instance_lastChange task
                (ConfiguratorResult_2 (VBool false) VNone) w2 t2 Ht2) as [Hraise _].
    unfold mbind at 1, M_bind at 1.
    destruct (ConfigTask_finished _ _ task _ w2) as [[e|x] w3]; simpl in *;
      [reflexivity|discriminate]. }
  rewrite Hout.
  destruct (ConfigTask_finished_raises ConfigTask_required Instance_lastChange task
              (ConfiguratorResult_2 (VBool false) VNone) w2 t2 Ht2) as [Hraise _].
  pose proof (errors_of_ConfigTask_finished ConfigTask_required Instance_lastChange task task
                (ConfiguratorResult_2 (VBool false) VNone) w2) as Hobs.
  unfold errors_of in Hobs. injection Hobs as Hlen Herrs.
  split; [exact Hraise|]. split.
  - rewrite Hlen, Ew2. cbn [tasks set_tasks]. apply length_alter.
  - rewrite Herrs, Ht2. simpl. rewrite Herr. reflexivity.
Qed.

End DepthLimit.

(** C7, at the failing input.  Every task of the [Nest] configurator asks
    for a sub-task.  The task at depth 100 is the 101st of the chain; its
    request is the one refused, with the error attached to it.  The claim
    has the parent carry on and the job keep running.  Here [finished]
    raises out of [runTask]: the hundred tasks above stay suspended at
    their first [yield] and get no result, the exception reaches
    [Runner.run], and the job ends with status [error] and an
    [unexpectedAbort]. *)
Theorem nested_subtasks_limit_aborts_job :
  let task := ex_Job_runTask "Nest" in
  let out := ex_Runner_run "Nest" None in
  task.1 = inl (AttributeError "status")
  /\ out.1 = inr (Some 0)
  /\ length (tasks out.2) = 101
  /\ ConfigTask.errors <$> tasks out.2 !! 100 = Some ["too many subtasks spawned"]
  /\ ConfigTask.result <$> tasks out.2 !! 100 = Some None
  /\ forallb ex_suspended (take 100 (tasks out.2)) = true
  /\ Job.localStatus <$> jobs out.2 !! 0 = Some (VStatus Status.error)
  /\ Job.unexpectedAbort <$> jobs out.2 !! 0
     = Some (VException (VStr "unexpected exception while running job")).
Proof. repeat split; vm_compute; reflexivity. Qed.

(* ================================================================== *)
(** * Further properties *)

(** ** Dictionaries *)

Lemma dict_get_set_eq d k v : dict_get (dict_set d k v) k = Some v.
Proof.
  induction d as [|[k' v'] d IH]; simpl.
  - rewrite String.eqb_refl. reflexivity.
  - destruct (String.eqb k k') eqn:E; simpl; rewrite E; [reflexivity|exact IH].
Qed.

Lemma dict_get_set_ne d k k' v : k <> k' -> dict_get (dict_set d k v) k' = dict_get d k'.
Proof.
  intros Hne. induction d as [|[k0 v0] d IH]; simpl.
  - destruct (String.eqb k' k) eqn:E; [|reflexivity].
    apply String.eqb_eq in E. congruence.
  - destruct (String.eqb k k0) eqn:E; simpl.
    + apply String.eqb_eq in E. subst k0.
      destruct (String.eqb k' k) eqn:E'; [|reflexivity].
      apply String.eqb_eq in E'. congruence.
    + rewrite IH. reflexivity.
Qed.

Lemma dict_get_None_notin (d : PyDict) k : dict_get d k = None <-> k ∉ d.*1.
Proof.
  induction d as [|[k' v'] d IH]; simpl.
  - split; [intros _ H; inversion H|reflexivity].
  - destruct (String.eqb k k') eqn:E.
    + apply String.eqb_eq in E. subst k'. split; [discriminate|].
      intros H. exfalso. apply H. left.
    + apply String.eqb_neq in E. rewrite IH. split.
      * intros H Hin. apply elem_of_cons in Hin as [?|?]; [congruence|contradiction].
      * intros H Hin. apply H. right. exact Hin.
Qed.

(** [d.update(mods)] for [mods] with distinct keys: the value of [mods]
    where it has the key, that of [d] elsewhere. *)
Lemma dict_get_update (mods : PyDict) : forall d k,
  NoDup mods.*1 ->
  dict_get (dict_update d mods) k
  = match dict_get mods k with Some v => Some v | None => dict_get d k end.
Proof.
  unfold dict_update. induction mods as [|[k0 v0] mods IH]; intros d k Hnd; simpl.
  - reflexivity.
  - apply NoDup_cons in Hnd as [Hnot Hnd]. rewrite IH by exact Hnd.
    destruct (String.eqb k k0) eqn:E.
    + apply String.eqb_eq in E. subst k0.
      apply dict_get_None_notin in Hnot. simpl in Hnot. rewrite Hnot. apply dict_get_set_eq.
    + apply String.eqb_neq in E. destruct (dict_get mods k); [reflexivity|].
      apply dict_get_set_ne. congruence.
Qed.

Lemma dict_has_set d k k' v :
  dict_has (dict_set d k v) k' = String.eqb k' k || dict_has d k'.
Proof.
  unfold dict_has. destruct (String.eqb k' k) eqn:E.
  - apply String.eqb_eq in E. subst k'. rewrite dict_get_set_eq. reflexivity.
  - apply String.eqb_neq in E. rewrite dict_get_set_ne by congruence. reflexivity.
Qed.

(** ** Environment *)

Lemma environ_passvars_elem passvars : forall os_environ env,
  environ_passvars passvars os_environ = inr env ->
  forall k v, (k, v) ∈ env <-> ((k, v) ∈ os_environ /\ py_in k passvars = inr true).
Proof.
  induction os_environ as [|[k0 v0] rest IH]; intros env H k v; simpl in H.
  - injection H as <-. split; [intros Hin; inversion Hin|intros [Hin _]; inversion Hin].
  - destruct (py_in k0 passvars) as [e|keep] eqn:Ek; [discriminate|].
    destruct (environ_passvars passvars rest) as [e|env'] eqn:Er; [discriminate|].
    injection H as <-. specialize (IH env' eq_refl k v).
    destruct keep.
    + rewrite !elem_of_cons, IH. split.
      * intros [Heq|[Hin Hp]]; [injection Heq as -> ->; auto|auto].
      * intros [[Heq|Hin] Hp]; auto.
    + rewrite elem_of_cons, IH. split.
      * intros [Hin Hp]; auto.
      * intros [[Heq|Hin] Hp]; [injection Heq as -> ->; congruence|auto].
Qed.

(** X1.  [Environment.getSystemVars].  Without [isolate] the task sees the
    whole process environment.  With [isolate] it sees nothing when
    [passvars] is empty or missing, and otherwise exactly the variables of
    the process environment whose name is [in passvars], with their
    values. *)
Theorem Environment_getSystemVars_isolation os_environ self env :
  Environment_getSystemVars os_environ self = inr env ->
  (truthy (Environment.isolate self) = false -> env = os_environ)
  /\ (truthy (Environment.isolate self) = true ->
      truthy (Environment.passvars self) = false -> env = [])
  /\ (truthy (Environment.isolate self) = true ->
      truthy (Environment.passvars self) = true ->
      forall k v, (k, v) ∈ env
                  <-> ((k, v) ∈ os_environ /\ py_in k (Environment.passvars self) = inr true)).
Proof.
  unfold Environment_getSystemVars. intros H.
  destruct (truthy (Environment.isolate self)).
  - destruct (truthy (Environment.passvars self)).
    + split; [discriminate|]. split; [discriminate|].
      intros _ _ k v. apply (environ_passvars_elem _ _ _ H k v).
    + injection H as <-. split; [discriminate|]. split; [reflexivity|discriminate].
  - injection H as <-. split; [reflexivity|]. split; discriminate.
Qed.

Lemma Environment_getSystemVars_isolation_witness :
  Environment_getSystemVars ex_os_environ ex_environment = inr [("ANSIBLE_VERBOSITY", VStr "2")]
  /\ forall k v, (k, v) ∈ [("ANSIBLE_VERBOSITY", VStr "2")]
                 <-> ((k, v) ∈ ex_os_environ
                      /\ py_in k (Environment.passvars ex_environment) = inr true).
Proof.
  split; [reflexivity|].
  apply (Environment_getSystemVars_isolation ex_os_environ ex_environment
           [("ANSIBLE_VERBOSITY", VStr "2")]); reflexivity.
Defined.

(** X2.  [TaskView.environ].  The variables of the spec win over the inputs,
    and the inputs over the system's variables.  With [addinputs] the
    environment also carries an entry [resolveExternal] set to [True], the
    keyword that the source hands to [dict.update], which only the spec's
    own variables can override. *)
Theorem TaskView_environ_precedence os_environ environment inputs specvars env k :
  NoDup inputs.*1 -> NoDup specvars.*1 ->
  TaskView_environ os_environ environment inputs specvars = inr env ->
  exists sys,
    Environment_getSystemVars os_environ environment = inr sys
    /\ dict_get env k
       = match dict_get specvars k with
         | Some v => Some v
         | None =>
             if truthy (Environment.addinputs environment) then
               if String.eqb k "resolveExternal" then Some (VBool true)
               else match dict_get inputs k with
                    | Some v => Some v
                    | None => dict_get sys k
                    end
             else dict_get sys k
         end.
Proof.
  intros Hi Hs. unfold TaskView_environ.
  destruct (Environment_getSystemVars os_environ environment) as [e|sys]; [discriminate|].
  intros H. injection H as <-. exists sys. split; [reflexivity|].
  rewrite dict_get_update by exact Hs.
  destruct (dict_get specvars k); [reflexivity|].
  destruct (truthy (Environment.addinputs environment)); [|reflexivity].
  destruct (String.eqb k "resolveExternal") eqn:E.
  - apply String.eqb_eq in E. subst k. apply dict_get_set_eq.
  - apply String.eqb_neq in E. rewrite dict_get_set_ne by congruence.
    apply dict_get_update. exact Hi.
Qed.

Lemma TaskView_environ_precedence_witness :
  exists env sys,
    TaskView_environ ex_os_environ ex_environment [("port", VInt 80)] [("FOO", VStr "bar")]
    = inr env
    /\ Environment_getSystemVars ex_os_environ ex_environment = inr sys
    /\ dict_get env "resolveExternal" = Some (VBool true).
Proof.
  assert (H1 : NoDup [("port", VInt 80)].*1) by (apply (bool_decide_unpack (NoDup _)); vm_compute; reflexivity).
  assert (H2 : NoDup [("FOO", VStr "bar")].*1) by (apply (bool_decide_unpack (NoDup _)); vm_compute; reflexivity).
  destruct (TaskView_environ_precedence ex_os_environ ex_environment
              [("port", VInt 80)] [("FOO", VStr "bar")] _ "resolveExternal" H1 H2 eq_refl)
    as (sys & Hsys & Hget).
  eexists _, sys. split; [reflexivity|]. split; [exact Hsys|exact Hget].
Defined.

(** ** JobOptions *)

(** X3.  [JobOptions.__init__].  A keyword the caller gives is the option's
    value; an option the caller leaves out has its class default, except
    [instance], which takes the value of the old keyword [resource]. *)
Theorem JobOptions_init_lookup kw k :
  NoDup kw.*1 ->
  dict_get (JobOptions_init kw) k
  = match dict_get kw k with
    | Some v => Some v
    | None =>
        if String.eqb k "instance" then Some (kwarg kw "resource" VNone)
        else dict_get JobOptions_class_defaults k
    end.
Proof.
  intros Hnd. unfold JobOptions_init. rewrite dict_get_update by exact Hnd.
  destruct (dict_get kw k); [reflexivity|].
  destruct (String.eqb k "instance") eqn:E.
  - apply String.eqb_eq in E. subst k. apply dict_get_set_eq.
  - apply String.eqb_neq in E. apply dict_get_set_ne. congruence.
Qed.

Lemma JobOptions_init_lookup_witness :
  dict_get (JobOptions_init [("resource", VStr "my_server"); ("dryrun", VBool true)]) "instance"
  = Some (VStr "my_server").
Proof.
  apply (JobOptions_init_lookup [("resource", VStr "my_server"); ("dryrun", VBool true)]
           "instance").
  apply (bool_decide_unpack (NoDup _)). vm_compute. reflexivity.
Defined.

(** X4.  [JobOptions.getUserSettings].  The settings it reports are exactly
    the keywords the caller gave that name an option of the class, other
    than [out], with a value different from the option's default. *)
Theorem JobOptions_getUserSettings_differ userConfig k v :
  NoDup userConfig.*1 ->
  dict_get (JobOptions_getUserSettings userConfig) k = Some v
  <-> (k <> "out" /\ dict_get userConfig k = Some v
       /\ exists d, dict_get JobOptions_class_defaults k = Some d /\ py_eq v d = false).
Proof.
  unfold JobOptions_getUserSettings. revert v.
  induction userConfig as [|[k0 v0] rest IH]; intros v Hnd.
  - simpl. split; [discriminate|intros (_ & H & _); discriminate].
  - apply NoDup_cons in Hnd as [Hnot Hnd].
    assert (IH' := fun v => IH v Hnd). clear IH. rename IH' into IH.
    assert (Hrest : k = k0 -> dict_get rest k = None).
    { intros ->. apply dict_get_None_notin. exact Hnot. }
    assert (Hfilter : k = k0 ->
              dict_get (List.filter
                 (fun kv : string * PyVal =>
                    match dict_get JobOptions_class_defaults kv.1 with
                    | Some value => negb (String.eqb kv.1 "out") && negb (py_eq kv.2 value)
                    | None => false
                    end) rest) k = None).
    { intros Hk. destruct (dict_get (List.filter _ rest) k) as [x|] eqn:Ex; [|reflexivity].
      destruct (proj1 (IH x) eq_refl) as (_ & Ex' & _).
      rewrite (Hrest Hk) in Ex'. discriminate. }
    cbn [List.filter fst snd].
    destruct (dict_get JobOptions_class_defaults k0) as [d0|] eqn:Ed.
    + destruct (negb (String.eqb k0 "out") && negb (py_eq v0 d0)) eqn:Ep.
      * cbn [dict_get]. destruct (String.eqb k k0) eqn:E.
        -- apply String.eqb_eq in E. subst k0.
           apply andb_true_iff in Ep as [Ho Hp].
           apply negb_true_iff in Ho. apply String.eqb_neq in Ho.
           apply negb_true_iff in Hp.
           split.
           ++ intros H. injection H as <-. split; [exact Ho|]. split; [reflexivity|].
              exists d0. split; assumption.
           ++ intros (_ & H & _). exact H.
        -- apply IH.
      * rewrite IH. cbn [dict_get]. destruct (String.eqb k k0) eqn:E; [|reflexivity].
        apply String.eqb_eq in E. subst k0. rewrite (Hrest eq_refl).
        split; [intros (_ & H & _); discriminate|].
        intros (Ho & H & d & Hd & Hp). exfalso.
        injection H as <-. rewrite Ed in Hd. injection Hd as <-.
        apply andb_false_iff in Ep as [Ep|Ep].
        -- apply negb_false_iff in Ep. apply String.eqb_eq in Ep. contradiction.
        -- apply negb_false_iff in Ep. congruence.
    + rewrite IH. cbn [dict_get]. destruct (String.eqb k k0) eqn:E; [|reflexivity].
      apply String.eqb_eq in E. subst k0. rewrite (Hrest eq_refl).
      split; [intros (_ & H & _); discriminate|].
      intros (_ & _ & d & Hd & _). rewrite Ed in Hd. discriminate.
Qed.

Lemma JobOptions_getUserSettings_differ_witness :
  dict_get (JobOptions_getUserSettings
              [("dryrun", VBool true); ("commit", VBool true); ("out", VStr "log")]) "dryrun"
  = Some (VBool true)
  <-> ("dryrun" <> "out"
       /\ dict_get [("dryrun", VBool true); ("commit", VBool true); ("out", VStr "log")] "dryrun"
          = Some (VBool true)
       /\ exists d, dict_get JobOptions_class_defaults "dryrun" = Some d
                    /\ py_eq (VBool true) d = false).
Proof.
  apply (JobOptions_getUserSettings_differ
           [("dryrun", VBool true); ("commit", VBool true); ("out", VStr "log")]
           "dryrun" (VBool true)).
  apply (bool_decide_unpack (NoDup _)). vm_compute. reflexivity.
Defined.

(** [verbose=False] is not reported: the default is [0], and [False == 0]. *)
Example JobOptions_getUserSettings_verbose_False :
  JobOptions_getUserSettings [("dryrun", VBool true); ("verbose", VBool false)]
  = [("dryrun", VBool true)].
Proof. reflexivity. Qed.

(** ** Specs from installers *)

(** What a successful call of [ConfigurationSpec] stores. *)
Lemma ConfigurationSpec_call_fields args spec :
  ConfigurationSpec_call args = inr spec ->
  dict_get args "name" = Some (ConfigurationSpec.name spec)
  /\ dict_get args "operation" = Some (ConfigurationSpec.operation spec)
  /\ ConfigurationSpec.className spec = kwarg args "className" VNone
  /\ ConfigurationSpec.installer spec = kwarg args "installer" VNone
  /\ ConfigurationSpec.inputs spec = py_or (kwarg args "inputs" VNone) (VDict [])
  /\ truthy (ConfigurationSpec.name spec) = true
  /\ truthy (ConfigurationSpec.className spec) = true.
Proof.
  unfold ConfigurationSpec_call.
  destruct (negb (forallb _ args)); [discriminate|].
  destruct (dict_get args "name") as [name|]; [|discriminate].
  destruct (dict_get args "operation") as [operation|]; [|discriminate].
  unfold ConfigurationSpec_init.
  destruct (negb (truthy (py_and name (kwarg args "className" VNone)))) eqn:Ea; [discriminate|].
  destruct (py_or (kwarg args "environment" VNone) (VDict [])); try discriminate.
  intros H. injection H as <-. simpl.
  apply negb_false_iff in Ea. unfold py_and in Ea.
  destruct (truthy name) eqn:En; [|congruence].
  repeat split; assumption.
Qed.

Section InstallerProperties.
Variable lookupClass : PyVal -> PyExc + (ConfigurationSpec.t -> Configurator).
Variable re_match_command : string -> bool.

(** X5.  [getConfigSpecFromInstaller].  A spec built from an installer is
    named after the template, its operation is the action asked for, its
    installer is the template and it names a configurator class. *)
Theorem getConfigSpecFromInstaller_fields configuratorTemplate action inputs useDefault spec :
  getConfigSpecFromInstaller lookupClass re_match_command configuratorTemplate action inputs
    useDefault = inr (Some spec) ->
  ConfigurationSpec.name spec = tpl_name configuratorTemplate
  /\ ConfigurationSpec.operation spec = VStr action
  /\ ConfigurationSpec.installer spec = VObject (tpl_oid configuratorTemplate)
  /\ truthy (ConfigurationSpec.className spec) = true.
Proof.
  unfold getConfigSpecFromInstaller. intros H.
  repeat match type of H with
         | (if ?x then _ else _) = _ => destruct x eqn:?; try discriminate
         | match ?x with _ => _ end = _ => destruct x eqn:?; try discriminate
         end.
  injection H as <-.
  match goal with
  | Hc : ConfigurationSpec_call _ = inr _ |- _ =>
      apply ConfigurationSpec_call_fields in Hc as (Hn & Ho & _ & Hi & _ & _ & Hc)
  end.
  cbn [dict_get] in Hn, Ho.
  change (("name" =? "name")%string) with true in Hn.
  change (("operation" =? "name")%string) with false in Ho.
  change (("operation" =? "operation")%string) with true in Ho.
  cbn iota in Hn, Ho. injection Hn as Hn. injection Ho as Ho.
  unfold kwarg in Hi. cbn [dict_get] in Hi.
  change (("installer" =? "name")%string) with false in Hi.
  change (("installer" =? "operation")%string) with false in Hi.
  cbn iota in Hi. rewrite dict_get_set_eq in Hi.
  repeat split; congruence.
Qed.

(** Aliases lead to aliases or nowhere while every operation is one. *)
Lemma follow_alias_aliases_only operations :
  (forall k v, (k, v) ∈ operations -> exists s, v = VStr s) ->
  forall n attributes,
    (attributes = VNone \/ exists s, attributes = VStr s) ->
    follow_alias operations n attributes = VNone
    \/ exists s, follow_alias operations n attributes = VStr s.
Proof.
  intros Hall. induction n as [|n IH]; intros attributes Ha; simpl; [exact Ha|].
  destruct Ha as [->|[s ->]]; [left; reflexivity|].
  apply IH. unfold kwarg.
  destruct (dict_get operations s) as [v|] eqn:E; [|left; reflexivity].
  right. apply dict_get_Some_elem in E. apply Hall in E. exact E.
Qed.

(** X6.  [getConfigSpecFromInstaller], the alias loop.  When every operation
    of the installer is an alias for another, whether the chain ends at a
    missing name or runs in a circle, the loop stops after as many hops as
    there are operations and no spec is built. *)
Theorem getConfigSpecFromInstaller_aliases_only configuratorTemplate action inputs useDefault :
  (forall k v, (k, v) ∈ tpl_operations configuratorTemplate -> exists s, v = VStr s) ->
  getConfigSpecFromInstaller lookupClass re_match_command configuratorTemplate action inputs
    useDefault = inr None.
Proof.
  intros Hall. unfold getConfigSpecFromInstaller.
  set (attributes := match dict_get _ action with Some a => a | None => _ end).
  destruct (negb (truthy attributes)); [reflexivity|].
  assert (Ha : attributes = VNone \/ exists s, attributes = VStr s).
  { subst attributes.
    destruct (dict_get (tpl_operations configuratorTemplate) action) as [v|] eqn:E.
    - right. apply dict_get_Some_elem in E. apply Hall in E. exact E.
    - destruct useDefault; [|left; reflexivity]. unfold kwarg.
      destruct (dict_get (tpl_operations configuratorTemplate) "default") as [v|] eqn:E';
        [|left; reflexivity].
      right. apply dict_get_Some_elem in E'. apply Hall in E'. exact E'. }
  destruct (follow_alias_aliases_only _ Hall
              (length (tpl_operations configuratorTemplate)) attributes Ha) as [->|[s ->]];
    reflexivity.
Qed.

(** X7.  [getConfigSpecArgsFromImplementation], the command line.  When the
    implementation is a string that names no configurator class, the spec
    is one for the shell configurator whose inputs are the caller's inputs
    on top of [command]: an input called [command] replaces the
    implementation.  The command is wrapped in a list when the input
    [shell] is [False] or the string matches the pattern of the source
    (word characters, dots and dashes only). *)
Theorem getConfigSpecArgsFromImplementation_command command inputs message :
  lookupClass (VStr command) = inl (UnfurlError message) ->
  NoDup inputs.*1 ->
  exists shellArgs,
    getConfigSpecArgsFromImplementation lookupClass re_match_command (VStr command)
      (VDict inputs)
    = inr [("inputs", VDict shellArgs); ("className", ShellConfigurator)]
    /\ forall k,
         dict_get shellArgs k
         = match dict_get inputs k with
           | Some v => Some v
           | None =>
               if String.eqb k "command" then
                 Some (if match dict_get inputs "shell" with
                          | Some (VBool false) => true
                          | _ => re_match_command command
                          end
                       then VList [VStr command] else VStr command)
               else None
           end.
Proof.
  intros Hl Hnd. unfold getConfigSpecArgsFromImplementation.
  cbn [dict_has dict_get]. change (("className" =? "inputs")%string) with false. cbn iota.
  rewrite Hl.
  set (noShell := match dict_get inputs "shell" with
                  | Some (VBool false) => true
                  | _ => re_match_command command
                  end).
  exists (dict_update [("command", if noShell then VList [VStr command] else VStr command)]
                      inputs).
  split.
  - destruct inputs as [|kv rest].
    + reflexivity.
    + cbn [truthy].
      match goal with
      | |- context [match ?m with inl _ => _ | inr _ => _ end] =>
          replace m with (@inr PyExc bool noShell)
      end; [reflexivity|].
      subst noShell. unfold kwarg.
      destruct (dict_get (kv :: rest) "shell") as [[| [|] | | | | | | | | | | |]|];
        reflexivity.
  - intros k. rewrite dict_get_update by exact Hnd.
    destruct (dict_get inputs k); [reflexivity|]. cbn [dict_get].
    reflexivity.
Qed.

End InstallerProperties.

Lemma getConfigSpecFromInstaller_fields_witness :
  exists spec,
    getConfigSpecFromInstaller ex_lookupClass ex_re_match_command ex_installer "configure"
      (VDict [("region", VStr "eu")]) true = inr (Some spec)
    /\ ConfigurationSpec.name spec = VStr "terraform"
    /\ ConfigurationSpec.operation spec = VStr "configure"
    /\ ConfigurationSpec.installer spec = VObject 7
    /\ truthy (ConfigurationSpec.className spec) = true.
Proof.
  eexists. split; [reflexivity|].
  apply (getConfigSpecFromInstaller_fields ex_lookupClass ex_re_match_command ex_installer
           "configure" (VDict [("region", VStr "eu")]) true).
  reflexivity.
Defined.

Lemma getConfigSpecFromInstaller_aliases_only_witness :
  getConfigSpecFromInstaller ex_lookupClass ex_re_match_command ex_alias_installer "start"
    VNone true = inr None.
Proof.
  apply (getConfigSpecFromInstaller_aliases_only ex_lookupClass ex_re_match_command
           ex_alias_installer "start" VNone true).
  intros k v Hin. cbn in Hin.
  apply elem_of_cons in Hin as [Hin|Hin]; [injection Hin as -> ->; eauto|].
  apply elem_of_cons in Hin as [Hin|Hin]; [injection Hin as -> ->; eauto|].
  inversion Hin.
Defined.

Lemma getConfigSpecArgsFromImplementation_command_witness :
  exists shellArgs,
    getConfigSpecArgsFromImplementation ex_lookupClass ex_re_match_command
      (VStr "terraform apply") (VDict [("command", VStr "terraform plan")])
    = inr [("inputs", VDict shellArgs); ("className", ShellConfigurator)]
    /\ dict_get shellArgs "command" = Some (VStr "terraform plan").
Proof.
  assert (Hnd : NoDup [("command", VStr "terraform plan")].*1)
    by (apply (bool_decide_unpack (NoDup _)); vm_compute; reflexivity).
  destruct (getConfigSpecArgsFromImplementation_command ex_lookupClass ex_re_match_command
              "terraform apply" [("command", VStr "terraform plan")]
              "unknown configurator class" eq_refl Hnd) as (shellArgs & Hargs & Hget).
  exists shellArgs. split; [exact Hargs|]. exact (Hget "command").
Defined.

(** ** getAnsibleResults *)

Lemma extraKeys_lookup (_result : PyDict) (extraKeys : list string) : forall resultDict k,
  dict_get
    (fold_left (fun resultDict key =>
                  match dict_get _result key with
                  | Some v => dict_set resultDict key v
                  | None => resultDict
                  end) extraKeys resultDict) k
  = if bool_decide (k ∈ extraKeys) && dict_has _result k
    then dict_get _result k else dict_get resultDict k.
Proof.
  induction extraKeys as [|key rest IH]; intros resultDict k; cbn [fold_left].
  - reflexivity.
  - rewrite IH. destruct (dict_has _result k) eqn:Eh; rewrite ?andb_true_r, ?andb_false_r.
    + destruct (decide (k ∈ rest)) as [Hin|Hnot].
      * rewrite !bool_decide_true by (try right; exact Hin). reflexivity.
      * rewrite (bool_decide_false (k ∈ rest)) by exact Hnot.
        destruct (decide (k = key)) as [->|Hne].
        -- rewrite bool_decide_true by left. unfold dict_has in Eh.
           destruct (dict_get _result key) as [v|]; [apply dict_get_set_eq|discriminate].
        -- rewrite bool_decide_false
             by (intros H; apply elem_of_cons in H as [?|?]; contradiction).
           destruct (dict_get _result key) as [v|]; [|reflexivity].
           apply dict_get_set_ne. congruence.
    + destruct (dict_get _result key) as [v|] eqn:Ek; [|reflexivity].
      apply dict_get_set_ne. intros ->. unfold dict_has in Eh. rewrite Ek in Eh.
      discriminate.
Qed.

Lemma ansible_outputs_lookup (facts_dict : PyDict) (facts : list string) :
  forall outputs, exists out,
    ansible_outputs (VDict facts_dict) facts outputs = inr out
    /\ forall k, dict_get out k
                 = if bool_decide (k ∈ facts) && dict_has facts_dict k
                   then dict_get facts_dict k else dict_get outputs k.
Proof.
  induction facts as [|fact rest IH]; intros outputs; cbn [ansible_outputs].
  - exists outputs. split; reflexivity.
  - cbn [py_in py_getitem]. unfold dict_has at 1, kwarg.
    destruct (dict_get facts_dict fact) as [v|] eqn:Ef.
    + destruct (IH (dict_set outputs fact v)) as (out & Hout & Hget).
      exists out. split; [exact Hout|]. intros k. rewrite Hget.
      destruct (dict_has facts_dict k) eqn:Eh; rewrite ?andb_true_r, ?andb_false_r.
      * destruct (decide (k ∈ rest)) as [Hin|Hnot].
        -- rewrite !bool_decide_true by (try right; exact Hin). reflexivity.
        -- rewrite (bool_decide_false (k ∈ rest)) by exact Hnot.
           destruct (decide (k = fact)) as [->|Hne].
           ++ rewrite bool_decide_true by left. rewrite Ef. apply dict_get_set_eq.
           ++ rewrite bool_decide_false
                by (intros H; apply elem_of_cons in H as [?|?]; contradiction).
              apply dict_get_set_ne. congruence.
      * apply dict_get_set_ne. intros ->. unfold dict_has in Eh. rewrite Ef in Eh.
        discriminate.
    + destruct (IH outputs) as (out & Hout & Hget).
      exists out. split; [exact Hout|]. intros k. rewrite Hget.
      destruct (dict_has facts_dict k) eqn:Eh; rewrite ?andb_true_r, ?andb_false_r;
        [|reflexivity].
      destruct (decide (k ∈ rest)) as [Hin|Hnot].
      * rewrite !bool_decide_true by (try right; exact Hin). reflexivity.
      * rewrite (bool_decide_false (k ∈ rest)) by exact Hnot.
        rewrite bool_decide_false; [reflexivity|].
        intros H. apply elem_of_cons in H as [->|?]; [|contradiction].
        unfold dict_has in Eh. rewrite Ef in Eh. discriminate.
Qed.

(** X8.  [getAnsibleResults].  In the result dictionary [error] is the
    task's [exception], or else its [module_stderr], and [stdout] is its
    [stdout], or else its [module_stdout]; an extra key of the same name
    that the task result has wins over both.  When the task result's
    [ansible_facts] is a mapping, the outputs are the requested facts that
    it has and nothing else. *)
Theorem getAnsibleResults_lookup _result extraKeys facts ansible_facts :
  dict_get _result "ansible_facts" = Some (VDict ansible_facts) ->
  exists resultDict outputs,
    getAnsibleResults _result extraKeys facts = inr (resultDict, outputs)
    /\ dict_get resultDict "error"
       = (if bool_decide ("error" ∈ extraKeys) && dict_has _result "error"
          then dict_get _result "error"
          else first_key _result ["exception"; "module_stderr"])
    /\ dict_get resultDict "stdout"
       = (if bool_decide ("stdout" ∈ extraKeys) && dict_has _result "stdout"
          then dict_get _result "stdout"
          else first_key _result ["stdout"; "module_stdout"])
    /\ forall k, dict_get outputs k
                 = if bool_decide (k ∈ facts) && dict_has ansible_facts k
                   then dict_get ansible_facts k else None.
Proof.
  intros Hf. unfold getAnsibleResults.
  assert (Hout : exists outputs,
    match facts with
    | [] => inr []
    | _ :: _ =>
        if truthy (kwarg _result "ansible_facts" VNone)
        then ansible_outputs (kwarg _result "ansible_facts" VNone) facts []
        else inr []
    end = inr outputs
    /\ forall k, dict_get outputs k
                 = if bool_decide (k ∈ facts) && dict_has ansible_facts k
                   then dict_get ansible_facts k else None).
  { unfold kwarg. rewrite Hf. destruct facts as [|fact rest].
    - exists []. split; [reflexivity|]. intros k.
      rewrite bool_decide_false by (intros H; inversion H). reflexivity.
    - destruct ansible_facts as [|item items].
      + exists []. split; [reflexivity|]. intros k. unfold dict_has. cbn.
        rewrite andb_false_r. reflexivity.
      + cbn [truthy]. exact (ansible_outputs_lookup (item :: items) (fact :: rest) []). }
  destruct Hout as (outputs & -> & Hget).
  eexists _, outputs. split; [reflexivity|].
  split; [|split; [|exact Hget]]; rewrite extraKeys_lookup;
    destruct (bool_decide _ && dict_has _result _); try reflexivity;
    cbn [fold_left fst snd first_key];
    repeat match goal with
           | |- context [match dict_get ?d ?k with _ => _ end] =>
               destruct (dict_get d k) eqn:?
           end; reflexivity.
Qed.

Lemma getAnsibleResults_lookup_witness :
  exists resultDict outputs,
    getAnsibleResults
      [("module_stderr", VStr "permission denied");
       ("ansible_facts", VDict [("ansible_distribution", VStr "Debian")])]
      [] ["ansible_distribution"; "ansible_hostname"] = inr (resultDict, outputs)
    /\ dict_get resultDict "error" = Some (VStr "permission denied")
    /\ dict_get outputs "ansible_distribution" = Some (VStr "Debian")
    /\ dict_get outputs "ansible_hostname" = None.
Proof.
  destruct (getAnsibleResults_lookup
              [("module_stderr", VStr "permission denied");
               ("ansible_facts", VDict [("ansible_distribution", VStr "Debian")])]
              [] ["ansible_distribution"; "ansible_hostname"]
              [("ansible_distribution", VStr "Debian")] eq_refl)
    as (resultDict & outputs & Hr & He & _ & Ho).
  exists resultDict, outputs. split; [exact Hr|]. split; [exact He|].
  split; [exact (Ho "ansible_distribution")|exact (Ho "ansible_hostname")].
Defined.

(** ** Dependencies *)

Lemma odict_get_set_eq {V} (d : list (string * V)) k v : odict_get (odict_set d k v) k = Some v.
Proof.
  induction d as [|[k' v'] d IH]; simpl.
  - rewrite String.eqb_refl. reflexivity.
  - destruct (String.eqb k k') eqn:E; simpl; rewrite E; [reflexivity|exact IH].
Qed.

Lemma odict_get_set_ne {V} (d : list (string * V)) k k' v :
  k <> k' -> odict_get (odict_set d k v) k' = odict_get d k'.
Proof.
  intros Hne. induction d as [|[k0 v0] d IH]; simpl.
  - destruct (String.eqb k' k) eqn:E; [|reflexivity].
    apply String.eqb_eq in E. congruence.
  - destruct (String.eqb k k0) eqn:E; simpl.
    + apply String.eqb_eq in E. subst k0.
      destruct (String.eqb k' k) eqn:E'; [|reflexivity].
      apply String.eqb_eq in E'. congruence.
    + rewrite IH. reflexivity.
Qed.

Lemma odict_pop_set_fresh {V} (d : list (string * V)) k v :
  odict_get d k = None -> odict_pop (odict_set d k v) k = (Some v, d).
Proof.
  induction d as [|[k' v'] d IH]; simpl.
  - intros _. rewrite String.eqb_refl. reflexivity.
  - destruct (String.eqb k k') eqn:E; [discriminate|].
    intros H. simpl. rewrite E, (IH H). reflexivity.
Qed.

Lemma odict_pop_missing {V} (d : list (string * V)) k :
  odict_get d k = None -> odict_pop d k = (None, d).
Proof.
  induction d as [|[k' v'] d IH]; simpl; [reflexivity|].
  destruct (String.eqb k k') eqn:E; [discriminate|].
  intros H. rewrite (IH H). reflexivity.
Qed.

Section DependencyProperties.
Variable asRef_source : nat -> string.

(** X9.  [TaskView.addDependency].  The dependency is filed under its name,
    or under its expression when it has no name, replacing what was filed
    there and nothing else; the call fails when both an expected value and
    a schema are given.  The flag it raises is [dependenciesChanged]: the
    attribute [_dependenciesChanged] that [__init__] created keeps its
    value. *)
Theorem TaskView_addDependency_files self expr expected schema name required wantList
    dependency self' :
  TaskView_addDependency asRef_source self expr expected schema name required wantList
  = inr (dependency, self') ->
  odict_get (TaskView.dependencies self') (name_or name (dependency_expr asRef_source expr)) = Some dependency
  /\ (forall k, k <> name_or name (dependency_expr asRef_source expr) ->
        odict_get (TaskView.dependencies self') k = odict_get (TaskView.dependencies self) k)
  /\ Dependency.expected dependency = expected
  /\ Dependency.schema dependency = schema
  /\ truthy (py_and expected schema) = false
  /\ TaskView.dependenciesChanged self' = Some true
  /\ TaskView._dependenciesChanged self' = TaskView._dependenciesChanged self.
Proof.
  unfold TaskView_addDependency, Dependency_init.
  destruct (truthy (py_and expected schema)) eqn:Ea; [discriminate|].
  intros H. injection H as <- <-. cbn [TaskView.dependencies TaskView.dependenciesChanged
    TaskView._dependenciesChanged Dependency.expected Dependency.schema].
  split; [apply odict_get_set_eq|]. split.
  - intros k Hk. apply odict_get_set_ne. congruence.
  - repeat split; reflexivity.
Qed.

(** X10.  [TaskView.removeDependency].  Removing the key of a dependency that
    was just added to a task which had none under that key gives the
    dependency back and leaves the task's dependencies as they were before
    the two calls; removing a key that is not there answers [None] and
    changes nothing. *)
Theorem TaskView_removeDependency_undoes_add self expr expected schema name required wantList
    dependency self' :
  odict_get (TaskView.dependencies self) (name_or name (dependency_expr asRef_source expr)) = None ->
  TaskView_addDependency asRef_source self expr expected schema name required wantList
  = inr (dependency, self') ->
  (TaskView_removeDependency self' (name_or name (dependency_expr asRef_source expr))).1 = Some dependency
  /\ TaskView.dependencies (TaskView_removeDependency self' (name_or name (dependency_expr asRef_source expr))).2
     = TaskView.dependencies self
  /\ TaskView_removeDependency self (name_or name (dependency_expr asRef_source expr)) = (None, self).
Proof.
  intros Hfresh. unfold TaskView_addDependency, Dependency_init.
  destruct (truthy (py_and expected schema)) eqn:Ea; [discriminate|].
  intros H. injection H as <- <-.
  unfold TaskView_removeDependency. cbn [TaskView.dependencies].
  rewrite (odict_pop_set_fresh _ _ _ Hfresh), (odict_pop_missing _ _ Hfresh).
  destruct self. repeat split; reflexivity.
Qed.

End DependencyProperties.

Lemma TaskView_addDependency_files_witness :
  exists dependency self',
    TaskView_addDependency (fun _ => "::root") (TaskView_init None) (inl "::nodeA::port")
      (VInt 80) VNone (Some "port") false false = inr (dependency, self')
    /\ odict_get (TaskView.dependencies self') "port" = Some dependency
    /\ TaskView.dependenciesChanged self' = Some true
    /\ TaskView._dependenciesChanged self' = false.
Proof.
  eexists _, _. split; [reflexivity|].
  destruct (TaskView_addDependency_files (fun _ => "::root") (TaskView_init None)
              (inl "::nodeA::port") (VInt 80) VNone (Some "port") false false _ _ eq_refl)
    as (H1 & _ & _ & _ & _ & H6 & H7).
  split; [exact H1|]. split; [exact H6|exact H7].
Defined.

Lemma TaskView_removeDependency_undoes_add_witness :
  exists dependency self',
    TaskView_addDependency (fun _ => "::root") (TaskView_init None) (inl "::nodeA::port")
      (VInt 80) VNone None false false = inr (dependency, self')
    /\ (TaskView_removeDependency self' "::nodeA::port").1 = Some dependency
    /\ TaskView.dependencies (TaskView_removeDependency self' "::nodeA::port").2 = [].
Proof.
  eexists _, _. split; [reflexivity|].
  destruct (TaskView_removeDependency_undoes_add (fun _ => "::root") (TaskView_init None)
              (inl "::nodeA::port") (VInt 80) VNone None false false _ _ eq_refl eq_refl)
    as (H1 & H2 & _).
  split; [exact H1|exact H2].
Defined.

(** ** Dependency.hasValueChanged *)

Lemma Dependency_hasValueChanged_plain changeAware changeset :
  forall value, has_ChangeAware value = false ->
    truthy (Dependency_hasValueChanged changeAware value changeset) = false.
Proof.
  fix IH 1. intros value.
  destruct value as [ | b | n | s | s | p | items | items | v i p a | x | o | m | o];
    simpl; try reflexivity; try discriminate.
  - intros H.
    assert (Hex : existsb (fun v => truthy (Dependency_hasValueChanged changeAware v changeset))
                          items = false).
    { induction items as [|x xs IHxs]; [reflexivity|]. simpl.
      apply orb_false_iff in H as [Hx Hxs]. rewrite (IH x Hx). simpl. apply IHxs. exact Hxs. }
    rewrite Hex. reflexivity.
  - intros H.
    assert (Hex : existsb (fun kv => truthy (Dependency_hasValueChanged changeAware kv.2
                                               changeset)) items = false).
    { induction items as [|[k x] xs IHxs]; [reflexivity|]. simpl.
      apply orb_false_iff in H as [Hx Hxs]. rewrite (IH x Hx). simpl. apply IHxs. exact Hxs. }
    rewrite Hex. reflexivity.
  - apply IH.
Qed.

(** X11.  [Dependency.hasChanged] with a schema.  When the expression
    evaluates to plain data, with no [ChangeAware] object anywhere inside,
    a dependency that has a schema never counts as changed, whether the
    data passes the schema or fails it. *)
Theorem Dependency_hasChanged_schema_plain_data resolveOne mapValue validateSchema changeAware
    self config :
  truthy (Dependency.schema self) = true ->
  has_ChangeAware
    (resolveOne (Dependency.expr self)
       (mkRefContext (cs_target config)
          [("val", Dependency.expected self); ("changeId", VInt (cs_changeId config))]))
  = false ->
  Dependency_hasChanged resolveOne mapValue validateSchema changeAware self config = false.
Proof.
  intros Hs Hp. unfold Dependency_hasChanged. rewrite Hs.
  rewrite (Dependency_hasValueChanged_plain changeAware config _ Hp).
  destruct (negb (validateSchema _ _)); reflexivity.
Qed.

Lemma Dependency_hasChanged_schema_plain_data_witness :
  Dependency_hasChanged ex_resolveOne ex_mapValue (fun _ _ => true) ex_changeAware
    ex_dependency (mkChangeset 0 7) = false.
Proof.
  apply (Dependency_hasChanged_schema_plain_data ex_resolveOne ex_mapValue (fun _ _ => true)
           ex_changeAware ex_dependency (mkChangeset 0 7)); reflexivity.
Defined.

(** ** ConfigurationSpec.__eq__ *)

Lemma Status_value_inj a b : Status.value a = Status.value b -> a = b.
Proof. destruct a, b; simpl; intros H; first [reflexivity | discriminate]. Qed.

(** [==] on values holds between a value and itself only. *)
Lemma Environment_eq_sym a b : Environment_eq a b = Environment_eq b a.
Proof.
  unfold Environment_eq.
  rewrite (py_eq_sym (Environment.vars a)), (py_eq_sym (Environment.isolate a)),
    (py_eq_sym (Environment.passvars a)), (py_eq_sym (Environment.addinputs a)).
  reflexivity.
Qed.

Lemma Environment_eq_trans a b c :
  Environment_eq a b = true -> Environment_eq b c = true -> Environment_eq a c = true.
Proof.
  unfold Environment_eq. intros H1 H2.
  repeat match goal with
         | H : _ && _ = true |- _ => apply andb_true_iff in H as [? ?]
         end.
  repeat match goal with |- _ && _ = true => apply andb_true_iff; split end; eapply py_eq_trans; eassumption.
Qed.

(** X12.  [ConfigurationSpec.__eq__] is an equivalence on specs: reflexive,
    symmetric and transitive, even though it leaves [inputSchema] and
    [installer] out of the comparison, and with the fields compared as
    [==] compares them: numbers by value, mappings whatever the order of
    their keys. *)
Theorem ConfigurationSpec_eq_equivalence :
  (forall a, ConfigurationSpec_eq a a = true)
  /\ (forall a b, ConfigurationSpec_eq a b = true -> ConfigurationSpec_eq b a = true)
  /\ (forall a b c, ConfigurationSpec_eq a b = true -> ConfigurationSpec_eq b c = true ->
                    ConfigurationSpec_eq a c = true).
Proof.
  split; [|split].
  - intros a. unfold ConfigurationSpec_eq. rewrite !py_eq_refl, Environment_eq_refl. reflexivity.
  - intros a b. unfold ConfigurationSpec_eq. intros H.
    repeat match goal with
           | H : _ && _ = true |- _ => apply andb_true_iff in H as [? ?]
           end.
    repeat match goal with |- _ && _ = true => apply andb_true_iff; split end;
      first [apply py_eq_refl
            | rewrite py_eq_sym; assumption
            | rewrite Environment_eq_sym; assumption].
  - intros a b c. unfold ConfigurationSpec_eq. intros H1 H2.
    repeat match goal with
           | H : _ && _ = true |- _ => apply andb_true_iff in H as [? ?]
           end.
    repeat match goal with |- _ && _ = true => apply andb_true_iff; split end;
      first [apply py_eq_refl
            | eapply py_eq_trans; eassumption
            | eapply Environment_eq_trans; eassumption].
Qed.

(** ** ConfigTask.hasDependenciesChanged *)

Lemma odict_set_elem {V} (d : list (string * V)) k v : (k, v) ∈ odict_set d k v.
Proof.
  induction d as [|[k' v'] d IH]; cbn; [left|].
  destruct (String.eqb k k') eqn:E.
  - apply String.eqb_eq in E. subst k'. left.
  - right. exact IH.
Qed.

(** X13.  [addDependency] and [hasDependenciesChanged].  Once a dependency
    with an expected value and no schema is recorded on a task, the task's
    dependencies count as changed as soon as its expression evaluates to
    something else than the expected value, whatever the other dependencies
    say. *)
Theorem ConfigTask_hasDependenciesChanged_detects asRef_source resolveOne mapValue
    validateSchema changeAware self expr expected schema name required wantList
    dependency self' config :
  TaskView_addDependency asRef_source self expr expected schema name required wantList
  = inr (dependency, self') ->
  truthy schema = false -> is_None expected = false ->
  (let context :=
     mkRefContext (cs_target config)
       [("val", expected); ("changeId", VInt (cs_changeId config))] in
   py_eq (resolveOne (dependency_expr asRef_source expr) context) (mapValue expected context)
   = false) ->
  ConfigTask_hasDependenciesChanged resolveOne mapValue validateSchema changeAware self' config
  = true.
Proof.
  unfold TaskView_addDependency, Dependency_init.
  destruct (truthy (py_and expected schema)); [discriminate|].
  intros H Hs He Hne. injection H as <- <-.
  unfold ConfigTask_hasDependenciesChanged. cbn [TaskView.dependencies].
  apply existsb_exists. eexists. split; [apply list_elem_of_In, odict_set_elem|].
  cbn [snd]. unfold Dependency_hasChanged.
  cbn [Dependency.schema Dependency.expected Dependency.expr].
  cbv zeta in Hne. rewrite Hs, He, Hne. reflexivity.
Qed.

Lemma ConfigTask_hasDependenciesChanged_detects_witness :
  exists dependency self',
    TaskView_addDependency (fun _ => "::root") (TaskView_init None) (inl "::nodeA::port")
      (VInt 80) VNone (Some "port") false false = inr (dependency, self')
    /\ ConfigTask_hasDependenciesChanged ex_resolve_port ex_mapValue ex_validateSchema
         ex_changeAware self' (mkChangeset 0 7) = true.
Proof.
  eexists _, _. split; [reflexivity|].
  exact (ConfigTask_hasDependenciesChanged_detects (fun _ => "::root") ex_resolve_port
           ex_mapValue ex_validateSchema ex_changeAware (TaskView_init None)
           (inl "::nodeA::port") (VInt 80) VNone (Some "port") false false _ _
           (mkChangeset 0 7) eq_refl eq_refl eq_refl eq_refl).
Defined.

(** ** ConfigTask.hasInputsChanged *)

Lemma dict_has_true (d : PyDict) k : dict_has d k = true <-> exists v, (k, v) ∈ d.
Proof.
  unfold dict_has. split.
  - destruct (dict_get d k) as [v|] eqn:E; [|discriminate].
    intros _. exists v. apply dict_get_Some_elem. exact E.
  - intros [v Hin]. destruct (dict_get d k) eqn:E; [reflexivity|].
    apply dict_get_None_notin in E. exfalso. apply E.
    apply list_elem_of_fmap. exists (k, v). split; [reflexivity|exact Hin].
Qed.

Lemma keys_differ_false (a b : PyDict) :
  keys_differ a b = false <-> forall k, dict_has a k = dict_has b k.
Proof.
  unfold keys_differ. rewrite negb_false_iff, andb_true_iff, !forallb_forall. split.
  - intros [Hab Hba] k.
    destruct (dict_has a k) eqn:Ea.
    + apply dict_has_true in Ea as [v Hin]. symmetry. apply list_elem_of_In in Hin.
      apply (Hab (k, v) Hin).
    + destruct (dict_has b k) eqn:Eb; [|reflexivity].
      apply dict_has_true in Eb as [v Hin]. apply list_elem_of_In in Hin.
      rewrite <- Ea. apply (Hba (k, v) Hin).
  - intros H. split; intros [k v] Hin; apply list_elem_of_In in Hin; cbn.
    + rewrite <- H. apply dict_has_true. exists v. exact Hin.
    + rewrite H. apply dict_has_true. exists v. exact Hin.
Qed.

Section InputsChangedProperties.
Variable serializeValue : PyVal -> PyVal.
Variable loadConfigChange_inputs : PyVal -> PyVal.

(** X14.  [ConfigTask.hasInputsChanged].  Without recorded parameters (no
    last change, or one that recorded none) a task's inputs count as
    changed exactly when there are any.  Against recorded parameters they
    count as unchanged exactly when the two mappings have the same keys and
    every input serializes to a value equal to the recorded one. *)
Theorem ConfigTask_hasInputsChanged_unchanged inputs lastConfigChange :
  ((truthy lastConfigChange = false
    \/ truthy (loadConfigChange_inputs lastConfigChange) = false) ->
   ConfigTask_hasInputsChanged serializeValue loadConfigChange_inputs inputs lastConfigChange
   = inr (negb (bool_decide (inputs = []))))
  /\ (forall recorded,
        truthy lastConfigChange = true ->
        loadConfigChange_inputs lastConfigChange = VDict recorded ->
        recorded <> [] ->
        (ConfigTask_hasInputsChanged serializeValue loadConfigChange_inputs inputs
           lastConfigChange = inr false
         <-> ((forall k, dict_has inputs k = dict_has recorded k)
              /\ forall k v, (k, v) ∈ inputs ->
                   exists old, dict_get recorded k = Some old
                               /\ py_eq (serializeValue v) old = true))).
Proof.
  unfold ConfigTask_hasInputsChanged. split.
  - intros H.
    assert (Hp : truthy (if truthy lastConfigChange
                         then loadConfigChange_inputs lastConfigChange else VNone) = false).
    { destruct H as [->|H]; [reflexivity|].
      destruct (truthy lastConfigChange); [exact H|reflexivity]. }
    rewrite Hp. cbn. destruct inputs; reflexivity.
  - intros recorded Hl Hr Hne. rewrite Hl, Hr.
    assert (Ht : truthy (VDict recorded) = true) by (destruct recorded; [contradiction|reflexivity]).
    rewrite Ht. cbn [negb].
    destruct (keys_differ inputs recorded) eqn:Ek.
    + split; [discriminate|]. intros [Hkeys _].
      apply (proj2 (keys_differ_false _ _)) in Hkeys. congruence.
    + pose proof (proj1 (keys_differ_false _ _) Ek) as Ek'. clear Ek. rename Ek' into Ek.
      split.
      * intros H. injection H as H. split; [exact Ek|].
        intros k v Hin.
        destruct (dict_get recorded k) as [old|] eqn:Eo.
        -- exists old. split; [reflexivity|].
           destruct (py_eq (serializeValue v) old) eqn:Ep; [reflexivity|].
           exfalso. apply Bool.not_true_iff_false in H. apply H.
           apply existsb_exists. exists (k, v). split; [apply list_elem_of_In; exact Hin|].
           cbn. rewrite Eo, Ep. reflexivity.
        -- exfalso. apply Bool.not_true_iff_false in H. apply H.
           apply existsb_exists. exists (k, v). split; [apply list_elem_of_In; exact Hin|].
           cbn. rewrite Eo. reflexivity.
      * intros [_ Hvals]. f_equal. apply Bool.not_true_iff_false. intros H.
        apply existsb_exists in H as ([k v] & Hin & Hx). apply list_elem_of_In in Hin.
        destruct (Hvals k v Hin) as (old & Ho & Hp). cbn in Hx. rewrite Ho, Hp in Hx.
        discriminate.
Qed.

End InputsChangedProperties.

(** ** Runner.run *)

Ltac manifest_base :=
  first [ apply preserves_modify; intros ?; reflexivity
        | progress unfold modifyTask, modifyJob, modifyInstance ].

Ltac manifest_auto := repeat first [preserves_step | manifest_base | assumption].

Lemma manifest_UnfurlTaskError t msg : preserves manifest_of (UnfurlTaskError t msg).
Proof. unfold UnfurlTaskError. manifest_auto. Qed.

Lemma manifest_run_effects t effects : preserves manifest_of (run_effects t effects).
Proof.
  induction effects as [|[k a v|r] rest IH]; simpl; unfold AttributeManager_set; manifest_auto.
Qed.

Lemma manifest_ConfigTask_configurator lookupClass t :
  preserves manifest_of (ConfigTask_configurator lookupClass t).
Proof. unfold ConfigTask_configurator, ConfigurationSpec_create. manifest_auto. Qed.

Lemma manifest_ConfigTask_start lookupClass t :
  preserves manifest_of (ConfigTask_start lookupClass t).
Proof.
  unfold ConfigTask_start, ConfigTask_startRun. manifest_auto.
  apply manifest_ConfigTask_configurator.
Qed.

Lemma manifest_ConfigTask_send t change : preserves manifest_of (ConfigTask_send t change).
Proof.
  unfold ConfigTask_send, Generator_send, ConfigTask_commitChanges,
    AttributeManager_commitChanges.
  manifest_auto; apply manifest_run_effects.
Qed.

Lemma manifest_Runner_incrementChangeId : preserves manifest_of Runner_incrementChangeId.
Proof. unfold Runner_incrementChangeId. manifest_auto. Qed.

Lemma manifest_ConfigTask_finished required lastChange t r :
  preserves manifest_of (ConfigTask_finished required lastChange t r).
Proof.
  unfold ConfigTask_finished, ResourceChanges_updateChanges,
    ConfigTask__updateStatus, ConfigTask__updateLastChange, set_target_localStatus.
  manifest_auto; apply manifest_Runner_incrementChangeId.
Qed.

Lemma manifest_Job_init now plan opts : preserves manifest_of (Job_init now plan opts).
Proof. unfold Job_init. manifest_auto; apply manifest_Runner_incrementChangeId. Qed.

Lemma manifest_ConfigTask_init now job spec target pid reason :
  preserves manifest_of (ConfigTask_init now job spec target pid reason).
Proof. unfold ConfigTask_init. manifest_auto. Qed.

Lemma manifest_Job_createTask lookupClass now job spec target pid reason :
  preserves manifest_of (Job_createTask lookupClass now job spec target pid reason).
Proof.
  unfold Job_createTask. manifest_auto;
    first [apply manifest_ConfigTask_init | apply manifest_ConfigTask_configurator
          | apply manifest_UnfurlTaskError].
Qed.

Lemma manifest_Runner_addWork t : preserves manifest_of (Runner_addWork t).
Proof. unfold Runner_addWork. manifest_auto. Qed.

Lemma manifest_Job_shouldRunTask shouldRun toEnum t :
  preserves manifest_of (Job_shouldRunTask shouldRun toEnum t).
Proof. unfold Job_shouldRunTask. manifest_auto; apply manifest_UnfurlTaskError. Qed.

Lemma manifest_Job_cantRunTask lookupClass findSchemaErrors t :
  preserves manifest_of (Job_cantRunTask lookupClass findSchemaErrors t).
Proof.
  unfold Job_cantRunTask. manifest_auto;
    first [apply manifest_UnfurlTaskError | apply manifest_ConfigTask_configurator].
Qed.

Ltac manifest_step :=
  first
    [ apply manifest_UnfurlTaskError | apply manifest_Runner_addWork
    | apply manifest_Job_shouldRunTask | apply manifest_Job_cantRunTask
    | apply manifest_ConfigTask_start | apply manifest_ConfigTask_send
    | apply manifest_ConfigTask_finished | apply manifest_ConfigTask_init
    | apply manifest_Job_createTask | apply manifest_Job_init
    | preserves_step | manifest_base ].

Section RunnerProperties.
Variable lookupClass : PyVal -> PyExc + (ConfigurationSpec.t -> Configurator).
Variable Defaults_shouldRun : PyVal.
Variable toEnum_Priority : PyVal -> PyExc + Priority.t.
Variable findSchemaErrors : PyVal -> PyVal -> list string.
Variable ConfigTask_required : ConfigTask.t -> bool.
Variable Instance_lastChange : Instance.t -> PyVal.
Variable getPlanClassForWorkflow : PyVal -> option (JobOptions.t -> PlanGenerator).
Variable now : PyVal.

Lemma manifest_Job_getCandidateTasks self planGen result :
  preserves manifest_of (Job_getCandidateTasks lookupClass now self planGen result).
Proof.
  revert result. revert planGen. fix IH 1. intros [resume] result. simpl.
  destruct (resume result) as [req rest|e|].
  - repeat manifest_step; apply IH.
  - destruct e; repeat manifest_step.
  - manifest_step.
Qed.

Lemma manifest_Runner_createJob opts :
  preserves manifest_of (Runner_createJob getPlanClassForWorkflow now opts).
Proof. unfold Runner_createJob. repeat manifest_step. Qed.

Lemma manifest_engine fuel :
  (forall self task depth,
      preserves manifest_of
        (Job_runTask lookupClass Defaults_shouldRun toEnum_Priority findSchemaErrors
           ConfigTask_required Instance_lastChange getPlanClassForWorkflow now
           fuel self task depth))
  /\ (forall self task depth change,
      preserves manifest_of
        (Job_runTask_loop lookupClass Defaults_shouldRun toEnum_Priority findSchemaErrors
           ConfigTask_required Instance_lastChange getPlanClassForWorkflow now
           fuel self task depth change))
  /\ (forall self jobRequest,
      preserves manifest_of
        (Job_runJobRequest lookupClass Defaults_shouldRun toEnum_Priority findSchemaErrors
           ConfigTask_required Instance_lastChange getPlanClassForWorkflow now
           fuel self jobRequest))
  /\ (forall self,
      preserves manifest_of
        (Job_run lookupClass Defaults_shouldRun toEnum_Priority findSchemaErrors
           ConfigTask_required Instance_lastChange getPlanClassForWorkflow now
           fuel self))
  /\ (forall self taskGen result,
      preserves manifest_of
        (Job_run_loop lookupClass Defaults_shouldRun toEnum_Priority findSchemaErrors
           ConfigTask_required Instance_lastChange getPlanClassForWorkflow now
           fuel self taskGen result))
  /\ (forall self,
      preserves manifest_of
        (Job_run_queue lookupClass Defaults_shouldRun toEnum_Priority findSchemaErrors
           ConfigTask_required Instance_lastChange getPlanClassForWorkflow now
           fuel self)).
Proof.
  induction fuel as [|fuel (IH1 & IH2 & IH3 & IH4 & IH5 & IH6)].
  - repeat split; intros; apply preserves_raise.
  - repeat split; intros; simpl.
    + repeat manifest_step; apply IH2.
    + repeat manifest_step; first [apply IH1 | apply IH2 | apply IH3].
    + repeat manifest_step; first [apply manifest_Runner_createJob | apply IH4].
    + repeat manifest_step; apply IH5.
    + preserves_step; [apply manifest_Job_getCandidateTasks|].
      repeat manifest_step; first [apply IH1 | apply IH5 | apply IH6].
    + repeat manifest_step; first [apply IH3 | apply IH6].
Qed.

(** X15.  [Runner.run] restores the working directory, whatever the job
    does: return, abort or raise. *)
Theorem Runner_run_restores_cwd fuel jobOptions w :
  cwd (Runner_run lookupClass Defaults_shouldRun toEnum_Priority findSchemaErrors
         ConfigTask_required Instance_lastChange getPlanClassForWorkflow now
         fuel jobOptions w).2 = cwd w.
Proof.
  unfold Runner_run. unfold mbind at 1, M_bind at 1, get at 1.
  unfold try_finally.
  match goal with
  | |- context [let (r, w') := ?body w in _] => destruct (body w) as [r w1]
  end.
  reflexivity.
Qed.

Lemma Runner_createJob_fresh opts w job w1 :
  Runner_createJob getPlanClassForWorkflow now opts w = (inr job, w1) ->
  job = length (jobs w).
Proof.
  unfold Runner_createJob, Job_init, Runner_incrementChangeId.
  unfold mbind, M_bind, get, modify, mret, M_ret, raise, getJob.
  destruct (negb (truthy _)); [discriminate|].
  destruct (getPlanClassForWorkflow _); [|discriminate].
  cbn [jobs set_runner fst snd].
  destruct (JobOptions.parentJob opts) as [parent|].
  - cbn. destruct (jobs w !! parent); cbn; intros H; [|discriminate].
    injection H as <- _. reflexivity.
  - cbn. intros H. injection H as <- _. reflexivity.
Qed.

(** X16.  [Runner.run] and [manifest.commitJob].  The job that [Runner.run]
    returns is a new job, it has been handed to [commitJob], once, and it
    is no longer the runner's current job; when [Runner.run] returns
    [None] or raises, nothing has been committed.  Nothing else of the
    manifest changes. *)
Theorem Runner_run_commits_returned_job fuel jobOptions w :
  let out := Runner_run lookupClass Defaults_shouldRun toEnum_Priority findSchemaErrors
               ConfigTask_required Instance_lastChange getPlanClassForWorkflow now
               fuel jobOptions w in
  manifest_of out.2
  = match out.1 with
    | inr (Some job) => Manifest_commitJob job (manifest_of w)
    | _ => manifest_of w
    end
  /\ forall job, out.1 = inr (Some job) ->
       job = length (jobs w) /\ Runner.currentJob (runner out.2) = None.
Proof.
  unfold Runner_run, try_finally, try_except.
  unfold mbind, M_bind, get, modify, mret, M_ret.
  set (opts := default JobOptions_defaults jobOptions).
  destruct (truthy (Manifest.baseDir (Runner.manifest (runner w)))); cbv beta iota;
    (destruct (if JobOptions.commit opts && negb (JobOptions.dirty opts) then _ else false);
     [cbn; split; [reflexivity|discriminate]|]);
    match goal with
    | |- context [Runner_createJob _ _ _ ?w'] =>
        pose proof (manifest_Runner_createJob opts w') as Hc;
        destruct (Runner_createJob getPlanClassForWorkflow now opts w') as [[e|job] w1] eqn:Ec;
        cbn [snd] in Hc
    end;
    try (cbn; split; [unfold manifest_of in *; cbn in *; congruence|discriminate]);
    apply Runner_createJob_fresh in Ec; cbn [jobs set_cwd] in Ec;
    match goal with
    | |- context [Job_run _ _ _ _ _ _ _ _ fuel ?j ?w2] =>
        pose proof (proj1 (proj2 (proj2 (proj2 (manifest_engine fuel)))) j w2) as Hr;
        destruct (Job_run lookupClass Defaults_shouldRun toEnum_Priority findSchemaErrors
                    ConfigTask_required Instance_lastChange getPlanClassForWorkflow now
                    fuel j w2) as [[e2|[]] w3];
        cbn [snd] in Hr
    end;
    try match goal with |- context [is_Exception ?x] => destruct (is_Exception x) end;
    cbn; (split; [|first [discriminate
                         | intros ? H; injection H as <-; split; [exact Ec|reflexivity]]]);
    unfold manifest_of in *; cbn in *; rewrite Hr, Hc; reflexivity.
Qed.

Lemma Runner_run_isDirty_no_faults i repos w :
  Runner_run_isDirty no_faults i repos w = (inr (existsb (fun isDirty => isDirty) repos), w).
Proof.
  revert i. induction repos as [|[] rest IH]; intros i; [reflexivity|reflexivity|].
  cbn. apply IH.
Qed.

(** Without faults [Runner_run_with] is [Runner_run]. *)
Lemma Runner_run_with_no_faults fuel jobOptions w :
  Runner_run_with lookupClass Defaults_shouldRun toEnum_Priority findSchemaErrors
    ConfigTask_required Instance_lastChange getPlanClassForWorkflow now
    no_faults fuel jobOptions w
  = Runner_run lookupClass Defaults_shouldRun toEnum_Priority findSchemaErrors
      ConfigTask_required Instance_lastChange getPlanClassForWorkflow now
      fuel jobOptions w.
Proof.
  unfold Runner_run_with, Runner_run, try_finally, may_raise.
  change (getBaseDir_raises no_faults) with (@None PyExc).
  change (getRepos_raises no_faults) with (@None PyExc).
  change (chdir_raises no_faults) with (fun _ : string => @None PyExc).
  change (commitJob_raises no_faults) with (fun _ : nat => @None PyExc).
  unfold mbind, M_bind, get, modify, mret, M_ret. cbv beta iota.
  destruct (truthy (Manifest.baseDir (Runner.manifest (runner w)))); cbv beta iota;
    (destruct (JobOptions.commit (default JobOptions_defaults jobOptions)
               && negb (JobOptions.dirty (default JobOptions_defaults jobOptions)));
     [destruct (Manifest.localEnv (Runner.manifest (runner w))) as [repos|];
      [rewrite Runner_run_isDirty_no_faults|]|]);
    reflexivity.
Qed.

Lemma Runner_run_isDirty_raises faults i repos w r w1 :
  Runner_run_isDirty faults i repos w = (r, w1) ->
  w1 = w /\ forall e, r = inl e -> exists j, isDirty_raises faults j = Some e.
Proof.
  revert i. induction repos as [|d rest IH]; intros i; cbn [Runner_run_isDirty].
  - intros H. injection H as <- <-. split; [reflexivity|discriminate].
  - unfold mbind, M_bind, may_raise.
    destruct (isDirty_raises faults i) as [e0|] eqn:F.
    + intros H. injection H as <- <-. split; [reflexivity|].
      intros e H. injection H as <-. exists i. exact F.
    + cbn. destruct d.
      * intros H. injection H as <- <-. split; [reflexivity|discriminate].
      * apply IH.
Qed.

Lemma Runner_createJob_raises opts w e w1 :
  Runner_createJob getPlanClassForWorkflow now opts w = (inl e, w1) ->
  is_Exception e = true ->
  w1 = w
  /\ (e = AssertionError ""
      \/ e = UnfurlError ("unknown workflow: " +:+ py_str (JobOptions.workflow opts))).
Proof.
  unfold Runner_createJob, Job_init, Runner_incrementChangeId.
  unfold mbind, M_bind, get, modify, mret, M_ret, raise, getJob.
  destruct (negb (truthy _)).
  { intros H _. injection H as <- <-. split; [reflexivity|left; reflexivity]. }
  destruct (getPlanClassForWorkflow _).
  - cbn. destruct (JobOptions.parentJob opts) as [parent|]; cbn; [|discriminate].
    destruct (jobs w !! parent); cbn; [discriminate|].
    intros H. injection H as <- _. discriminate.
  - intros H _. injection H as <- <-. split; [reflexivity|right; reflexivity].
Qed.

Lemma may_raise_inv fault w r w1 :
  may_raise fault w = (r, w1) ->
  w1 = w /\ match fault with Some e => r = inl e | None => r = inr tt end.
Proof.
  unfold may_raise. destruct fault; intros H; injection H as <- <-; split; reflexivity.
Qed.

(** X17.  what [Runner.run] lets escape.  An exception of the job is caught
    and recorded on the job, so a Python exception that comes out of
    [Runner.run] was raised by [createJob] before a job existed (the failed
    assertion on [manifest.tosca], or [UnfurlError] for an unknown
    workflow), by a call into the operating system or the manifest ahead
    of it ([getBaseDir], [os.chdir], [getRepos], [isDirty]), by
    [commitJob], or by the [os.chdir] that goes back to the starting
    directory.  In the first two cases the store is left as it was
    found. *)
Theorem Runner_run_raises_before_job faults fuel jobOptions w e :
  let out := Runner_run_with lookupClass Defaults_shouldRun toEnum_Priority findSchemaErrors
               ConfigTask_required Instance_lastChange getPlanClassForWorkflow now
               faults fuel jobOptions w in
  out.1 = inl e -> is_Exception e = true ->
  (out.2 = w
   /\ (e = AssertionError ""
       \/ e = UnfurlError ("unknown workflow: "
                            +:+ py_str (JobOptions.workflow
                                          (default JobOptions_defaults jobOptions)))
       \/ raised_ahead faults w e))
  \/ commitJob_raises faults (length (jobs w)) = Some e
  \/ chdir_raises faults (cwd w) = Some e.
Proof.
  intros out. subst out.
  match goal with
  | |- context [Runner_run_with ?a1 ?a2 ?a3 ?a4 ?a5 ?a6 ?a7 ?a8 faults fuel jobOptions w] =>
      destruct (Runner_run_with a1 a2 a3 a4 a5 a6 a7 a8 faults fuel jobOptions w)
        as [r0 w0] eqn:Hout
  end.
  cbn [fst snd]. intros -> He.
  unfold Runner_run_with, try_finally in Hout.
  unfold mbind at 1, M_bind at 1, get at 1 in Hout. cbv beta iota in Hout.
  set (opts := default JobOptions_defaults jobOptions) in *.
  set (baseDir := Manifest.baseDir (Runner.manifest (runner w))) in *.
  match type of Hout with
  | context [let (r, w') := ?b w in _] => set (body := b) in Hout
  end.
  assert (Hcwd : forall c, set_cwd (cwd w) (set_cwd c w) = w)
    by (intros c; destruct w; reflexivity).
  assert (Hcwd' : set_cwd (cwd w) w = w) by (destruct w; reflexivity).
  assert (Hbody : forall w',
    body w = (inl e, w') ->
    (set_cwd (cwd w) w' = w
     /\ (e = AssertionError ""
         \/ e = UnfurlError ("unknown workflow: " +:+ py_str (JobOptions.workflow opts))
         \/ raised_ahead faults w e))
    \/ commitJob_raises faults (length (jobs w)) = Some e).
  { intros w' Hb. subst body. unfold raised_ahead. fold baseDir.
    apply bind_inl_inv in Hb as [Hb|([] & w1 & H1 & Hb)].
    { apply may_raise_inv in Hb as [-> Hf].
      destruct (getBaseDir_raises faults) as [e1|]; [|discriminate].
      injection Hf as <-. left. split; [exact Hcwd'|]. right; right; left. reflexivity. }
    apply may_raise_inv in H1 as [-> _].
    apply bind_inl_inv in Hb as [Hb|([] & w1 & H1 & Hb)].
    { destruct (truthy baseDir); [|discriminate].
      apply bind_inl_inv in Hb as [Hb|([] & w1 & H1 & Hb)]; [|discriminate].
      apply may_raise_inv in Hb as [-> Hf].
      destruct (chdir_raises faults (py_str baseDir)) as [e1|]; [|discriminate].
      injection Hf as <-. left. split; [exact Hcwd'|]. right; right; right; left. reflexivity. }
    assert (Hw1 : set_cwd (cwd w) w1 = w /\ jobs w1 = jobs w).
    { destruct (truthy baseDir).
      - apply bind_inr_inv in H1 as ([] & w2 & H1 & H2).
        apply may_raise_inv in H1 as [-> _]. injection H2 as <-.
        split; [apply Hcwd|reflexivity].
      - injection H1 as <-. split; [exact Hcwd'|reflexivity]. }
    destruct Hw1 as [Hw1 Hjobs]. clear H1.
    apply bind_inl_inv in Hb as [Hb|(dirtyRepo & w2 & H1 & Hb)].
    { destruct (JobOptions.commit opts && negb (JobOptions.dirty opts)); [|discriminate].
      destruct (Manifest.localEnv (Runner.manifest (runner w))) as [repos|]; [|discriminate].
      apply bind_inl_inv in Hb as [Hb|([] & w2 & H1 & Hb)].
      - apply may_raise_inv in Hb as [-> Hf].
        destruct (getRepos_raises faults) as [e1|]; [|discriminate].
        injection Hf as <-. left. split; [exact Hw1|]. do 4 right. left. reflexivity.
      - apply may_raise_inv in H1 as [-> _].
        apply Runner_run_isDirty_raises in Hb as [-> Hi].
        left. split; [exact Hw1|]. do 5 right. apply Hi. reflexivity. }
    assert (w2 = w1) as ->.
    { destruct (JobOptions.commit opts && negb (JobOptions.dirty opts));
        [|injection H1 as _ <-; reflexivity].
      destruct (Manifest.localEnv (Runner.manifest (runner w))) as [repos|];
        [|injection H1 as _ <-; reflexivity].
      apply bind_inr_inv in H1 as ([] & w2' & H1 & H2).
      apply may_raise_inv in H1 as [-> _].
      apply Runner_run_isDirty_raises in H2 as [-> _]. reflexivity. }
    clear H1. destruct dirtyRepo; [discriminate|].
    apply bind_inl_inv in Hb as [Hb|(job & w2 & H1 & Hb)].
    { apply Runner_createJob_raises in Hb as [-> Hor]; [|exact He].
      left. split; [exact Hw1|]. destruct Hor as [->| ->]; [left|right; left]; reflexivity. }
    apply Runner_createJob_fresh in H1. rewrite Hjobs in H1. subst job.
    right.
    apply bind_inl_inv in Hb as [Hb|([] & w3 & _ & Hb)]; [discriminate|].
    apply bind_inl_inv in Hb as [Hb|([] & w4 & _ & Hb)].
    { exfalso. unfold try_except in Hb.
      match type of Hb with
      | context [let (_, _) := ?m ?x in _] => destruct (m x) as [[e'|[]] w5]
      end; [|discriminate].
      destruct (is_Exception e') eqn:He'; [discriminate|].
      injection Hb as <- _. congruence. }
    apply bind_inl_inv in Hb as [Hb|([] & w5 & _ & Hb)]; [discriminate|].
    apply bind_inl_inv in Hb as [Hb|([] & w6 & _ & Hb)]; [|discriminate].
    apply may_raise_inv in Hb as [_ Hf].
    destruct (commitJob_raises faults (length (jobs w))) as [e1|]; [|discriminate].
    injection Hf as <-. reflexivity. }
  destruct (body w) as [r w'] eqn:Eb.
  unfold mbind, M_bind, may_raise, modify, raise, mret, M_ret in Hout.
  destruct (chdir_raises faults (cwd w)) as [e2|] eqn:F2.
  { cbn in Hout. injection Hout as <- _. right; right. reflexivity. }
  cbn in Hout. injection Hout as -> <-.
  destruct (Hbody w' eq_refl) as [[Hst Hor]|Hc].
  - left. split; [exact Hst|exact Hor].
  - right; left. exact Hc.
Qed.


End RunnerProperties.

Lemma Runner_run_raises_before_job_witness :
  let faults :=
    mkFaults None (fun path => if String.eqb path "/nowhere" then
                                 Some (Exception "No such file or directory: /nowhere")
                               else None)
             None (fun _ => None) (fun _ => None) in
  let w := set_runner
             (Runner_set_manifest
                (Manifest.mk 0 (VObject 1) (VStr "/nowhere") None []) (runner (ex_world None)))
             (ex_world None) in
  let out := Runner_run_with ex_lookupClass (VPriority Priority.required) ex_toEnum
               (fun _ _ => []) ex_required ex_lastChange (ex_getPlan "SetAttribute") ex_now
               faults 2000 None w in
  out.1 = inl (Exception "No such file or directory: /nowhere")
  /\ ((out.2 = w
       /\ (Exception "No such file or directory: /nowhere" = AssertionError ""
           \/ Exception "No such file or directory: /nowhere"
              = UnfurlError ("unknown workflow: "
                              +:+ py_str (JobOptions.workflow JobOptions_defaults))
           \/ raised_ahead faults w (Exception "No such file or directory: /nowhere")))
      \/ commitJob_raises faults (length (jobs w))
         = Some (Exception "No such file or directory: /nowhere")
      \/ chdir_raises faults (cwd w) = Some (Exception "No such file or directory: /nowhere")).
Proof.
  intros faults w out. split; [reflexivity|].
  exact (Runner_run_raises_before_job ex_lookupClass (VPriority Priority.required)
           ex_toEnum (fun _ _ => []) ex_required ex_lastChange
           (ex_getPlan "SetAttribute") ex_now faults 2000 None w
           (Exception "No such file or directory: /nowhere") eq_refl eq_refl).
Defined.

(** ** Job.cantRunTask *)

(** X18.  [Job.cantRunTask] never raises.  Its [finally] clause returns, so
    whatever the checks and the configurator do, the answer is [False] or a
    string that starts with "could not run: ". *)
Theorem Job_cantRunTask_answers lookupClass findSchemaErrors task w :
  match (Job_cantRunTask lookupClass findSchemaErrors task w).1 with
  | inl e => is_Exception e = false
  | inr (VBool b) => b = false
  | inr (VStr answer) => exists reason, answer = "could not run: " +:+ reason
  | inr _ => False
  end.
Proof.
  unfold Job_cantRunTask. unfold mbind at 1, M_bind at 1, try_except at 1.
  match goal with
  | |- context [let (s, w') := (let (s0, w0) := ?body w in _) in _] =>
      destruct (body w) as [[e|[canRun reason]] w1]
  end.
  - destruct (is_Exception e) eqn:He; [|exact He].
    cbn. eexists. reflexivity.
  - destruct canRun; cbn; [reflexivity|]. eexists. reflexivity.
Qed.

(** ** The configurator property *)

(** What the first read of the [configurator] property leaves: the task
    with its configurator, and nothing else changed. *)
Lemma ConfigTask_configurator_once lookupClass task w t c w1 :
  tasks w !! task = Some t ->
  ConfigTask_configurator lookupClass task w = (inr c, w1) ->
  ConfigTask_configurator lookupClass task w1 = (inr c, w1)
  /\ tasks w1 !! task = Some (ConfigTask.set__configurator (Some c) t)
  /\ instances w1 = instances w /\ jobs w1 = jobs w /\ runner w1 = runner w.
Proof.
  intros Ht. unfold ConfigTask_configurator, ConfigurationSpec_create.
  unfold mbind, M_bind, getTask, modifyTask, modify, lift, mret, M_ret.
  rewrite Ht. destruct (ConfigTask._configurator t) as [c0|] eqn:Ec.
  - intros H. injection H as <- <-. rewrite Ht, Ec.
    repeat split; try reflexivity. f_equal. destruct t; cbn in *. subst. reflexivity.
  - destruct (lookupClass _) as [e|cls]; [discriminate|].
    intros H. injection H as <- <-. cbn [tasks set_tasks instances jobs runner].
    rewrite list_lookup_alter_eq, Ht. cbn. repeat split; reflexivity.
Qed.

(** X19.  the [configurator] property of a task.  The configurator is created
    on the first read and kept on the task: a later read answers the same
    configurator and changes nothing, whatever [lookupClass] would answer
    by then. *)
Theorem ConfigTask_configurator_cached lookupClass lookupClass' task w t c w1 :
  tasks w !! task = Some t ->
  ConfigTask_configurator lookupClass task w = (inr c, w1) ->
  ConfigTask_configurator lookupClass' task w1 = (inr c, w1)
  /\ ConfigTask._configurator <$> tasks w1 !! task = Some (Some c).
Proof.
  intros Ht Hc.
  destruct (ConfigTask_configurator_once lookupClass task w t c w1 Ht Hc) as (_ & Ht1 & _).
  unfold ConfigTask_configurator, mbind, M_bind, getTask, mret, M_ret.
  rewrite Ht1. destruct t; split; reflexivity.
Qed.

Section CantRun.
Variable lookupClass : PyVal -> PyExc + (ConfigurationSpec.t -> Configurator).
Variable findSchemaErrors : PyVal -> PyVal -> list string.

(** X20.  when [Job.cantRunTask] lets a task run.  It answers [False] only
    for a task that carries no error, whose target misses no required
    dependency, whose inputs and preconditions pass their schemas and
    whose configurator answered [canRun] with [True] itself (and
    [canDryRun] with a true value when the job is a dry run): a [canRun]
    that raises, as on a class that does not define it, or that answers
    anything but [True] is refused. *)
Theorem Job_cantRunTask_False_only_if task w t target :
  tasks w !! task = Some t ->
  instances w !! ConfigTask.target t = Some target ->
  (Job_cantRunTask lookupClass findSchemaErrors task w).1 = inr (VBool false) ->
  ConfigTask.errors t = []
  /\ (forall dep, dep ∈ Instance.operationalDependencies target ->
        dep.1.2 = true \/ dep.2 = false)
  /\ ConfigurationSpec_findInvalidateInputs findSchemaErrors (ConfigTask.configSpec t)
       (ConfigurationSpec.inputs (ConfigTask.configSpec t)) = []
  /\ ConfigurationSpec_findInvalidPreconditions findSchemaErrors (ConfigTask.configSpec t)
       target = []
  /\ exists c,
       (ConfigTask_configurator lookupClass task w).1 = inr c
       /\ cfg_canRun c (ConfigTask.target t) = inr (VBool true)
       /\ (ConfigTask.dryRun t = true -> cfg_canDryRun c (ConfigTask.target t) = true).
Proof.
  intros Ht Hi. unfold Job_cantRunTask.
  unfold mbind at 1, M_bind at 1, try_except at 1.
  match goal with
  | |- context [let (s, w') := (let (s0, w0) := ?body w in _) in _] =>
      destruct (body w) as [[e|[canRun reason]] w1] eqn:Hbody
  end.
  { destruct (is_Exception e); cbn; discriminate. }
  destruct canRun; cbn; [intros _|discriminate].
  apply bind_inr_inv in Hbody as (t' & w' & Hget & Hbody).
  unfold getTask in Hget. rewrite Ht in Hget. injection Hget as <- <-.
  destruct (ConfigTask.errors t) as [|err errs]; [|discriminate].
  apply bind_inr_inv in Hbody as (noDryRun & w2 & Hdry & Hbody).
  destruct noDryRun; [discriminate|].
  apply bind_inr_inv in Hbody as (target' & w3 & Hget & Hbody).
  assert (Hfirst : instances w2 = instances w
            /\ (ConfigTask.dryRun t = true ->
                exists c, ConfigTask_configurator lookupClass task w = (inr c, w2)
                          /\ cfg_canDryRun c (ConfigTask.target t) = true)
            /\ (ConfigTask.dryRun t = false -> w2 = w)).
  { destruct (ConfigTask.dryRun t).
    - apply bind_inr_inv in Hdry as (c & w4 & Hc & Hret). injection Hret as Hret <-.
      destruct (ConfigTask_configurator_once lookupClass task w t c w4 Ht Hc)
        as (_ & _ & Hinst & _ & _).
      split; [exact Hinst|]. split; [|discriminate]. intros _. exists c. split; [exact Hc|].
      apply negb_false_iff. exact Hret.
    - injection Hdry as <-. split; [reflexivity|]. split; [discriminate|reflexivity]. }
  destruct Hfirst as (Hinst & Hdry1 & Hdry0).
  unfold getInstance in Hget. rewrite Hinst, Hi in Hget. injection Hget as <- <-.
  destruct (filter _ (Instance.operationalDependencies target)) as [|m ms] eqn:Ef;
    [|discriminate].
  destruct (ConfigurationSpec_findInvalidateInputs _ _ _) as [|x xs]; [|discriminate].
  destruct (ConfigurationSpec_findInvalidPreconditions _ _ _) as [|y ys]; [|discriminate].
  apply bind_inr_inv in Hbody as (c & w4 & Hc & Hbody).
  apply bind_inr_inv in Hbody as (errors & w5 & Hcan & Hbody).
  unfold lift in Hcan.
  destruct (cfg_canRun c (ConfigTask.target t)) as [e|errors'] eqn:Ecan; [discriminate|].
  injection Hcan as -> <-.
  assert (Herrors : errors = VBool true).
  { destruct errors as [ | [|] | | | | | | | | | | |]; try discriminate. reflexivity. }
  subst errors.
  split; [reflexivity|]. split; [|split; [reflexivity|split; [reflexivity|]]].
  - intros dep Hin.
    destruct (dep.1.2) eqn:E1; [left; reflexivity|].
    destruct (dep.2) eqn:E2; [|right; reflexivity].
    exfalso.
    assert (Hf : dep ∈ filter (fun dep => negb dep.1.2 && dep.2 = true)
                              (Instance.operationalDependencies target)).
    { apply list_elem_of_filter. split; [|exact Hin]. rewrite E1, E2. reflexivity. }
    rewrite Ef in Hf. inversion Hf.
  - destruct (ConfigTask.dryRun t) eqn:Edry.
    + destruct (Hdry1 eq_refl) as (c0 & Hc0 & Hcd).
      destruct (ConfigTask_configurator_once lookupClass task w t c0 w2 Ht Hc0)
        as (Hagain & _).
      rewrite Hagain in Hc. injection Hc as <- <-.
      exists c0. rewrite Hc0. split; [reflexivity|]. split; [exact Ecan|]. intros _. exact Hcd.
    + rewrite (Hdry0 eq_refl) in Hc. exists c. rewrite Hc.
      split; [reflexivity|]. split; [exact Ecan|discriminate].
Qed.

End CantRun.

Lemma ConfigTask_configurator_cached_witness :
  exists c w1,
    ConfigTask_configurator ex_lookupClass 0 (ex_runTask_world "SetAttribute") = (inr c, w1)
    /\ ConfigTask_configurator (fun _ => inl (UnfurlError "no classes left")) 0 w1
       = (inr c, w1).
Proof.
  destruct (tasks (ex_runTask_world "SetAttribute") !! 0) as [t|] eqn:Et;
    [|vm_compute in Et; discriminate].
  destruct (ConfigTask_configurator ex_lookupClass 0 (ex_runTask_world "SetAttribute"))
    as [[e|c] w1] eqn:Ec; [vm_compute in Ec; discriminate|].
  exists c, w1. split; [reflexivity|].
  exact (proj1 (ConfigTask_configurator_cached ex_lookupClass
                  (fun _ => inl (UnfurlError "no classes left")) 0
                  (ex_runTask_world "SetAttribute") t c w1 Et Ec)).
Defined.

Lemma Job_cantRunTask_False_only_if_witness :
  exists c,
    (ConfigTask_configurator ex_lookupClass 0 (ex_runTask_world "SetAttribute")).1 = inr c
    /\ cfg_canRun c 0 = inr (VBool true).
Proof.
  destruct (tasks (ex_runTask_world "SetAttribute") !! 0) as [t|] eqn:Et;
    [|vm_compute in Et; discriminate].
  assert (Htarget : ConfigTask.target t = 0).
  { vm_compute in Et. injection Et as <-. reflexivity. }
  assert (Hi : instances (ex_runTask_world "SetAttribute") !! ConfigTask.target t
               = Some ex_instance) by (rewrite Htarget; reflexivity).
  destruct (Job_cantRunTask_False_only_if ex_lookupClass (fun _ _ => []) 0
              (ex_runTask_world "SetAttribute") t ex_instance Et Hi)
    as (_ & _ & _ & _ & c & Hc & Hcan & _); [vm_compute; reflexivity|].
  exists c. rewrite Htarget in Hcan. split; [exact Hc|exact Hcan].
Defined.

(** ** Job.createTask and Job.getCandidateTasks *)

(** What [ConfigTask.__init__] does in a store that holds the job and
    the target: the new task is appended, with no error and no
    configurator. *)
Lemma ConfigTask_init_appends now job spec target pid reason w j i :
  jobs w !! job = Some j -> instances w !! target = Some i ->
  exists task w1,
    ConfigTask_init now job spec target pid reason w = (inr (length (tasks w)), w1)
    /\ tasks w1 = tasks w ++ [task]
    /\ jobs w1 = jobs w /\ instances w1 = instances w /\ runner w1 = runner w
    /\ ConfigTask.errors task = [] /\ ConfigTask._configurator task = None
    /\ ConfigTask.generator task = None
    /\ ConfigTask.configSpec task = spec /\ ConfigTask.target task = target
    /\ ConfigTask.job task = job
    /\ ConfigTask.changeId task = parentId_or pid (Job.changeId j)
    /\ ConfigTask.parentId task = parentId_or pid (Job.changeId j)
    /\ ConfigTask.dryRun task = Job.dryRun j.
Proof.
  intros Hj Hi. unfold ConfigTask_init.
  unfold mbind, M_bind, getJob, getInstance, get, modify, mret, M_ret.
  rewrite Hj, Hi. eexists _, _. split; [reflexivity|]. cbn. repeat split; reflexivity.
Qed.

Section CreateTask.
Variable lookupClass : PyVal -> PyExc + (ConfigurationSpec.t -> Configurator).
Variable findSchemaErrors : PyVal -> PyVal -> list string.
Variable now : PyVal.

(** A task of the store that carries an error is refused by
    [cantRunTask] before anything else is looked at. *)
Lemma Job_cantRunTask_errors task w t err errs :
  tasks w !! task = Some t -> ConfigTask.errors t = err :: errs ->
  Job_cantRunTask lookupClass findSchemaErrors task w
  = (inr (VStr "could not run: could not create task"), w).
Proof.
  intros Ht He. unfold Job_cantRunTask.
  unfold mbind, M_bind, try_except, getTask, mret, M_ret. rewrite Ht, He. reflexivity.
Qed.

(** X21.  [Job.createTask] with a class that cannot be found.  When
    [lookupClass] raises for the spec's class name, [createTask] does not:
    it returns a new task, the last of the store, that carries the error
    "unable to create task" and has no configurator; [cantRunTask] then
    refuses it with "could not create task". *)
Theorem Job_createTask_unknown_class job spec target pid reason w j i e :
  jobs w !! job = Some j -> instances w !! target = Some i ->
  lookupClass (ConfigurationSpec.className spec) = inl e -> is_Exception e = true ->
  let out := Job_createTask lookupClass now job spec target pid reason w in
  let task := length (tasks w) in
  out.1 = inr task
  /\ length (tasks out.2) = S (length (tasks w))
  /\ ConfigTask.errors <$> tasks out.2 !! task = Some ["unable to create task"]
  /\ ConfigTask._configurator <$> tasks out.2 !! task = Some None
  /\ (Job_cantRunTask lookupClass findSchemaErrors task out.2).1
     = inr (VStr "could not run: could not create task").
Proof.
  intros Hj Hi Hl He out task.
  destruct (ConfigTask_init_appends now job spec target pid reason w j i Hj Hi)
    as (t & w1 & Hinit & Hts & _ & _ & _ & Herr & Hcfg & _ & Hspec & _).
  assert (Ht1 : tasks w1 !! task = Some t).
  { rewrite Hts. apply list_lookup_middle. reflexivity. }
  set (t2 := ConfigTask.set_errors (ConfigTask.errors t ++ ["unable to create task"]) t).
  assert (Hout : out = (inr task, set_tasks (alter (fun x => ConfigTask.set_errors
                          (ConfigTask.errors x ++ ["unable to create task"]) x) task (tasks w1)) w1)).
  { subst out. unfold Job_createTask. rewrite (bind_inr _ _ _ _ _ Hinit).
    unfold try_except, ConfigTask_configurator, ConfigurationSpec_create.
    unfold mbind, M_bind, getTask, lift, UnfurlTaskError, modifyTask, modify, mret, M_ret.
    fold task. rewrite Ht1, Hcfg, Hspec, Hl, He. reflexivity. }
  assert (Ht2 : tasks out.2 !! task = Some t2).
  { rewrite Hout. cbn [snd tasks set_tasks]. rewrite list_lookup_alter_eq, Ht1. reflexivity. }
  split; [rewrite Hout; reflexivity|]. split.
  { rewrite Hout. cbn [snd tasks set_tasks]. rewrite length_alter, Hts, length_app. cbn. lia. }
  split; [rewrite Ht2; cbn; rewrite Herr; reflexivity|].
  split; [rewrite Ht2; cbn; rewrite Hcfg; reflexivity|].
  erewrite Job_cantRunTask_errors; [reflexivity|exact Ht2|].
  subst t2. cbn. rewrite Herr. reflexivity.
Qed.

(** X22.  [Job.getCandidateTasks] on a request that carries an error.  The
    plan's request is answered with a task all the same: the job's
    filters are not asked, no configurator is looked up, the task carries
    one error, the text of the placeholder spec's class name, and
    [cantRunTask] refuses it. *)
Theorem Job_getCandidateTasks_error_request self resume result req rest w j i :
  resume result = PYield req rest -> truthy (req_error req) = true ->
  jobs w !! self = Some j -> instances w !! req_target req = Some i ->
  let out := Job_getCandidateTasks lookupClass now self (PSuspended resume) result w in
  let task := length (tasks w) in
  out.1 = inr (Some (task, rest))
  /\ ConfigTask.errors <$> tasks out.2 !! task
     = Some [py_str (ConfigurationSpec.className (req_configSpec req))]
  /\ ConfigTask._configurator <$> tasks out.2 !! task = Some None
  /\ (Job_cantRunTask lookupClass findSchemaErrors task out.2).1
     = inr (VStr "could not run: could not create task").
Proof.
  intros Hr He Hj Hi out task.
  destruct (ConfigTask_init_appends now self (req_configSpec req) (req_target req) None
              (req_reason req) w j i Hj Hi)
    as (t & w1 & Hinit & Hts & _ & _ & _ & Herr & Hcfg & _).
  assert (Ht1 : tasks w1 !! task = Some t).
  { rewrite Hts. apply list_lookup_middle. reflexivity. }
  set (msg := py_str (ConfigurationSpec.className (req_configSpec req))).
  set (t2 := ConfigTask.set_errors (ConfigTask.errors t ++ [msg]) t).
  assert (Hout : out = (inr (Some (task, rest)),
                        set_tasks (alter (fun x => ConfigTask.set_errors
                          (ConfigTask.errors x ++ [msg]) x) task (tasks w1)) w1)).
  { subst out. cbn [Job_getCandidateTasks]. rewrite Hr, He.
    rewrite (bind_inr _ _ _ _ _ Hinit). reflexivity. }
  assert (Ht2 : tasks out.2 !! task = Some t2).
  { rewrite Hout. cbn [snd tasks set_tasks]. rewrite list_lookup_alter_eq, Ht1. reflexivity. }
  split; [rewrite Hout; reflexivity|].
  split; [rewrite Ht2; cbn; rewrite Herr; reflexivity|].
  split; [rewrite Ht2; cbn; rewrite Hcfg; reflexivity|].
  erewrite Job_cantRunTask_errors; [reflexivity|exact Ht2|].
  subst t2. cbn. rewrite Herr. reflexivity.
Qed.

End CreateTask.

Lemma Job_createTask_unknown_class_witness :
  let out := Job_createTask ex_lookupClass ex_now 0 (ex_task_spec "NoSuchClass") 0 None
               (VStr "add") (ex_runTask_world "SetAttribute") in
  out.1 = inr 1
  /\ ConfigTask.errors <$> tasks out.2 !! 1 = Some ["unable to create task"]
  /\ (Job_cantRunTask ex_lookupClass (fun _ _ => []) 1 out.2).1
     = inr (VStr "could not run: could not create task").
Proof.
  destruct (jobs (ex_runTask_world "SetAttribute") !! 0) as [j|] eqn:Ej;
    [|vm_compute in Ej; discriminate].
  destruct (Job_createTask_unknown_class ex_lookupClass (fun _ _ => []) ex_now 0
              (ex_task_spec "NoSuchClass") 0 None (VStr "add")
              (ex_runTask_world "SetAttribute") j ex_instance
              (UnfurlError "unknown configurator class") Ej eq_refl eq_refl eq_refl)
    as (H1 & _ & H3 & _ & H5).
  split; [exact H1|]. split; [exact H3|exact H5].
Defined.

Lemma Job_getCandidateTasks_error_request_witness :
  let out := Job_getCandidateTasks ex_lookupClass ex_now 0
               (PSuspended (fun _ => PYield ex_error_request ex_empty_plan)) None
               (ex_runTask_world "SetAttribute") in
  out.1 = inr (Some (1, ex_empty_plan))
  /\ ConfigTask.errors <$> tasks out.2 !! 1 = Some ["no such template"].
Proof.
  destruct (jobs (ex_runTask_world "SetAttribute") !! 0) as [j|] eqn:Ej;
    [|vm_compute in Ej; discriminate].
  destruct (Job_getCandidateTasks_error_request ex_lookupClass (fun _ _ => []) ex_now 0
              (fun _ => PYield ex_error_request ex_empty_plan) None ex_error_request
              ex_empty_plan (ex_runTask_world "SetAttribute") j ex_instance
              eq_refl eq_refl Ej eq_refl)
    as (H1 & H2 & _).
  split; [exact H1|exact H2].
Defined.

(** ** Job.filterConfig *)

(** X23.  [Job.filterConfig].  The filter never rewrites a spec: what it lets
    through is the spec it was given, with no reason.  With [requiredOnly]
    set nothing gets through: the call answers "read only" or raises
    [AttributeError], as a spec has no attribute [required]. *)
Theorem Job_filterConfig_accepts opts config target :
  (forall c reason, Job_filterConfig opts config target = inr (Some c, reason) ->
     c = config /\ reason = VNone /\ JobOptions.requiredOnly opts = false)
  /\ (JobOptions.requiredOnly opts = true ->
      Job_filterConfig opts config target = inr (None, VStr "read only")
      \/ Job_filterConfig opts config target = inl (AttributeError "required")).
Proof.
  unfold Job_filterConfig. split.
  - intros c reason.
    destruct (JobOptions.readonly opts && _); [discriminate|].
    destruct (JobOptions.requiredOnly opts); [discriminate|].
    repeat match goal with
           | |- (if ?x then _ else _) = _ -> _ => destruct x; try discriminate
           end.
    intros H. injection H as <- <-. repeat split; reflexivity.
  - intros ->. destruct (JobOptions.readonly opts && _); [left|right]; reflexivity.
Qed.

(** ** Job.shouldRunTask *)

(** X24.  [Job.shouldRunTask].  The answer is asked of the configurator
    when the task has one and is the task's [priority] otherwise.  [True]
    stands for [required], [False] for [ignore] and any other answer goes
    through [toEnum]; the task runs exactly when that priority is above
    [ignore], and the task's [priority] is set to it unless it equals it
    already.  When asking raises, the task gets the error "shouldRun failed
    unexpectedly" and does not run. *)
Theorem Job_shouldRunTask_priority Defaults_shouldRun toEnum_Priority task w t should w1 :
  tasks w !! task = Some t ->
  Job_shouldRunTask Defaults_shouldRun toEnum_Priority task w = (inr should, w1) ->
  exists t1,
    tasks w1 !! task = Some t1
    /\ match (match ConfigTask._configurator t with
              | Some c => cfg_shouldRun c (ConfigTask.target t)
              | None => inr (ConfigTask_priority Defaults_shouldRun t)
              end) with
       | inl e =>
           should = false
           /\ t1 = ConfigTask.set_errors
                     (ConfigTask.errors t ++ ["shouldRun failed unexpectedly"]) t
       | inr answer =>
           exists p,
             match answer with
             | VBool b => inr (if b then Priority.required else Priority.ignore)
             | _ => toEnum_Priority answer
             end = inr p
             /\ should = (Priority.value Priority.ignore <? Priority.value p)%Z
             /\ t1 = (if py_eq (VPriority p) (ConfigTask_priority Defaults_shouldRun t)
                      then t else ConfigTask.set__priority (VPriority p) t)
             /\ py_eq (VPriority p) (ConfigTask_priority Defaults_shouldRun t1) = true
       end.
Proof.
  intros Ht H. unfold Job_shouldRunTask in H.
  apply bind_inr_inv in H as (asked & w2 & Htry & H).
  set (answer := match ConfigTask._configurator t with
                 | Some c => cfg_shouldRun c (ConfigTask.target t)
                 | None => inr (ConfigTask_priority Defaults_shouldRun t)
                 end).
  assert (Hbody :
    (getTask task ≫= fun t0 =>
     match ConfigTask._configurator t0 with
     | Some c => lift (cfg_shouldRun c (ConfigTask.target t0)) ≫= fun p => mret (Some p)
     | None => mret (Some (ConfigTask_priority Defaults_shouldRun t0))
     end) w = (match answer with inl e => inl e | inr a => inr (Some a) end, w)).
  { unfold mbind, M_bind, getTask, lift, mret, M_ret. rewrite Ht. subst answer.
    destruct (ConfigTask._configurator t) as [c|]; [|reflexivity].
    destruct (cfg_shouldRun c _); reflexivity. }
  apply try_except_inr_inv in Htry as [Hok|(e & w3 & Hraise & He & Hhandler)].
  - rewrite Hbody in Hok. destruct answer as [e|a]; [discriminate|].
    injection Hok as <- <-.
    apply bind_inr_inv in H as (p & w3 & Hp & H).
    assert (Hp' : match a with
                  | VBool b => inr (if b then Priority.required else Priority.ignore)
                  | _ => toEnum_Priority a
                  end = inr p /\ w3 = w).
    { destruct a; first [injection Hp as <- <-; split; reflexivity
                        | unfold lift in Hp; destruct (toEnum_Priority _);
                          [discriminate|injection Hp as <- <-; split; reflexivity]]. }
    destruct Hp' as [Hp' ->].
    apply bind_inr_inv in H as (t' & w3 & Hget & H).
    unfold getTask in Hget. rewrite Ht in Hget. injection Hget as <- <-.
    apply bind_inr_inv in H as ([] & w3 & Hset & H). injection H as <- <-.
    destruct (py_eq (VPriority p) (ConfigTask_priority Defaults_shouldRun t)) eqn:Eq;
      cbn [negb] in Hset; injection Hset as <-.
    + exists t. split; [exact Ht|]. exists p. rewrite Eq.
      split; [exact Hp'|]. split; [reflexivity|]. split; reflexivity.
    + cbn [tasks set_tasks]. rewrite list_lookup_alter_eq, Ht.
      eexists. split; [reflexivity|]. exists p. rewrite Eq.
      split; [exact Hp'|]. split; [reflexivity|]. split; [reflexivity|].
      unfold ConfigTask_priority. destruct t; cbn. apply Z.eqb_refl.
  - rewrite Hbody in Hraise. destruct answer as [e'|a]; [|discriminate].
    injection Hraise as <- <-.
    unfold UnfurlTaskError, modifyTask, modify, mbind, M_bind, mret, M_ret in Hhandler.
    injection Hhandler as <- <-. injection H as <- <-.
    cbn [tasks set_tasks]. rewrite list_lookup_alter_eq, Ht.
    eexists. split; [reflexivity|]. split; reflexivity.
Qed.

(** ** Runner.addWork *)

Lemma workDone_set_odict d k v : workDone_set d k v = odict_set d k v.
Proof.
  induction d as [|[k' v'] d IH]; simpl; [reflexivity|].
  destruct (String.eqb k k'); [reflexivity|]. rewrite IH. reflexivity.
Qed.

(** X25.  [Runner.addWork].  The task is filed in [workDone] of the runner's
    current job and of the task's own job, under the key made of the
    target's name, the spec's name and operation and the task's
    [changeId]; what these jobs held under other keys stays, and a task
    filed earlier under the same key is replaced. *)
Theorem Runner_addWork_files task w t target current w1 :
  tasks w !! task = Some t ->
  instances w !! ConfigTask.target t = Some target ->
  Runner.currentJob (runner w) = Some current ->
  Runner_addWork task w = (inr tt, w1) ->
  let key :=
    Instance.name target +:+ ":" +:+
    py_str (ConfigurationSpec.name (ConfigTask.configSpec t)) +:+ ":" +:+
    py_str (ConfigurationSpec.operation (ConfigTask.configSpec t)) +:+ ":" +:+
    pretty (ConfigTask.changeId t) in
  tasks w1 = tasks w
  /\ forall i j, jobs w !! i = Some j ->
       exists j1,
         jobs w1 !! i = Some j1
         /\ (forall k, k <> key ->
               workDone_get (Job.workDone j1) k = workDone_get (Job.workDone j) k)
         /\ workDone_get (Job.workDone j1) key
            = if bool_decide (i = current \/ i = ConfigTask.job t)
              then Some task else workDone_get (Job.workDone j) key.
Proof.
  intros Ht Hi Hcur H key. unfold Runner_addWork in H.
  rewrite (bind_getTask _ _ _ _ Ht) in H.
  apply bind_inr_inv in H as (target' & w2 & Hget & H).
  unfold getInstance in Hget. rewrite Hi in Hget. injection Hget as <- <-.
  fold key in H.
  apply bind_inr_inv in H as (w' & w2 & Hget & H). injection Hget as <- <-.
  rewrite Hcur in H.
  apply bind_inr_inv in H as (jc & w2 & Hget & H).
  unfold getJob in Hget. destruct (jobs w !! current) as [jc'|] eqn:Ejc; [|discriminate].
  injection Hget as <- <-.
  apply bind_inr_inv in H as ([] & w2 & Hset & H). injection Hset as <-.
  apply bind_inr_inv in H as (jt & w3 & Hget & H).
  unfold getJob in Hget.
  destruct (jobs _ !! ConfigTask.job t) as [jt'|] eqn:Ejt; [|discriminate].
  injection Hget as <- <-. injection H as <-.
  cbn [tasks jobs set_jobs]. split; [reflexivity|].
  intros i j Hj.
  set (f := fun j0 : Job.t => Job.set_workDone (workDone_set (Job.workDone j0) key task) j0).
  assert (Hf_key : forall j0, workDone_get (Job.workDone (f j0)) key = Some task).
  { intros j0. destruct j0. unfold f, workDone_get. cbn.
    rewrite workDone_set_odict. apply odict_get_set_eq. }
  assert (Hf_other : forall j0 k, k <> key ->
            workDone_get (Job.workDone (f j0)) k = workDone_get (Job.workDone j0) k).
  { intros j0 k Hk. destruct j0. unfold f, workDone_get. cbn.
    rewrite workDone_set_odict. apply odict_get_set_ne. congruence. }
  destruct (decide (i = ConfigTask.job t)) as [->|Hnt].
  - rewrite list_lookup_alter_eq.
    destruct (decide (ConfigTask.job t = current)) as [Hc|Hnc].
    + rewrite Hc, list_lookup_alter_eq. rewrite Hc in Hj. rewrite Hj. cbn.
      eexists. split; [reflexivity|]. split.
      * intros k Hk. rewrite !Hf_other by exact Hk. reflexivity.
      * rewrite Hf_key. rewrite bool_decide_true by (left; reflexivity). reflexivity.
    + rewrite list_lookup_alter_ne by congruence. rewrite Hj. cbn.
      eexists. split; [reflexivity|]. split.
      * intros k Hk. rewrite Hf_other by exact Hk. reflexivity.
      * rewrite Hf_key. rewrite bool_decide_true by (right; reflexivity). reflexivity.
  - rewrite list_lookup_alter_ne by congruence.
    destruct (decide (i = current)) as [->|Hnc].
    + rewrite list_lookup_alter_eq, Hj. cbn.
      eexists. split; [reflexivity|]. split.
      * intros k Hk. rewrite Hf_other by exact Hk. reflexivity.
      * rewrite Hf_key. rewrite bool_decide_true by (left; reflexivity). reflexivity.
    + rewrite list_lookup_alter_ne by congruence. rewrite Hj.
      eexists. split; [reflexivity|]. split; [reflexivity|].
      rewrite bool_decide_false by (intros [?|?]; contradiction). reflexivity.
Qed.

Lemma Job_shouldRunTask_priority_witness :
  exists should w1 t1,
    Job_shouldRunTask (VPriority Priority.required) ex_toEnum 0
      (ex_runTask_world "SetAttribute") = (inr should, w1)
    /\ tasks w1 !! 0 = Some t1
    /\ should = true.
Proof.
  destruct (tasks (ex_runTask_world "SetAttribute") !! 0) as [t|] eqn:Et;
    [|vm_compute in Et; discriminate].
  destruct (Job_shouldRunTask (VPriority Priority.required) ex_toEnum 0
              (ex_runTask_world "SetAttribute")) as [[e|should] w1] eqn:Hs;
    [vm_compute in Hs; discriminate|].
  destruct (Job_shouldRunTask_priority (VPriority Priority.required) ex_toEnum 0
              (ex_runTask_world "SetAttribute") t should w1 Et Hs) as (t1 & Ht1 & _).
  exists should, w1, t1. split; [reflexivity|]. split; [exact Ht1|].
  vm_compute in Hs. injection Hs as <- _. reflexivity.
Defined.

Lemma Runner_addWork_files_witness :
  exists w1 j1,
    Runner_addWork 0 (ex_runTask_world "SetAttribute") = (inr tt, w1)
    /\ jobs w1 !! 0 = Some j1
    /\ workDone_get (Job.workDone j1) "my_server:create:create:1" = Some 0.
Proof.
  destruct (tasks (ex_runTask_world "SetAttribute") !! 0) as [t|] eqn:Et;
    [|vm_compute in Et; discriminate].
  destruct (jobs (ex_runTask_world "SetAttribute") !! 0) as [j|] eqn:Ej;
    [|vm_compute in Ej; discriminate].
  assert (Ht : t = ltac:(let x := eval vm_compute in
                           (tasks (ex_runTask_world "SetAttribute") !! 0) in
                         match x with Some ?y => exact y end)).
  { vm_compute in Et. injection Et as <-. reflexivity. }
  destruct (Runner_addWork 0 (ex_runTask_world "SetAttribute")) as [[e|[]] w1] eqn:Ha;
    [vm_compute in Ha; discriminate|].
  assert (Hi : instances (ex_runTask_world "SetAttribute") !! ConfigTask.target t
               = Some ex_instance) by (rewrite Ht; reflexivity).
  destruct (Runner_addWork_files 0 (ex_runTask_world "SetAttribute") t ex_instance 0 w1
              Et Hi eq_refl Ha) as (_ & Hjobs).
  destruct (Hjobs 0 j Ej) as (j1 & Hj1 & _ & Hkey).
  exists w1, j1. split; [reflexivity|]. split; [exact Hj1|].
  rewrite Ht in Hkey. exact Hkey.
Defined.

(** ** ConfigTask.finished, then send *)

(** X26.  [ConfigTask.finished] closes the task.  Whatever the result, the
    task is left without a generator, with an empty [changeList], with the
    result's outputs and with the runner's next change id; a [send] after
    that raises [AttributeError], as [None] has no [send]. *)
Theorem ConfigTask_finished_closes_task required lastChange self r w t change :
  tasks w !! self = Some t ->
  let out := ConfigTask_finished required lastChange self r w in
  exists t1,
    tasks out.2 !! self = Some t1
    /\ ConfigTask.generator t1 = None
    /\ ConfigTask.changeList t1 = []
    /\ ConfigTask.outputs t1 = ConfiguratorResult.outputs r
    /\ ConfigTask.changeId t1 = (Runner.lastChangeId (runner w) + 1)%Z
    /\ (ConfigTask_send self change out.2).1 = inl (AttributeError "send").
Proof.
  intros Ht out.
  assert (Hsend : forall w1 t1, tasks w1 !! self = Some t1 -> ConfigTask.generator t1 = None ->
            (ConfigTask_send self change w1).1 = inl (AttributeError "send")).
  { intros w1 t1 H1 Hg. unfold ConfigTask_send, try_finally, ConfigTask_commitChanges,
      AttributeManager_commitChanges.
    unfold mbind, M_bind, getTask, modifyTask, modify, raise, mret, M_ret.
    rewrite H1, Hg. cbn [tasks set_tasks fst snd]. rewrite H1. reflexivity. }
  assert (Hout : exists t1, tasks out.2 !! self = Some t1
            /\ ConfigTask.generator t1 = None /\ ConfigTask.changeList t1 = []
            /\ ConfigTask.outputs t1 = ConfiguratorResult.outputs r
            /\ ConfigTask.changeId t1 = (Runner.lastChangeId (runner w) + 1)%Z).
  { subst out. unfold ConfigTask_finished.
    rewrite (bind_getTask _ _ _ _ Ht).
    unfold Runner_incrementChangeId, ResourceChanges_updateChanges, ConfigTask__updateStatus.
    unfold modifyTask, getTask, mbind, M_bind, modify, get, lift, mret, M_ret.
    destruct t as [spec target reason pid cid st dry vb cfg gen job cl res outs ls pr errs stg rc].
    destruct gen as [g|]; cbn [ConfigTask.generator];
      cbn [tasks set_tasks set_runner runner fst snd];
      rewrite ?list_lookup_alter_eq, Ht; cbn [fmap option_fmap option_map ConfigTask.set_generator
        ConfigTask.set_outputs ConfigTask.set_changeId ConfigTask.changeList];
      destruct cl as [|c cl']; cbn [tasks set_tasks set_runner runner fst snd ConfiguratorResult_getattr];
      rewrite ?list_lookup_alter_eq, ?Ht; cbn -[lookup alter Z.add];
      rewrite ?list_lookup_alter_eq, ?Ht; cbn -[lookup alter Z.add];
      eexists; (split; [reflexivity|]); repeat split; reflexivity. }
  destruct Hout as (t1 & H1 & Hg & Hc & Ho & Hi).
  exists t1. repeat split; try assumption. eapply Hsend; eassumption.
Qed.

(** ** TaskView.done *)

(** X27.  [TaskView.done].  A [Status] passed as [modified] is the status
    and counts as a modification.  The result carries [success], [result]
    and [outputs] as given and is marked applied exactly when the
    operation succeeded or modified the instance.  A success keeps
    [modified] and the status as given; a failure that modified the
    instance gets the status given or, without one, [error] when the task
    is required and [degraded] when it is not; a failure that modified
    nothing gets no status, whatever status was given.  The task gets an
    error exactly when an exception is captured. *)
Theorem TaskView_done_result required self success modified status result outputs
    captureException w t :
  tasks w !! self = Some t ->
  let given := match modified with VStatus _ => modified | _ => status end in
  let changed := match modified with VStatus _ => VBool true | _ => modified end in
  exists r w1 t1,
    TaskView_done required self success modified status result outputs captureException w
    = (inr r, w1)
    /\ tasks w1 !! self = Some t1
    /\ ConfigTask.errors t1
       = ConfigTask.errors t
         ++ (if is_None captureException then [] else [py_str captureException])
    /\ ConfiguratorResult.success r = success
    /\ ConfiguratorResult.result r = result
    /\ ConfiguratorResult.outputs r = outputs
    /\ ConfiguratorResult.applied r = VBool (truthy success || truthy changed)
    /\ ConfiguratorResult.modified r
       = (if truthy success then changed else VBool (truthy changed))
    /\ ConfiguratorResult.readyState r
       = (if truthy success then given
          else if truthy changed then
            if truthy given then given
            else VStatus (if required t1 then Status.error else Status.degraded)
          else VNone).
Proof.
  intros Ht given changed. subst given changed.
  unfold TaskView_done, UnfurlTaskError.
  unfold mbind, M_bind, getTask, modifyTask, modify, mret, M_ret.
  destruct (is_None captureException) eqn:Ece; cbn [negb];
    destruct modified as [ | b | n | s | s | p | items | items | v i p a | x | o | m | o];
    cbn -[truthy lookup alter];
    repeat match goal with
           | |- context [truthy ?m] => destruct (truthy m) eqn:?
           end;
    cbn -[truthy lookup alter]; rewrite ?list_lookup_alter_eq, ?Ht;
    cbn -[truthy lookup alter];
    try (exfalso; cbn [truthy] in *; congruence);
    eexists _, _, _; (split; [reflexivity|]); cbn -[truthy lookup alter];
    rewrite ?list_lookup_alter_eq, ?Ht, ?app_nil_r;
    (split; [try reflexivity|]);
    repeat split; try reflexivity;
    try (destruct t; reflexivity).
Qed.

Lemma ConfigTask_finished_closes_task_witness :
  let w := (ex_driver
              [OpCreateJob ex_empty_plan JobOptions_defaults;
               OpCreateTask 0 (ex_task_spec "SetAttribute") 0 None (VStr "add");
               OpStart 0; OpSend 0 SentNone]).1 in
  let out := ConfigTask_finished ex_required ex_lastChange 0
               (ConfiguratorResult_3 (VBool true) (VBool true) (VStatus Status.ok)) w in
  exists t1,
    tasks out.2 !! 0 = Some t1
    /\ ConfigTask.generator t1 = None
    /\ ConfigTask.changeList t1 = []
    /\ (ConfigTask_send 0 SentNone out.2).1 = inl (AttributeError "send").
Proof.
  intros w out.
  destruct (tasks w !! 0) as [t|] eqn:Et; [|vm_compute in Et; discriminate].
  destruct (ConfigTask_finished_closes_task ex_required ex_lastChange 0
              (ConfiguratorResult_3 (VBool true) (VBool true) (VStatus Status.ok)) w t
              SentNone Et) as (t1 & H1 & H2 & H3 & _ & _ & H6).
  exists t1. split; [exact H1|]. split; [exact H2|]. split; [exact H3|exact H6].
Defined.

Lemma TaskView_done_result_witness :
  exists r w1,
    TaskView_done ex_required 0 (VBool false) (VStatus Status.unknown) VNone VNone VNone
      (VStr "timeout") (ex_runTask_world "SetAttribute") = (inr r, w1)
    /\ ConfiguratorResult.applied r = VBool true
    /\ ConfiguratorResult.readyState r = VStatus Status.error
    /\ ConfigTask.errors <$> tasks w1 !! 0 = Some ["timeout"].
Proof.
  destruct (tasks (ex_runTask_world "SetAttribute") !! 0) as [t|] eqn:Et;
    [|vm_compute in Et; discriminate].
  destruct (TaskView_done_result ex_required 0 (VBool false) (VStatus Status.unknown)
              VNone VNone VNone (VStr "timeout") (ex_runTask_world "SetAttribute") t Et)
    as (r & w1 & t1 & Hd & Ht1 & He & _ & _ & _ & Ha & _ & Hs).
  exists r, w1. split; [exact Hd|]. split; [exact Ha|]. split; [exact Hs|].
  rewrite Ht1. cbn. rewrite He. vm_compute in Et. injection Et as <-. reflexivity.
Defined.

(** ** Job.stats *)

Lemma odict_get_notin {V} (d : list (string * V)) k : k ∉ d.*1 -> odict_get d k = None.
Proof.
  induction d as [|[k' v'] d IH]; cbn; [reflexivity|].
  intros Hnot. destruct (String.eqb k k') eqn:E.
  - apply String.eqb_eq in E. subst k'. exfalso. apply Hnot. left.
  - apply IH. intros Hin. apply Hnot. right. exact Hin.
Qed.

Lemma odict_get_None_notin {V} (d : list (string * V)) k : odict_get d k = None -> k ∉ d.*1.
Proof.
  induction d as [|[k' v'] d IH]; cbn; [intros _ H; inversion H|].
  destruct (String.eqb k k') eqn:E; [discriminate|].
  apply String.eqb_neq in E. intros H Hin.
  apply elem_of_cons in Hin as [?|Hin]; [congruence|]. exact (IH H Hin).
Qed.

Lemma odict_get_fold_set {V} (mods : list (string * V)) : forall d k,
  NoDup mods.*1 ->
  odict_get (fold_left (fun acc kv => odict_set acc kv.1 kv.2) mods d) k
  = match odict_get mods k with Some v => Some v | None => odict_get d k end.
Proof.
  induction mods as [|[k0 v0] mods IH]; intros d k Hnd; simpl.
  - reflexivity.
  - apply NoDup_cons in Hnd as [Hnot Hnd]. rewrite IH by exact Hnd.
    destruct (String.eqb k k0) eqn:E.
    + apply String.eqb_eq in E. subst k0.
      assert (Hk : odict_get mods k = None) by (apply odict_get_notin; exact Hnot).
      rewrite Hk. apply odict_get_set_eq.
    + apply String.eqb_neq in E. destruct (odict_get mods k); [reflexivity|].
      apply odict_get_set_ne. congruence.
Qed.

Lemma filter_sorted_insert (P : ConfigTask.t -> bool) t l :
  length (List.filter P (sorted_insert t l)) = length (List.filter P (t :: l)).
Proof.
  induction l as [|x l IH]; [reflexivity|]. cbn [sorted_insert].
  destruct (Status.value (stats_key t) <=? Status.value (stats_key x))%Z; [reflexivity|].
  cbn [List.filter] in *. destruct (P x), (P t); cbn [length] in *; lia.
Qed.

Lemma filter_sorted (P : ConfigTask.t -> bool) l :
  length (List.filter P (sorted l)) = length (List.filter P l).
Proof.
  induction l as [|x l IH]; [reflexivity|]. unfold sorted in *. cbn [foldr].
  rewrite filter_sorted_insert. cbn [List.filter]. destruct (P x); cbn [length]; lia.
Qed.

Lemma length_sorted l : length (sorted l) = length l.
Proof.
  pose proof (filter_sorted (fun _ => true) l) as H.
  assert (Hall : forall l' : list ConfigTask.t, List.filter (fun _ => true) l' = l').
  { induction l' as [|x l' IH]; [reflexivity|]. cbn. rewrite IH. reflexivity. }
  rewrite !Hall in H. exact H.
Qed.

Lemma sorted_insert_elem t l x : x ∈ sorted_insert t l -> x = t \/ x ∈ l.
Proof.
  induction l as [|y l IH]; cbn [sorted_insert].
  - intros H. apply list_elem_of_singleton in H. left. exact H.
  - destruct (Status.value (stats_key t) <=? Status.value (stats_key y))%Z.
    + intros H. apply elem_of_cons in H as [H|H]; [left; exact H|right; exact H].
    + intros H. apply elem_of_cons in H as [H|H].
      * right. rewrite H. left.
      * destruct (IH H) as [?|?]; [left; assumption|right; right; assumption].
Qed.

Lemma sorted_insert_sorted t l :
  StronglySorted stats_le l -> StronglySorted stats_le (sorted_insert t l).
Proof.
  induction 1 as [|y l Hl IH Hy]; cbn [sorted_insert].
  - repeat constructor.
  - destruct (Status.value (stats_key t) <=? Status.value (stats_key y))%Z eqn:E.
    + apply Z.leb_le in E. constructor; [constructor; assumption|].
      constructor; [exact E|].
      eapply Forall_impl; [exact Hy|]. intros z Hz. unfold stats_le in *. lia.
    + apply Z.leb_gt in E. constructor; [exact IH|].
      apply Forall_forall. intros z Hz. apply sorted_insert_elem in Hz as [->|Hz].
      * unfold stats_le. lia.
      * eapply Forall_forall in Hy; eassumption.
Qed.

Lemma sorted_sorted l : StronglySorted stats_le (sorted l).
Proof.
  induction l as [|x l IH]; [constructor|]. apply sorted_insert_sorted. exact IH.
Qed.

Lemma stats_label_inj a b : stats_label a = stats_label b -> a = b.
Proof. destruct a, b; cbn; intros H; first [reflexivity | discriminate]. Qed.

Lemma groupby_cons t rest :
  groupby (t :: rest)
  = match groupby rest with
    | (k, g) :: groups =>
        if (Status.value (stats_key t) =? Status.value k)%Z
        then (k, t :: g) :: groups
        else (stats_key t, [t]) :: (k, g) :: groups
    | [] => [(stats_key t, [t])]
    end.
Proof. reflexivity. Qed.

Lemma groupby_head x l :
  exists g gs, groupby (x :: l) = (stats_key x, g) :: gs.
Proof.
  revert x. induction l as [|y l IH]; intros x; rewrite groupby_cons.
  - eexists _, _. reflexivity.
  - destruct (IH y) as (g & gs & E). rewrite E.
    destruct (Status.value (stats_key x) =? Status.value (stats_key y))%Z eqn:Ex.
    + apply Z.eqb_eq, Status_value_inj in Ex. rewrite Ex. eexists _, _. reflexivity.
    + eexists _, _. reflexivity.
Qed.

Lemma stats_count_zero k l :
  Forall (fun y => Status.value (stats_key y) <> Status.value k) l -> stats_count k l = 0.
Proof.
  unfold stats_count. induction 1 as [|y l Hy _ IH]; [reflexivity|]. cbn [List.filter].
  apply Z.eqb_neq in Hy. rewrite Hy. exact IH.
Qed.

Lemma stats_groups_sorted l :
  StronglySorted stats_le l ->
  NoDup (stats_groups l).*1
  /\ forall k, odict_get (stats_groups l) (stats_label k)
               = if stats_count k l =? 0 then None else Some (stats_count k l).
Proof.
  induction 1 as [|x l Hl IH Hx]; [split; [constructor|reflexivity]|].
  destruct IH as [IHnd IHget].
  assert (Hcount : forall k, stats_count k (x :: l)
            = (if (Status.value (stats_key x) =? Status.value k)%Z then 1 else 0)
              + stats_count k l).
  { intros k. unfold stats_count. cbn [List.filter].
    destruct (Status.value (stats_key x) =? Status.value k)%Z; reflexivity. }
  unfold stats_groups in *. rewrite groupby_cons.
  destruct l as [|y l'].
  { split; [cbn; repeat constructor; set_solver|].
    intros k. rewrite Hcount. cbn.
    destruct (Status.value (stats_key x) =? Status.value k)%Z eqn:E.
    - apply Z.eqb_eq, Status_value_inj in E. subst k. rewrite String.eqb_refl. reflexivity.
    - destruct (String.eqb (stats_label k) (stats_label (stats_key x))) eqn:El; [|reflexivity].
      apply String.eqb_eq, stats_label_inj in El. subst k. rewrite Z.eqb_refl in E.
      discriminate. }
  destruct (groupby_head y l') as (g & gs & Eg). rewrite Eg in *.
  destruct (Status.value (stats_key x) =? Status.value (stats_key y))%Z eqn:Exy.
  - apply Z.eqb_eq, Status_value_inj in Exy. cbn [map fst snd fmap list_fmap] in *.
    split; [exact IHnd|].
    intros k. rewrite Hcount. specialize (IHget k). cbn [odict_get length] in *.
    destruct (String.eqb (stats_label k) (stats_label (stats_key y))) eqn:El.
    + apply String.eqb_eq, stats_label_inj in El. subst k. rewrite Exy, Z.eqb_refl.
      destruct (stats_count (stats_key y) (y :: l') =? 0) eqn:Ez; [discriminate|].
      injection IHget as ->. reflexivity.
    + assert (Hne : (Status.value (stats_key x) =? Status.value k)%Z = false).
      { apply Z.eqb_neq. intros H. apply Status_value_inj in H. subst k.
        rewrite Exy, String.eqb_refl in El. discriminate. }
      rewrite Hne. exact IHget.
  - assert (Hfresh : stats_count (stats_key x) (y :: l') = 0).
    { apply stats_count_zero. apply Z.eqb_neq in Exy.
      inversion Hl as [|? ? Hl' Hy]; subst.
      apply Forall_cons in Hx as [Hxy Hx].
      constructor; [intros H; apply Exy; symmetry; exact H|].
      apply Forall_forall. intros z Hz.
      eapply Forall_forall in Hy; [|exact Hz]. eapply Forall_forall in Hx; [|exact Hz].
      unfold stats_le in *. intros H. apply Exy. lia. }
    cbn [map fst snd fmap list_fmap] in *. split.
    + apply NoDup_cons. split; [|exact IHnd].
      specialize (IHget (stats_key x)). rewrite Hfresh in IHget. cbn [Nat.eqb] in IHget.
      apply odict_get_None_notin in IHget. exact IHget.
    + intros k. rewrite Hcount. specialize (IHget k). cbn [odict_get length] in *.
      destruct (String.eqb (stats_label k) (stats_label (stats_key x))) eqn:El.
      * apply String.eqb_eq, stats_label_inj in El. subst k.
        rewrite Z.eqb_refl, Hfresh. reflexivity.
      * assert (Hne : (Status.value (stats_key x) =? Status.value k)%Z = false).
        { apply Z.eqb_neq. intros H. apply Status_value_inj in H. subst k.
          rewrite String.eqb_refl in El. discriminate. }
        rewrite Hne. exact IHget.
Qed.

Lemma stats_groups_labels l n v :
  odict_get (stats_groups l) n = Some v -> exists k, n = stats_label k.
Proof.
  unfold stats_groups. induction (groupby l) as [|[k g] gs IH]; [discriminate|].
  cbn [map odict_get fst snd]. destruct (String.eqb n (stats_label k)) eqn:E.
  - apply String.eqb_eq in E. intros _. exists k. exact E.
  - exact IH.
Qed.

(** X28.  [Job.stats].  [total] is the number of tasks; [ok] and [error]
    count the tasks with these statuses; [skipped] counts the tasks with no
    status or the status [unknown]; [unknown] is always 0, as these tasks
    are the skipped ones; [changed] counts the tasks whose result is
    marked modified. *)
Theorem Job_stats_counts tasks :
  let stats := Job_stats tasks in
  odict_get stats "total" = Some (length tasks)
  /\ odict_get stats "ok" = Some (stats_count Status.ok tasks)
  /\ odict_get stats "error" = Some (stats_count Status.error tasks)
  /\ odict_get stats "skipped" = Some (stats_count Status.unknown tasks)
  /\ odict_get stats "unknown" = Some 0
  /\ odict_get stats "changed"
     = Some (length (List.filter
                       (fun t => match ConfigTask.result t with
                                 | Some r => truthy (ConfiguratorResult.modified r)
                                 | None => false
                                 end) tasks)).
Proof.
  intros stats. subst stats. unfold Job_stats.
  set (init := [("total", length (sorted tasks)); ("ok", 0); ("error", 0); ("unknown", 0);
                ("skipped", 0)]).
  assert (Hfold : fold_left
            (fun stats kg =>
               if negb (truthy (VStatus kg.1))
               then odict_set stats "skipped" (length kg.2)
               else odict_set stats (Status_name kg.1) (length kg.2))
            (groupby (sorted tasks)) init
          = fold_left (fun acc kv => odict_set acc kv.1 kv.2) (stats_groups (sorted tasks)) init).
  { unfold stats_groups. generalize init. induction (groupby (sorted tasks)) as [|[k g] gs IH];
      intros acc; [reflexivity|]. cbn [fold_left map fst snd]. rewrite <- IH.
    unfold stats_label. destruct (negb (truthy (VStatus k))); reflexivity. }
  rewrite Hfold. clear Hfold.
  destruct (stats_groups_sorted (sorted tasks) (sorted_sorted tasks)) as [Hnd Hget].
  assert (Hstat : forall n, n <> "changed" ->
    odict_get (odict_set (fold_left (fun acc kv => odict_set acc kv.1 kv.2)
                            (stats_groups (sorted tasks)) init) "changed"
                 (length (List.filter
                            (fun t => match ConfigTask.result t with
                                      | Some r => truthy (ConfiguratorResult.modified r)
                                      | None => false
                                      end) (sorted tasks)))) n
    = match odict_get (stats_groups (sorted tasks)) n with
      | Some v => Some v
      | None => odict_get init n
      end).
  { intros n Hn. rewrite odict_get_set_ne by congruence.
    apply odict_get_fold_set. exact Hnd. }
  assert (Hlabel : forall k n, n = stats_label k ->
    match odict_get (stats_groups (sorted tasks)) n with
    | Some v => Some v
    | None => Some 0
    end = Some (stats_count k tasks)).
  { intros k n ->. rewrite Hget. unfold stats_count. rewrite filter_sorted.
    destruct (length _ =? 0) eqn:E; [|reflexivity]. apply Nat.eqb_eq in E. rewrite E.
    reflexivity. }
  assert (Hnone : forall n, (forall k, n <> stats_label k) ->
            odict_get (stats_groups (sorted tasks)) n = None).
  { intros n Hn. destruct (odict_get (stats_groups (sorted tasks)) n) eqn:E; [|reflexivity].
    apply stats_groups_labels in E as [k ->]. exfalso. apply (Hn k). reflexivity. }
  repeat split.
  - rewrite Hstat by discriminate. rewrite Hnone by (intros []; discriminate).
    cbn. rewrite length_sorted. reflexivity.
  - rewrite Hstat by discriminate. apply (Hlabel Status.ok). reflexivity.
  - rewrite Hstat by discriminate. apply (Hlabel Status.error). reflexivity.
  - rewrite Hstat by discriminate. apply (Hlabel Status.unknown). reflexivity.
  - rewrite Hstat by discriminate. rewrite Hnone by (intros []; discriminate). reflexivity.
  - rewrite odict_get_set_eq, filter_sorted. reflexivity.
Qed.

(** The counts of a job with three tasks: one [ok], one without a status
    and one failed. *)
Example Job_stats_three_tasks :
  Job_stats ex_stats_tasks
  = [("total", 3); ("ok", 1); ("error", 1); ("unknown", 0); ("skipped", 1); ("changed", 1)].
Proof. vm_compute. reflexivity. Qed.
